(** * AptLearn portal API: a shallow embedding of [main.py]

    The handlers of [main.py] are embedded as computations in a small
    state-and-exception monad over the document store.  A collection is the
    list of its documents in insertion order, each paired with the [_id] the
    driver gave it; the fields of questions, users and progress records that
    the handlers read with [.get], remove with [.pop] or test with [$exists]
    are optional, the others follow [schemas.py].

    Conventions of the model:
    - the handlers are modelled for a configured database ([db] is not
      [None], so that [collection(name)] returns [db[name]]);
    - one clock reading [now] is taken per request;
    - Python integers are [Z]; the true division [score / total] is taken
      over the rationals (with fewer than 2^50 questions the correctly
      rounded double compares to the literal 0.6 exactly as the rational
      does to 3/5);
    - a BSON integer has 8 bytes: the driver raises [OverflowError], and
      sends nothing, when a query or a document holds a larger one.
      [submit_attempt] is the handler on the submissions the driver can
      encode; [post_attempt] puts it behind the driver's encoder;
    - a string is the sequence of its UTF-8 bytes. *)

From Stdlib Require Import ZArith NArith List String Ascii Bool Lia QArith.
From Stdlib Require Import DecimalString Sorted Permutation.
Import ListNotations.

Local Open Scope string_scope.
Local Open Scope list_scope.
Local Open Scope Z_scope.

(** ** Python and BSON values *)

(** [str(n)] for a Python integer. *)
Definition str_int (n : Z) : string := NilZero.string_of_int (Z.to_int n).

(** Truth value of a string read with [.get]: absent and empty are false. *)
Definition truthy (v : option string) : bool :=
  match v with
  | Some s => negb (String.eqb s "")
  | None => false
  end.

(** [a == v] where [a] is an integer and [v] the result of [.get]. *)
Definition py_eq (a : Z) (v : option Z) : bool :=
  match v with
  | Some k => a =? k
  | None => false
  end.

(** [x in l] on a list of integers. *)
Definition py_in (x : Z) (l : list Z) : bool := existsb (Z.eqb x) l.

(** [d.get(key, default)]. *)
Definition get_default {A : Type} (v : option A) (default : A) : A :=
  match v with
  | Some a => a
  | None => default
  end.

(** [a / b] (true division). *)
Definition truediv (a b : Z) : Q := inject_Z a / inject_Z b.

(** *** [bson.ObjectId]: twelve bytes, written as 24 hexadecimal digits *)

Definition ObjectId := N.

Definition hex_digit (d : N) : ascii :=
  nth (N.to_nat d)
      ["0"; "1"; "2"; "3"; "4"; "5"; "6"; "7";
       "8"; "9"; "a"; "b"; "c"; "d"; "e"; "f"]%char "0"%char.

Fixpoint hex_render (digits : nat) (n : N) (acc : string) : string :=
  match digits with
  | O => acc
  | S k => hex_render k (n / 16)%N (String (hex_digit (n mod 16)%N) acc)
  end.

(** [str(oid)]. *)
Definition str_oid (oid : ObjectId) : string := hex_render 24 oid "".

Definition hex_value (c : ascii) : option N :=
  let n := N_of_ascii c in
  if ((48 <=? n) && (n <=? 57))%N then Some (n - 48)%N
  else if ((97 <=? n) && (n <=? 102))%N then Some (n - 87)%N
  else if ((65 <=? n) && (n <=? 70))%N then Some (n - 55)%N
  else None.

(** The white space [bytes.fromhex] skips: tab, line feed, vertical tab,
    form feed, carriage return and space. *)
Definition is_space (c : ascii) : bool :=
  let n := N_of_ascii c in
  (((9 <=? n) && (n <=? 13)) || (n =? 32))%N.

(** [bytes.fromhex(s)]: two hexadecimal digits for each byte, white space
    being skipped in front of a byte and at the end; [None] stands for
    [ValueError]. *)
Fixpoint fromhex (s : string) : option (list N) :=
  match s with
  | EmptyString => Some []
  | String c s' =>
      if is_space c then fromhex s'
      else
        match hex_value c, s' with
        | Some top, String c' s'' =>
            match hex_value c' with
            | Some bot => option_map (cons (16 * top + bot)%N) (fromhex s'')
            | None => None
            end
        | _, _ => None
        end
  end.

Fixpoint be_bytes (k : nat) (n : N) (acc : list N) : list N :=
  match k with
  | O => acc
  | S k' => be_bytes k' (n / 256)%N ((n mod 256)%N :: acc)
  end.

(** [oid.binary] for the id of a stored document: its twelve bytes, most
    significant first. *)
Definition binary (oid : ObjectId) : list N := be_bytes 12 oid [].

(** [ObjectId(s)], as the bytes of the id it builds: [None] stands for the
    [InvalidId] exception, raised unless [s] has 24 characters that
    [bytes.fromhex] accepts.  Made of 24 hexadecimal digits, [s] gives
    twelve bytes; with white space in it, fewer.  (A character outside
    ASCII is rejected, whether characters or bytes are counted.) *)
Definition ObjectId_of_str (s : string) : option (list N) :=
  if (String.length s =? 24)%nat then fromhex s else None.

Fixpoint bytes_eqb (a b : list N) : bool :=
  match a, b with
  | [], [] => true
  | x :: a', y :: b' => (x =? y)%N && bytes_eqb a' b'
  | _, _ => false
  end.

(** *** [datetime] *)

Record datetime := mk_datetime {
  dt_year : Z; dt_month : Z; dt_day : Z;
  dt_hour : Z; dt_minute : Z; dt_second : Z
}.

Fixpoint zero_pad (width : nat) (s : string) : string :=
  match width with
  | O => s
  | S w => if (String.length s <=? w)%nat then zero_pad w ("0" ++ s)%string else s
  end.

(** [t.strftime("%Y-%m-%d %H:%M UTC")]: the year is written as it is, the
    other fields on two digits. *)
Definition strftime (t : datetime) : string :=
  (str_int (dt_year t) ++ "-" ++
   zero_pad 2 (str_int (dt_month t)) ++ "-" ++
   zero_pad 2 (str_int (dt_day t)) ++ " " ++
   zero_pad 2 (str_int (dt_hour t)) ++ ":" ++
   zero_pad 2 (str_int (dt_minute t)) ++ " UTC")%string.

(** ** Documents ([schemas.py], plus the time stamps [main.py] adds) *)

Module ModuleDoc.
Record t := mk { key : string; title : string; order : Z }.
End ModuleDoc.

Module Day.
Record t := mk {
  day_number : Z; module_key : string; title : string;
  video_url : string; notes : string;
  created_at : datetime; updated_at : datetime
}.
End Day.

Module Question.
Record t := mk {
  day_number : Z; prompt : string; options : list string;
  answer_index : option Z;
  created_at : datetime; updated_at : datetime
}.

(** [q.pop("answer_index", None)] *)
Definition pop_answer_index (q : t) : t :=
  mk (day_number q) (prompt q) (options q) None (created_at q) (updated_at q).
End Question.

Module User.
Record t := mk {
  name : option string; email : option string;
  created_at : datetime; updated_at : datetime
}.
End User.

Module Progress.
Record t := mk {
  user_id : string; completed_days : option (list Z);
  created_at : datetime; updated_at : datetime
}.

(** [{"$set": {"completed_days": days, "updated_at": now}}] *)
Definition set_completed_days (days : list Z) (now : datetime) (p : t) : t :=
  mk (user_id p) (Some days) (created_at p) now.
End Progress.

Module Attempt.
Record t := mk {
  user_id : string; day_number : Z; answers : list Z;
  score : Z; total : Z; violations : Z; flagged : bool;
  created_at : datetime; updated_at : datetime
}.
End Attempt.

Module Certificate.
Record t := mk {
  user_id : string; name : string; issued_at : string; svg : string;
  created_at : datetime
}.
End Certificate.

(** ** The document store *)

Definition Collection (A : Type) : Type := list (ObjectId * A).

Record Store := mk_store {
  db_module : Collection ModuleDoc.t;
  db_day : Collection Day.t;
  db_question : Collection Question.t;
  db_user : Collection User.t;
  db_progress : Collection Progress.t;
  db_attempt : Collection Attempt.t;
  db_certificate : Collection Certificate.t;
  next_oid : ObjectId
}.

Definition empty_store : Store := mk_store [] [] [] [] [] [] [] 0%N.

(** A collection handle: how [collection(name)] reads and writes [db]. *)
Record Handle (A : Type) := mk_handle {
  docs : Store -> Collection A;
  set_docs : Collection A -> Store -> Store
}.
Arguments docs {A}.
Arguments set_docs {A}.

Definition module_col : Handle ModuleDoc.t :=
  mk_handle _ db_module (fun c s =>
    mk_store c (db_day s) (db_question s) (db_user s) (db_progress s)
             (db_attempt s) (db_certificate s) (next_oid s)).

Definition day_col : Handle Day.t :=
  mk_handle _ db_day (fun c s =>
    mk_store (db_module s) c (db_question s) (db_user s) (db_progress s)
             (db_attempt s) (db_certificate s) (next_oid s)).

Definition question_col : Handle Question.t :=
  mk_handle _ db_question (fun c s =>
    mk_store (db_module s) (db_day s) c (db_user s) (db_progress s)
             (db_attempt s) (db_certificate s) (next_oid s)).

Definition user_col : Handle User.t :=
  mk_handle _ db_user (fun c s =>
    mk_store (db_module s) (db_day s) (db_question s) c (db_progress s)
             (db_attempt s) (db_certificate s) (next_oid s)).

Definition progress_col : Handle Progress.t :=
  mk_handle _ db_progress (fun c s =>
    mk_store (db_module s) (db_day s) (db_question s) (db_user s) c
             (db_attempt s) (db_certificate s) (next_oid s)).

Definition attempt_col : Handle Attempt.t :=
  mk_handle _ db_attempt (fun c s =>
    mk_store (db_module s) (db_day s) (db_question s) (db_user s)
             (db_progress s) c (db_certificate s) (next_oid s)).

Definition certificate_col : Handle Certificate.t :=
  mk_handle _ db_certificate (fun c s =>
    mk_store (db_module s) (db_day s) (db_question s) (db_user s)
             (db_progress s) (db_attempt s) c (next_oid s)).

Definition bump_oid (s : Store) : Store :=
  mk_store (db_module s) (db_day s) (db_question s) (db_user s)
           (db_progress s) (db_attempt s) (db_certificate s)
           (N.succ (next_oid s)).

(** ** The request monad: store passing with [HTTPException] *)

Inductive HTTPException := HTTPError (status_code : Z) (detail : string).

Inductive outcome (A : Type) :=
| Return (a : A)
| Raise (e : HTTPException).
Arguments Return {A}.
Arguments Raise {A}.

Definition M (A : Type) : Type := Store -> outcome A * Store.

Definition ret {A} (a : A) : M A := fun s => (Return a, s).

Definition raise {A} (e : HTTPException) : M A := fun s => (Raise e, s).

Definition bind {A B} (c : M A) (k : A -> M B) : M B :=
  fun s =>
    match c s with
    | (Return a, s') => k a s'
    | (Raise e, s') => (Raise e, s')
    end.

Notation "x <- c ;; k" := (bind c (fun x => k))
  (at level 61, c at next level, right associativity).
Notation "c ;;; k" := (bind c (fun _ => k))
  (at level 61, right associativity).

Definition gets {A} (f : Store -> A) : M A := fun s => (Return (f s), s).

Definition modify (f : Store -> Store) : M unit := fun s => (Return tt, f s).

(** [for x in xs: body(x)] *)
Fixpoint for_each {A} (xs : list A) (body : A -> M unit) : M unit :=
  match xs with
  | [] => ret tt
  | x :: xs' => body x ;;; for_each xs' body
  end.

(** *** Driver operations *)

Section Driver.
Context {A : Type} (c : Handle A).

Definition count_documents : M nat := gets (fun s => List.length (docs c s)).

(** The driver stamps the document with a fresh [_id] and appends it (a
    document that it cannot encode is stopped by [encode], below). *)
Definition insert_one (doc : A) : M ObjectId :=
  fun s =>
    let oid := next_oid s in
    (Return oid, bump_oid (set_docs c (docs c s ++ [(oid, doc)]) s)).

Definition insert_many (ds : list A) : M unit :=
  for_each ds (fun d => insert_one d ;;; ret tt).

Definition find (query : ObjectId * A -> bool) : M (list (ObjectId * A)) :=
  gets (fun s => filter query (docs c s)).

Definition find_one (query : ObjectId * A -> bool)
  : M (option (ObjectId * A)) :=
  gets (fun s => List.find query (docs c s)).

Fixpoint update_first (query : ObjectId * A -> bool) (upd : A -> A)
         (l : Collection A) : Collection A :=
  match l with
  | [] => []
  | d :: l' =>
      if query d then (fst d, upd (snd d)) :: l'
      else d :: update_first query upd l'
  end.

Definition update_one (query : ObjectId * A -> bool) (upd : A -> A)
  : M unit :=
  modify (fun s => set_docs c (update_first query upd (docs c s)) s).
End Driver.

(** The projection [{"_id": 0}]. *)
Definition without_id {A} (l : Collection A) : list A := map snd l.

(** *** Queries *)

(** [{"_id": oid}] *)
Definition id_is {A} (oid : ObjectId) (d : ObjectId * A) : bool :=
  (fst d =? oid)%N.

(** [{"_id": oid}] for an id built by [ObjectId(s)]: two ids are equal when
    their bytes are. *)
Definition binary_is {A} (b : list N) (d : ObjectId * A) : bool :=
  bytes_eqb (binary (fst d)) b.

(** [{"day_number": n}] on the question collection *)
Definition question_of_day (n : Z) (q : ObjectId * Question.t) : bool :=
  Question.day_number (snd q) =? n.

(** [{"email": e}] *)
Definition email_is (e : string) (u : ObjectId * User.t) : bool :=
  match User.email (snd u) with
  | Some e' => String.eqb e' e
  | None => false
  end.

(** [{"email": {"$exists": True}}] *)
Definition email_exists (u : ObjectId * User.t) : bool :=
  match User.email (snd u) with
  | Some _ => true
  | None => false
  end.

(** [{"user_id": uid}] on the progress collection *)
Definition progress_of (uid : string) (p : ObjectId * Progress.t) : bool :=
  String.eqb (Progress.user_id (snd p)) uid.

(** [{"user_id": uid}] on the certificate collection *)
Definition certificate_of (uid : string) (c : ObjectId * Certificate.t) : bool :=
  String.eqb (Certificate.user_id (snd c)) uid.

(** ** Request and response models *)

Module UserIn.
Record t := mk { name : string; email : string }.
End UserIn.

Module AttemptIn.
Record t := mk {
  user_id : string; day_number : Z; answers : list Z; violations : Z
}.
End AttemptIn.

Module UserOut.
Record t := mk { id : string; name : option string; email : option string }.
End UserOut.

Module QuizOut.
Record t := mk { day_number : Z; questions : list Question.t }.
End QuizOut.

Module AttemptOut.
Record t := mk {
  score : Z; total : Z; passed : bool; flagged : bool; violations : Z
}.
End AttemptOut.

Module ProgressOut.
Record t := mk {
  user_id : string; completed_days : option (list Z);
  created_at : option datetime; updated_at : option datetime
}.

Definition of_doc (p : Progress.t) : t :=
  mk (Progress.user_id p) (Progress.completed_days p)
     (Some (Progress.created_at p)) (Some (Progress.updated_at p)).
End ProgressOut.

(** ** [seed_data] *)

(** [range(lo, hi)] *)
Definition range (lo hi : Z) : list Z :=
  map (fun k => lo + Z.of_nat k) (seq 0 (Z.to_nat (hi - lo))).

Definition seed_modules : list ModuleDoc.t :=
  [ ModuleDoc.mk "aptitude" "Aptitude" 1;
    ModuleDoc.mk "technical" "Technical" 2;
    ModuleDoc.mk "hr" "HR" 3 ].

Definition seed_day (now : datetime) (d : Z) : Day.t :=
  let '(mk, title) :=
    if d <=? 5 then ("aptitude", "Aptitude Day " ++ str_int d)%string
    else if d <=? 10 then ("technical", "Technical Day " ++ str_int (d - 5))%string
    else ("hr", "HR Day " ++ str_int (d - 10))%string in
  Day.mk d mk title "https://www.youtube.com/embed/dQw4w9WgXcQ"
         ("Concise notes for " ++ title ++ ". Key concepts, examples, and tips.")%string
         now now.

Definition seed_question (now : datetime) (d i : Z) : Question.t :=
  Question.mk d
    ("Question " ++ str_int i ++ " for Day " ++ str_int d
       ++ ": Choose the correct option.")%string
    ["Option A"; "Option B"; "Option C"; "Option D"]
    (Some ((i - 1) mod 4))
    now now.

Definition seed_data (now : datetime) : M unit :=
  n <- count_documents module_col ;;
  if (0 <? n)%nat then ret tt
  else
    insert_many module_col seed_modules ;;;
    for_each (range 1 16) (fun d =>
      insert_one day_col (seed_day now d) ;;;
      insert_many question_col (map (seed_question now d) (range 1 6))).

(** ** [create_or_get_user] *)

Definition create_or_get_user (now : datetime) (user : UserIn.t) : M UserOut.t :=
  existing <- find_one user_col (email_is (UserIn.email user)) ;;
  match existing with
  | Some (oid, u) =>
      ret (UserOut.mk (str_oid oid) (User.name u) (User.email u))
  | None =>
      inserted_id <- insert_one user_col
        (User.mk (Some (UserIn.name user)) (Some (UserIn.email user)) now now) ;;
      insert_one progress_col
        (Progress.mk (str_oid inserted_id) (Some []) now now) ;;;
      ret (UserOut.mk (str_oid inserted_id)
                      (Some (UserIn.name user)) (Some (UserIn.email user)))
  end.

(** ** [get_quiz] *)

Definition is_empty {A} (l : list A) : bool :=
  match l with
  | [] => true
  | _ :: _ => false
  end.

Definition get_quiz (day_number : Z) : M QuizOut.t :=
  qs <- find question_col (question_of_day day_number) ;;
  let qs := without_id qs in
  if is_empty qs then raise (HTTPError 404 "Quiz not found for this day")
  else
    let qs := map Question.pop_answer_index qs in
    ret (QuizOut.mk day_number qs).

(** ** [generate_certificate_svg] *)

Definition dq : string := String (ascii_of_nat 34) EmptyString.
Definition nl : string := String (ascii_of_nat 10) EmptyString.

(** A double-quoted attribute value. *)
Definition q (s : string) : string := (dq ++ s ++ dq)%string.

Definition generate_certificate_svg (name date_str : string) : string :=
  let font := (" font-family=" ++ q "Inter, sans-serif")%string in
  let text (y fill size extra body : string) : string :=
    ("  <text x=" ++ q "600" ++ " y=" ++ q y ++ " text-anchor=" ++ q "middle"
     ++ " fill=" ++ q fill ++ " font-size=" ++ q size ++ extra ++ font ++ ">"
     ++ body ++ "</text>" ++ nl)%string in
  let bold := (" font-weight=" ++ q "700")%string in
  ("<svg xmlns=" ++ q "http://www.w3.org/2000/svg" ++ " width=" ++ q "1200"
   ++ " height=" ++ q "850" ++ ">" ++ nl
   ++ "  <defs>" ++ nl
   ++ "    <linearGradient id=" ++ q "g" ++ " x1=" ++ q "0" ++ " y1=" ++ q "0"
   ++ " x2=" ++ q "1" ++ " y2=" ++ q "1" ++ ">" ++ nl
   ++ "      <stop offset=" ++ q "0%" ++ " stop-color=" ++ q "#1e3a8a" ++ "/>" ++ nl
   ++ "      <stop offset=" ++ q "100%" ++ " stop-color=" ++ q "#0ea5e9" ++ "/>" ++ nl
   ++ "    </linearGradient>" ++ nl
   ++ "  </defs>" ++ nl
   ++ "  <rect width=" ++ q "100%" ++ " height=" ++ q "100%" ++ " fill="
   ++ q "#0b1220" ++ "/>" ++ nl
   ++ "  <rect x=" ++ q "40" ++ " y=" ++ q "40" ++ " width=" ++ q "1120"
   ++ " height=" ++ q "770" ++ " rx=" ++ q "24" ++ " fill=" ++ q "none"
   ++ " stroke=" ++ q "url(#g)" ++ " stroke-width=" ++ q "6" ++ "/>" ++ nl
   ++ text "160" "#e2e8f0" "42" "" "Certificate of Completion"
   ++ text "300" "#93c5fd" "28" "" "This certifies that"
   ++ text "380" "#f8fafc" "56" bold name
   ++ text "460" "#cbd5e1" "24" "" "has successfully completed the"
   ++ text "505" "#cbd5e1" "28" ""
        "AptLearn – 15-Day Interview Preparation Challenge"
   ++ text "590" "#93c5fd" "20" "" ("Issued on " ++ date_str)
   ++ "  <circle cx=" ++ q "600" ++ " cy=" ++ q "690" ++ " r=" ++ q "36"
   ++ " fill=" ++ q "url(#g)" ++ "/>" ++ nl
   ++ text "700" "#0b1220" "24" bold "AL"
   ++ "</svg>")%string.

(** ** [submit_attempt] *)

(** The scoring loop:
    [for i, q in enumerate(qdocs):
       if i < len(answers) and answers[i] == q.get("answer_index"): score += 1] *)
Fixpoint score_loop (i : nat) (qdocs : Collection Question.t)
         (answers : list Z) (score : Z) : Z :=
  match qdocs with
  | [] => score
  | q :: rest =>
      score_loop (S i) rest answers
        (if (i <? List.length answers)%nat
            && py_eq (nth i answers 0) (Question.answer_index (snd q))
         then score + 1 else score)
  end.

(** [if user_doc and user_doc.get("name"): name = user_doc["name"]] *)
Definition name_or (user_doc : option (ObjectId * User.t)) (name : string)
  : string :=
  match user_doc with
  | Some (_, u) =>
      if truthy (User.name u) then get_default (User.name u) name else name
  | None => name
  end.

(** The name put on a certificate (the [try]/[except] of lines 267-275):
    the [except] branch runs when [ObjectId(user_id)] raises. *)
Definition resolve_name (user_id : string) : M string :=
  let name := "Participant" in
  match ObjectId_of_str user_id with
  | Some oid =>
      user_doc <- find_one user_col (binary_is oid) ;;
      ret (name_or user_doc name)
  | None =>
      user_doc <- find_one user_col email_exists ;;
      ret (name_or user_doc name)
  end.

Definition submit_attempt (now : datetime) (payload : AttemptIn.t)
  : M AttemptOut.t :=
  (* Fetch questions to score *)
  qdocs <- find question_col (question_of_day (AttemptIn.day_number payload)) ;;
  if is_empty qdocs then raise (HTTPError 400 "No questions for this day")
  else
    let total := Z.of_nat (List.length qdocs) in
    let score := score_loop 0 qdocs (AttemptIn.answers payload) 0 in
    let flagged := AttemptIn.violations payload >? 0 in
    insert_one attempt_col
      (Attempt.mk (AttemptIn.user_id payload) (AttemptIn.day_number payload)
                  (AttemptIn.answers payload) score total
                  (AttemptIn.violations payload) flagged now now) ;;;
    (* Passing criteria: at least 60% and no violations *)
    let passed := Qle_bool (6 # 10) (truediv score total) && negb flagged in
    (* Update progress if passed *)
    (if passed then
       prog <- find_one progress_col (progress_of (AttemptIn.user_id payload)) ;;
       match prog with
       | Some (prog_id, p) =>
           let completed_days := get_default (Progress.completed_days p) [] in
           if negb (py_in (AttemptIn.day_number payload) completed_days) then
             let completed_days :=
               completed_days ++ [AttemptIn.day_number payload] in
             update_one progress_col (id_is prog_id)
                        (Progress.set_completed_days completed_days now)
           else ret tt
       | None => ret tt
       end
     else ret tt) ;;;
    (* Check progress to possibly create certificate *)
    prog <- find_one progress_col (progress_of (AttemptIn.user_id payload)) ;;
    match prog with
    | Some (_, p) =>
        if (15 <=? List.length (get_default (Progress.completed_days p) []))%nat
        then
          existing <-
            find_one certificate_col (certificate_of (AttemptIn.user_id payload)) ;;
          match existing with
          | None =>
              name <- resolve_name (AttemptIn.user_id payload) ;;
              let now_str := strftime now in
              let svg := generate_certificate_svg name now_str in
              insert_one certificate_col
                (Certificate.mk (AttemptIn.user_id payload) name now_str svg now)
              ;;; ret tt
          | Some _ => ret tt
          end
        else ret tt
    | None => ret tt
    end ;;;
    ret (AttemptOut.mk score total passed flagged (AttemptIn.violations payload)).

(** ** [POST /attempt] behind the driver's encoder *)

(** The integers BSON can hold. *)
Definition int64 (z : Z) : bool := (- 2 ^ 63 <=? z) && (z <? 2 ^ 63).

(** An [OverflowError] of the driver is caught by no handler: the request
    is answered with HTTP 500. *)
Definition OverflowError : HTTPException :=
  HTTPError 500 "Internal Server Error".

(** The driver encodes a query or a document before sending it. *)
Definition encode (fits : bool) : M unit :=
  if fits then ret tt else raise OverflowError.

(** [submit_attempt] with the two places at which a submitted integer is
    first encoded: the query of line 219 holds [day_number]; the document
    of line 243 holds, besides it, [answers] and [violations] ([score] and
    [total] count stored questions).  What is sent afterwards holds
    strings, dates, [day_number] again and days read from the database. *)
Definition post_attempt (now : datetime) (payload : AttemptIn.t)
  : M AttemptOut.t :=
  encode (int64 (AttemptIn.day_number payload)) ;;;
  qdocs <- find question_col (question_of_day (AttemptIn.day_number payload)) ;;
  if is_empty qdocs then raise (HTTPError 400 "No questions for this day")
  else
    encode (forallb int64 (AttemptIn.answers payload)
            && int64 (AttemptIn.violations payload)) ;;;
    submit_attempt now payload.

(** ** [get_progress] and [get_certificate] *)

Definition get_progress (user_id : string) : M ProgressOut.t :=
  prog <- find_one progress_col (progress_of user_id) ;;
  match prog with
  | None => ret (ProgressOut.mk user_id (Some []) None None)
  | Some (_, p) => ret (ProgressOut.of_doc p)
  end.

Definition get_certificate (user_id : string) : M Certificate.t :=
  cert <- find_one certificate_col (certificate_of user_id) ;;
  match cert with
  | None => raise (HTTPError 404 "Certificate not issued yet")
  | Some (_, c) => ret c
  end.

(** ** The service as a transition system *)

Inductive request :=
| Startup
| PostUsers (user : UserIn.t)
| GetQuiz (day_number : Z)
| PostAttempt (payload : AttemptIn.t)
| GetProgress (user_id : string)
| GetCertificate (user_id : string).

(** The store after serving one request at time [now]. *)
Definition step (s : Store) (r : datetime * request) : Store :=
  let now := fst r in
  match snd r with
  | Startup => snd (seed_data now s)
  | PostUsers user => snd (create_or_get_user now user s)
  | GetQuiz d => snd (get_quiz d s)
  | PostAttempt payload => snd (submit_attempt now payload s)
  | GetProgress uid => snd (get_progress uid s)
  | GetCertificate uid => snd (get_certificate uid s)
  end.

(** The store after serving a sequence of requests, oldest first. *)
Definition run (s : Store) (rs : list (datetime * request)) : Store :=
  fold_left step rs s.

(** The same, with submissions going through the driver's encoder. *)
Definition serve (s : Store) (r : datetime * request) : Store :=
  match snd r with
  | PostAttempt payload => snd (post_attempt (fst r) payload s)
  | _ => step s r
  end.

Definition serve_all (s : Store) (rs : list (datetime * request)) : Store :=
  fold_left serve rs s.
(** * Specification vocabulary *)

(** ** The scoring loop *)

(** The score in the words of the specification: the positions, counted
    from 0 in store order, at which both a question and an answer exist and
    the answer equals the question's [answer_index]. *)
Definition matching_positions (qdocs : Collection Question.t)
           (answers : list Z) : list nat :=
  filter
    (fun i =>
       match nth_error qdocs i, nth_error answers i with
       | Some q, Some a => py_eq a (Question.answer_index (snd q))
       | _, _ => false
       end)
    (seq 0 (Nat.max (List.length qdocs) (List.length answers))).

Definition hit (qdocs : Collection Question.t) (answers : list Z)
           (base i : nat) : bool :=
  match nth_error qdocs (i - base), nth_error answers i with
  | Some q, Some a => py_eq a (Question.answer_index (snd q))
  | _, _ => false
  end.

(** ** [submit_attempt], phase by phase *)

Section SubmitPhases.
Variables (now : datetime) (payload : AttemptIn.t).

Let uid := AttemptIn.user_id payload.
Let day := AttemptIn.day_number payload.

(** The questions fetched at line 219. *)
Definition qdocs_of (s : Store) : Collection Question.t :=
  filter (question_of_day day) (db_question s).

Definition score_of (s : Store) : Z :=
  score_loop 0 (qdocs_of s) (AttemptIn.answers payload) 0.

Definition total_of (s : Store) : Z := Z.of_nat (List.length (qdocs_of s)).

Definition flagged_of : bool := AttemptIn.violations payload >? 0.

Definition passed_of (s : Store) : bool :=
  Qle_bool (6 # 10) (truediv (score_of s) (total_of s)) && negb flagged_of.

Definition attempt_doc (s : Store) : Attempt.t :=
  Attempt.mk uid day (AttemptIn.answers payload) (score_of s) (total_of s)
             (AttemptIn.violations payload) flagged_of now now.

Definition response_of (s : Store) : AttemptOut.t :=
  AttemptOut.mk (score_of s) (total_of s) (passed_of s) flagged_of
                (AttemptIn.violations payload).

(** Lines 231-243: the attempt is recorded. *)
Definition record_attempt (s : Store) : Store :=
  bump_oid (set_docs attempt_col
                     (db_attempt s ++ [(next_oid s, attempt_doc s)]) s).

(** Lines 249-259: the day is added to the progress record. *)
Definition update_progress (passed : bool) (s : Store) : Store :=
  if passed then
    match List.find (progress_of uid) (db_progress s) with
    | Some (prog_id, p) =>
        let completed_days := get_default (Progress.completed_days p) [] in
        if negb (py_in day completed_days) then
          set_docs progress_col
            (update_first (id_is prog_id)
               (Progress.set_completed_days (completed_days ++ [day]) now)
               (db_progress s)) s
        else s
    | None => s
    end
  else s.

Definition certificate_doc (s : Store) : Certificate.t :=
  let name :=
    match fst (resolve_name uid s) with
    | Return n => n
    | Raise _ => "Participant"
    end in
  Certificate.mk uid name (strftime now)
                 (generate_certificate_svg name (strftime now)) now.

(** Lines 262-285: the certificate is issued. *)
Definition issue_certificate (s : Store) : Store :=
  match List.find (progress_of uid) (db_progress s) with
  | Some (_, p) =>
      if (15 <=? List.length (get_default (Progress.completed_days p) []))%nat
      then
        match List.find (certificate_of uid) (db_certificate s) with
        | None =>
            bump_oid (set_docs certificate_col
                        (db_certificate s ++ [(next_oid s, certificate_doc s)])
                        s)
        | Some _ => s
        end
      else s
  | None => s
  end.
End SubmitPhases.

(** ** What each handler may change *)

(** [frames R c]: running [c] relates the store before to the store after. *)
Definition frames {A} (R : Store -> Store -> Prop) (c : M A) : Prop :=
  forall s, R s (snd (c s)).


(** The registry side of the store (users, progress, attempts and
    certificates) is kept, and identifiers are only ever consumed. *)
Definition keeps_registry (s s' : Store) : Prop :=
  db_user s' = db_user s /\ db_progress s' = db_progress s
  /\ db_attempt s' = db_attempt s /\ db_certificate s' = db_certificate s
  /\ (next_oid s <= next_oid s')%N.

(** ** Sample data *)

Definition t0 : datetime := mk_datetime 2026 1 5 9 30 0.

(** The store after start-up on an empty database. *)
Definition seeded : Store := snd (seed_data t0 empty_store).

Definition ann : UserIn.t := UserIn.mk "Ann" "ann@example.org".

(** Ann's identifier: the 94th the driver hands out. *)
Definition ann_id : string := str_oid 93%N.

Definition registered : Store := snd (create_or_get_user t0 ann seeded).

(** The answers of every seeded day. *)
Definition perfect : list Z := [0; 1; 2; 3; 0].

(** ** Progress and certificates of a user *)

(** The completed days of a user as the handlers read them: from the first
    progress record carrying the user's id, [[]] standing for an absent
    field. *)
Definition user_days (s : Store) (uid : string) : option (list Z) :=
  match List.find (progress_of uid) (db_progress s) with
  | Some (_, p) => Some (get_default (Progress.completed_days p) [])
  | None => None
  end.

(** The completed-day count of a user (0 without progress record). *)
Definition completed_count (s : Store) (uid : string) : nat :=
  match user_days s uid with
  | Some days => List.length days
  | None => 0%nat
  end.

(** The user's completed days, if recorded, hold no day twice. *)
Definition days_nodup (s : Store) (uid : string) : Prop :=
  match user_days s uid with
  | Some days => NoDup days
  | None => True
  end.

(** The certificates stored for a user. *)
Definition certificates_of (s : Store) (uid : string)
  : Collection Certificate.t :=
  filter (certificate_of uid) (db_certificate s).

Definition at_most_one_certificate (s : Store) : Prop :=
  forall uid, (List.length (certificates_of s uid) <= 1)%nat.

(** What the database guarantees of the progress collection: [_id] is
    unique, and was handed out before [next_oid]. *)
Definition progress_ids_ok (s : Store) : Prop :=
  NoDup (map fst (db_progress s))
  /\ Forall (fun i => (i < next_oid s)%N) (map fst (db_progress s)).

(** The submission is served (questions exist) and, once its progress
    update is done, finds at least 15 completed days for its user. *)
Definition qualifies (now : datetime) (payload : AttemptIn.t) (s : Store)
  : Prop :=
  qdocs_of payload s <> []
  /\ (15 <= completed_count (snd (submit_attempt now payload s))
                            (AttemptIn.user_id payload))%nat.

(** Ann registers after start-up and passes the fifteen days in order. *)
Definition ann_attempt (d : Z) : AttemptIn.t := AttemptIn.mk ann_id d perfect 0.

Definition ann_course : list (datetime * request) :=
  [(t0, Startup); (t0, PostUsers ann)]
  ++ map (fun d => (t0, PostAttempt (ann_attempt d))) (range 1 16).

(** ** Quiz content *)

(** Two stored questions that agree on everything but [answer_index]. *)
Definition same_but_answer (a b : ObjectId * Question.t) : Prop :=
  fst a = fst b
  /\ Question.day_number (snd a) = Question.day_number (snd b)
  /\ Question.prompt (snd a) = Question.prompt (snd b)
  /\ Question.options (snd a) = Question.options (snd b)
  /\ Question.created_at (snd a) = Question.created_at (snd b)
  /\ Question.updated_at (snd a) = Question.updated_at (snd b).

(** Two stores that differ at most in the [answer_index] of their
    questions. *)
Definition differ_only_in_answers (s1 s2 : Store) : Prop :=
  db_module s1 = db_module s2 /\ db_day s1 = db_day s2
  /\ Forall2 same_but_answer (db_question s1) (db_question s2)
  /\ db_user s1 = db_user s2 /\ db_progress s1 = db_progress s2
  /\ db_attempt s1 = db_attempt s2 /\ db_certificate s1 = db_certificate s2
  /\ next_oid s1 = next_oid s2.

(** The answers stored for a day, in store order. *)
Definition answers_of_day (s : Store) (d : Z) : list (option Z) :=
  map (fun q => Question.answer_index (snd q))
      (filter (question_of_day d) (db_question s)).

(** Start-up, once per clock reading of [nows]. *)
Definition seed_times (nows : list datetime) (s : Store) : Store :=
  fold_left (fun s now => snd (seed_data now s)) nows s.

(** The store with every stored answer moved to option 3. *)
Definition move_answers (s : Store) : Store :=
  mk_store (db_module s) (db_day s)
    (map (fun q =>
            (fst q,
             Question.mk (Question.day_number (snd q)) (Question.prompt (snd q))
                         (Question.options (snd q)) (Some 3)
                         (Question.created_at (snd q))
                         (Question.updated_at (snd q))))
         (db_question s))
    (db_user s) (db_progress s) (db_attempt s)
    (db_certificate s) (next_oid s).

(** ** The name on a certificate *)

(** The name resolution in the words of the specification: the stored name
    of the user found by identity; when that lookup finds nobody, the name
    of the first user record that has an email field; when both fail,
    ["Participant"]. *)
Definition spec_resolve_name (s : Store) (user_id : string) : option string :=
  let by_identity :=
    match ObjectId_of_str user_id with
    | Some oid => List.find (binary_is oid) (db_user s)
    | None => None
    end in
  match by_identity with
  | Some (_, u) => User.name u
  | None =>
      match List.find email_exists (db_user s) with
      | Some (_, u) => User.name u
      | None => Some "Participant"
      end
  end.

(** Every certificate added by the submission carries the name resolved in
    the words of the specification. *)
Definition resolves_as_specified (now : datetime) (payload : AttemptIn.t)
           (s : Store) : Prop :=
  forall oid c,
    db_certificate (snd (submit_attempt now payload s))
    = db_certificate s ++ [(oid, c)] ->
    Some (Certificate.name c)
    = spec_resolve_name s (AttemptIn.user_id payload).

(** The user lookup that [resolve_name] performs: by [_id] when
    [ObjectId(user_id)] is accepted, and otherwise (it raised) the first
    record with an email field. *)
Definition looked_up (s : Store) (user_id : string)
  : option (ObjectId * User.t) :=
  match ObjectId_of_str user_id with
  | Some oid => List.find (binary_is oid) (db_user s)
  | None => List.find email_exists (db_user s)
  end.

(** A well-formed identifier that belongs to nobody. *)
Definition ghost_id : string := "ffffffffffffffffffffffff".

Definition bob : UserIn.t := UserIn.mk "Bob" "bob@example.org".

(** Bob is registered; a progress record of fifteen days exists under
    [ghost_id], which is no user's id. *)
Definition ghost_store : Store :=
  let s := snd (create_or_get_user t0 bob seeded) in
  mk_store (db_module s) (db_day s) (db_question s) (db_user s)
           (db_progress s
            ++ [(next_oid s, Progress.mk ghost_id (Some (range 1 16)) t0 t0)])
           (db_attempt s) (db_certificate s) (N.succ (next_oid s)).

(** Twenty-four characters that [ObjectId] accepts, for an id of eight
    bytes only. *)
Definition spaced_id : string := "00 00 00 00 00 00 00 00 ".

(** As [ghost_store], the progress record being under [uid]. *)
Definition finished_store (uid : string) : Store :=
  let s := snd (create_or_get_user t0 bob seeded) in
  mk_store (db_module s) (db_day s) (db_question s) (db_user s)
           (db_progress s
            ++ [(next_oid s, Progress.mk uid (Some (range 1 16)) t0 t0)])
           (db_attempt s) (db_certificate s) (N.succ (next_oid s)).

(** Ann's course up to, but without, her submission for day 15. *)
Definition ann_before_last : Store := run empty_store (removelast ann_course).

(** ** Submissions and the questions of their day *)

(** The days of the stored questions, in store order. *)
Definition question_days (s : Store) : list Z :=
  map (fun q => Question.day_number (snd q)) (db_question s).

(** What the driver can encode of a submission. *)
Definition encodable (payload : AttemptIn.t) : bool :=
  int64 (AttemptIn.day_number payload)
  && forallb int64 (AttemptIn.answers payload)
  && int64 (AttemptIn.violations payload).

(** The outcome of a submission in the words of the specification: HTTP 400
    exactly when the store holds no question of the submitted day, nothing
    being written then, and one more attempt record otherwise. *)
Definition persists_unless_no_questions (now : datetime)
           (payload : AttemptIn.t) (s : Store) : Prop :=
  let day := AttemptIn.day_number payload in
  let res := post_attempt now payload s in
  (fst res = Raise (HTTPError 400 "No questions for this day")
   <-> ~ In day (question_days s))
  /\ (~ In day (question_days s) -> snd res = s)
  /\ (In day (question_days s) ->
      exists doc, db_attempt (snd res) = db_attempt s ++ [doc]).

(** The store after Ann, registered, has passed day 3. *)
Definition ann_day3 : Store :=
  snd (submit_attempt t0 (ann_attempt 3) registered).

(** Ann's perfect answers for day 1, with a violation count of 2^63. *)
Definition oversized : AttemptIn.t := AttemptIn.mk ann_id 1 perfect (2 ^ 63).

(** * The remaining handlers *)

(** ** [sorted(l, key=...)]

    Python's [sorted] is stable; it is modelled by the stable insertion
    sort, which returns the same list. *)

Fixpoint insert_by {A} (key : A -> Z) (x : A) (l : list A) : list A :=
  match l with
  | [] => [x]
  | y :: ys => if key x <=? key y then x :: y :: ys else y :: insert_by key x ys
  end.

Definition sorted_by {A} (key : A -> Z) (l : list A) : list A :=
  fold_right (insert_by key) [] l.

(** ** [get_modules], [get_days] and [get_day]

    Module and day documents carry [order] and [day_number] ([schemas.py]),
    so the defaults of [m.get("order", 0)] and [d.get("day_number", 0)] are
    not used. *)

Definition get_modules : M (list ModuleDoc.t) :=
  mods <- find module_col (fun _ => true) ;;
  ret (sorted_by ModuleDoc.order (without_id mods)).

(** The query [filt] of [get_days]: [{}] or [{"module_key": k}]. *)
Definition day_filter (filt : option string) (d : ObjectId * Day.t) : bool :=
  match filt with
  | None => true
  | Some k => String.eqb (Day.module_key (snd d)) k
  end.

Definition get_days (module_key : option string) : M (list Day.t) :=
  let filt := if truthy module_key then module_key else None in
  days <- find day_col (day_filter filt) ;;
  ret (sorted_by Day.day_number (without_id days)).

(** [{"day_number": n}] on the day collection *)
Definition day_is (n : Z) (d : ObjectId * Day.t) : bool :=
  Day.day_number (snd d) =? n.

Definition get_day (day_number : Z) : M Day.t :=
  d <- find_one day_col (day_is day_number) ;;
  match d with
  | None => raise (HTTPError 404 "Day not found")
  | Some (_, d) => ret d
  end.

(** ** [on_startup]

    [db] is [None] when no database is configured; whatever [seed_data]
    raises is discarded. *)
Definition on_startup (now : datetime) (db : option Store) : option Store :=
  match db with
  | Some s => Some (snd (seed_data now s))
  | None => None
  end.

(** * Further vocabulary *)

(** The questions [seed_data] generates for day [d]. *)
Definition seed_questions (now : datetime) (d : Z) : list Question.t :=
  map (seed_question now d) (range 1 6).

(** [l] is sorted by [key], ascending. *)
Definition sorted_on {A} (key : A -> Z) (l : list A) : Prop :=
  StronglySorted (fun x y => key x <= key y) l.

(** The elements of [l] whose key is [k], in the order of [l]. *)
Definition with_key {A} (key : A -> Z) (k : Z) (l : list A) : list A :=
  filter (fun x => key x =? k) l.

(** The days [get_days] is asked for: all of them without a module key or
    with the empty one, and otherwise those of the module. *)
Definition wanted_day (module_key : option string) (d : Day.t) : bool :=
  match module_key with
  | None => true
  | Some k => if String.eqb k "" then true else String.eqb (Day.module_key d) k
  end.

(** The keys of the stored modules. *)
Definition module_keys (s : Store) : list string :=
  map (fun m => ModuleDoc.key (snd m)) (db_module s).

(** The numbers of the stored days. *)
Definition day_numbers (s : Store) : list Z :=
  map (fun d => Day.day_number (snd d)) (db_day s).

(** A question as [schemas.py] and the data model want it: its answer is
    an index into its options. *)
Definition question_ok (q : Question.t) : Prop :=
  exists k, Question.answer_index q = Some k
            /\ 0 <= k < Z.of_nat (List.length (Question.options q)).

(** An attempt record as the data model wants it. *)
Definition attempt_ok (a : Attempt.t) : Prop :=
  1 <= Attempt.total a
  /\ 0 <= Attempt.score a <= Attempt.total a
  /\ Attempt.flagged a = (Attempt.violations a >? 0).

(** The emails of the registered users, in store order. *)
Definition user_emails (s : Store) : list string :=
  flat_map (fun u => match User.email (snd u) with
                     | Some e => [e]
                     | None => []
                     end) (db_user s).

(** The number that a string of bytes writes, most significant first. *)
Definition be_value (b : list N) : N :=
  fold_left (fun a x => (a * 256 + x)%N) b 0%N.

(** What the database guarantees of user [_id]s. *)
Definition user_ids_ok (s : Store) : Prop :=
  Forall (fun i => (i < next_oid s)%N) (map fst (db_user s)).

(** The invariant of the course: questions belong to days 1 to 15, the
    completed days of every user are distinct days among 1 to 15, and every
    user holding a certificate has at least 15 completed days. *)
Definition course_invariant (s : Store) : Prop :=
  progress_ids_ok s
  /\ Forall (fun q => 1 <= Question.day_number (snd q) <= 15) (db_question s)
  /\ (forall u days, user_days s u = Some days ->
                     NoDup days /\ Forall (fun d => 1 <= d <= 15) days)
  /\ (forall u, certificates_of s u <> [] -> (15 <= completed_count s u)%nat).

(** A store with one left-over day and no module. *)
Definition stale_store : Store :=
  mk_store [] [(0%N, seed_day t0 1)] [] [] [] [] [] 1%N.

(** The store after [insert_one c doc]. *)
Definition inserted {A} (c : Handle A) (s : Store) (doc : A) : Store :=
  bump_oid (set_docs c (docs c s ++ [(next_oid s, doc)]) s).

(** The store after one round of the seeding loop (lines 50-86). *)
Definition seeded_day (now : datetime) (s : Store) (d : Z) : Store :=
  fold_left (inserted question_col) (seed_questions now d)
            (inserted day_col s (seed_day now d)).

(** The store after the writes of [seed_data] (lines 44-86). *)
Definition seed_writes (now : datetime) (s : Store) : Store :=
  fold_left (seeded_day now) (range 1 16)
            (fold_left (inserted module_col) seed_modules s).

(** The bodies of the three content collections and the rest of the store
    across [seed_data]'s writes. *)
Definition content_grows (s s' : Store) (ms : list ModuleDoc.t)
           (ds : list Day.t) (qs : list Question.t) : Prop :=
  map snd (db_module s') = map snd (db_module s) ++ ms
  /\ map snd (db_day s') = map snd (db_day s) ++ ds
  /\ map snd (db_question s') = map snd (db_question s) ++ qs
  /\ db_user s' = db_user s /\ db_progress s' = db_progress s
  /\ db_attempt s' = db_attempt s /\ db_certificate s' = db_certificate s
  /\ next_oid s'
     = (next_oid s
        + N.of_nat (List.length ms + List.length ds + List.length qs))%N.


(** The submission a stored attempt records. *)
Definition as_submitted (a : Attempt.t) : AttemptIn.t :=
  AttemptIn.mk (Attempt.user_id a) (Attempt.day_number a) (Attempt.answers a)
               (Attempt.violations a).

(** The submission of a request, when it is one and is served. *)
Definition submission_of (s : Store) (r : datetime * request)
  : list AttemptIn.t :=
  match snd r with
  | PostAttempt payload =>
      if is_empty (qdocs_of payload s) then [] else [payload]
  | _ => []
  end.

(** The driver can encode what the request sends to the database. *)
Definition encodes (r : datetime * request) : bool :=
  match snd r with
  | PostAttempt payload => encodable payload
  | _ => true
  end.

(** The submission of a request, when it is one that the driver can encode
    and the store holds a question of its day. *)
Definition recorded (s : Store) (r : datetime * request)
  : list AttemptIn.t :=
  match snd r with
  | PostAttempt payload =>
      if encodable payload
         && py_in (AttemptIn.day_number payload) (question_days s)
      then [payload] else []
  | _ => []
  end.

(** Ann passes days 1 and 2, and submits for a day that does not exist. *)
Definition ann_start : list (datetime * request) :=
  [(t0, PostAttempt (ann_attempt 1)); (t0, PostAttempt (ann_attempt 16));
   (t0, PostAttempt (ann_attempt 2))].

(** The same, after a submission that the driver cannot encode. *)
Definition ann_start_late : list (datetime * request) :=
  (t0, PostAttempt oversized) :: ann_start.

(** Ann registers twice and Bob once. *)
Definition registrations : list (datetime * request) :=
  [(t0, PostUsers ann); (t0, PostUsers bob);
   (t0, PostUsers (UserIn.mk "Anna" "ann@example.org"))].

(** Ann's submissions for days 1 to 14. *)
Definition ann_first_14 : list (datetime * request) :=
  map (fun d => (t0, PostAttempt (ann_attempt d))) (range 1 15).

(** The payload with [extra] answers appended. *)
Definition with_more_answers (payload : AttemptIn.t) (extra : list Z)
  : AttemptIn.t :=
  AttemptIn.mk (AttemptIn.user_id payload) (AttemptIn.day_number payload)
               (AttemptIn.answers payload ++ extra)
               (AttemptIn.violations payload).

(** The answers stored for the questions [qdocs]. *)
Definition stored_answers (qdocs : Collection Question.t) : list (option Z) :=
  map (fun q => Question.answer_index (snd q)) qdocs.

(** A store whose only question, for day 1, has no [answer_index]. *)
Definition blank_store : Store :=
  mk_store [] []
           [(0%N, Question.mk 1 "Which one?" ["Option A"; "Option B"] None t0 t0)]
           [] [] [] [] 1%N.

(** Every user with at least 15 completed days holds a certificate. *)
Definition none_uncertified (s : Store) : Prop :=
  forall u, (15 <= completed_count s u)%nat -> certificates_of s u <> [].
(** * Properties *)

(** ** The scoring loop *)

Lemma nth_error_nth_guard (answers : list Z) (i : nat) (v : option Z) :
  ((i <? List.length answers)%nat && py_eq (nth i answers 0) v)
  = match nth_error answers i with
    | Some a => py_eq a v
    | None => false
    end.
Proof.
  destruct (Nat.ltb_spec i (List.length answers)) as [Hlt | Hge]; simpl.
  - destruct (nth_error answers i) as [a |] eqn:E.
    + now rewrite (nth_error_nth answers i 0 E).
    + apply nth_error_None in E. lia.
  - apply nth_error_None in Hge. now rewrite Hge.
Qed.

Lemma score_loop_count (answers : list Z) :
  forall (qdocs : Collection Question.t) (i : nat) (acc : Z),
    score_loop i qdocs answers acc
    = acc + Z.of_nat
              (List.length (filter (hit qdocs answers i)
                                   (seq i (List.length qdocs)))).
Proof.
  induction qdocs as [| q rest IH]; intros i acc; simpl.
  - lia.
  - rewrite IH, nth_error_nth_guard.
    replace (filter (hit (q :: rest) answers i) (seq (S i) (List.length rest)))
      with (filter (hit rest answers (S i)) (seq (S i) (List.length rest))).
    + unfold hit at 2. rewrite Nat.sub_diag. simpl.
      destruct (nth_error answers i) as [a |]; simpl;
        [destruct (py_eq a _); simpl; lia | lia].
    + apply filter_ext_in. intros j Hj. apply in_seq in Hj.
      unfold hit. replace (j - i)%nat with (S (j - S i)) by lia.
      reflexivity.
Qed.

Lemma score_loop_matching (qdocs : Collection Question.t) (answers : list Z) :
  score_loop 0 qdocs answers 0
  = Z.of_nat (List.length (matching_positions qdocs answers)).
Proof.
  rewrite score_loop_count. simpl. f_equal. unfold matching_positions.
  set (n := List.length qdocs). set (m := List.length answers).
  replace (Nat.max n m) with (n + (Nat.max n m - n))%nat by lia.
  rewrite seq_app, filter_app, length_app.
  rewrite (filter_ext_in _ (fun _ => false) (seq (0 + n) _)).
  - assert (H : forall (l : list nat), filter (fun _ => false) l = []).
    { induction l; simpl; auto. }
    rewrite H. simpl. rewrite Nat.add_0_r. f_equal.
    apply filter_ext. intros j. unfold hit. now rewrite Nat.sub_0_r.
  - intros j Hj. apply in_seq in Hj.
    assert (E : nth_error qdocs j = None) by (apply nth_error_None; lia).
    now rewrite E.
Qed.

Lemma score_loop_bounds (qdocs : Collection Question.t) (answers : list Z) :
  0 <= score_loop 0 qdocs answers 0 <= Z.of_nat (List.length qdocs).
Proof.
  rewrite score_loop_count. simpl.
  pose proof (filter_length_le (hit qdocs answers 0)
                               (seq 0 (List.length qdocs))) as H.
  rewrite length_seq in H. lia.
Qed.

(** The pass mark over the integers. *)
Lemma pass_mark (score total : Z) :
  0 < total ->
  Qle_bool (6 # 10) (truediv score total) = (3 * total <=? 5 * score).
Proof.
  intros Hpos. destruct total as [| p | p]; try lia.
  unfold truediv, Qle_bool, Qdiv, Qmult, Qinv, inject_Z. cbn [Qnum Qden].
  apply eq_true_iff_eq. rewrite !Z.leb_le, Pos2Z.inj_mul. lia.
Qed.

(** ** [submit_attempt], phase by phase *)

Lemma resolve_name_returns (uid : string) (s : Store) :
  exists n, resolve_name uid s = (Return n, s).
Proof.
  unfold resolve_name. destruct (ObjectId_of_str uid); eexists; reflexivity.
Qed.

Ltac norm_store :=
  cbv [db_progress db_certificate db_attempt next_oid
       db_module db_day db_question db_user fst snd].

Ltac cert_phase :=
  match goal with
  | |- context [List.find (progress_of ?u) ?l] =>
      destruct (List.find (progress_of u) l) as [[? ?] |]; norm_store;
      [| reflexivity]
  end;
  match goal with
  | |- context [(15 <=? ?n)%nat] =>
      destruct (15 <=? n)%nat; norm_store; [| reflexivity]
  end;
  match goal with
  | |- context [List.find (certificate_of ?u) ?l] =>
      destruct (List.find (certificate_of u) l); norm_store; [reflexivity |]
  end;
  match goal with
  | |- context [resolve_name ?u ?st] =>
      let n := fresh "n" in
      let En := fresh "En" in
      destruct (resolve_name_returns u st) as (n & En); rewrite En
  end;
  reflexivity.

(** [submit_attempt] is the composition of its three writes. *)
Lemma submit_attempt_phases (now : datetime) (payload : AttemptIn.t)
      (s : Store) :
  submit_attempt now payload s
  = if is_empty (qdocs_of payload s)
    then (Raise (HTTPError 400 "No questions for this day"), s)
    else (Return (response_of payload s),
          issue_certificate now payload
            (update_progress now payload (passed_of payload s)
                             (record_attempt now payload s))).
Proof.
  unfold submit_attempt, find, gets, bind at 1.
  change (filter (question_of_day (AttemptIn.day_number payload))
                 (docs question_col s))
    with (qdocs_of payload s).
  destruct (is_empty (qdocs_of payload s)); [reflexivity |].
  unfold response_of, passed_of, record_attempt, attempt_doc.
  set (sc := score_of payload s). set (tot := total_of payload s).
  change (score_loop 0 _ _ 0) with sc.
  change (Z.of_nat (List.length (qdocs_of payload s))) with tot.
  change (AttemptIn.violations payload >? 0) with (flagged_of payload).
  set (ps := Qle_bool (6 # 10) (truediv sc tot) && negb (flagged_of payload)).
  set (ad := Attempt.mk _ _ _ _ _ _ _ _ _).
  destruct s as [c1 c2 c3 c4 c5 c6 c7 nx].
  cbv [bind find_one gets insert_one update_one modify ret raise
       docs set_docs attempt_col progress_col certificate_col
       update_progress issue_certificate certificate_doc
       bump_oid db_progress db_certificate db_attempt next_oid
       db_module db_day db_question db_user fst snd].
  destruct ps; norm_store.
  - destruct (List.find (progress_of (AttemptIn.user_id payload)) c5)
      as [[pid p] |]; norm_store.
    + destruct (negb (py_in (AttemptIn.day_number payload) _));
        norm_store; cert_phase.
    + cert_phase.
  - cert_phase.
Qed.

(** ** What each handler may change *)

Section Frames.
Variable R : Store -> Store -> Prop.
Hypothesis R_refl : forall s, R s s.
Hypothesis R_trans : forall s1 s2 s3, R s1 s2 -> R s2 s3 -> R s1 s3.

Lemma frames_ret {A} (a : A) : frames R (ret a).
Proof. intros s. apply R_refl. Qed.

Lemma frames_raise {A} (e : HTTPException) : frames R (@raise A e).
Proof. intros s. apply R_refl. Qed.

Lemma frames_gets {A} (f : Store -> A) : frames R (gets f).
Proof. intros s. apply R_refl. Qed.

Lemma frames_bind {A B} (c : M A) (k : A -> M B) :
  frames R c -> (forall a, frames R (k a)) -> frames R (bind c k).
Proof.
  intros Hc Hk s. unfold bind. specialize (Hc s).
  destruct (c s) as [[a | e] s']; simpl in *.
  - eapply R_trans; [exact Hc | apply Hk].
  - exact Hc.
Qed.

Lemma frames_for_each {A} (xs : list A) (body : A -> M unit) :
  (forall x, frames R (body x)) -> frames R (for_each xs body).
Proof.
  intros Hbody. induction xs as [| x xs IH]; simpl.
  - apply frames_ret.
  - apply frames_bind; [apply Hbody | intros _; exact IH].
Qed.

Lemma frames_insert_many {A} (c : Handle A) (ds : list A) :
  (forall d, frames R (insert_one c d)) -> frames R (insert_many c ds).
Proof.
  intros H. apply frames_for_each. intros d.
  apply frames_bind; [apply H | intros _; apply frames_ret].
Qed.
End Frames.
Lemma keeps_registry_refl (s : Store) : keeps_registry s s.
Proof. unfold keeps_registry. repeat split; lia. Qed.

Lemma keeps_registry_trans (s1 s2 s3 : Store) :
  keeps_registry s1 s2 -> keeps_registry s2 s3 -> keeps_registry s1 s3.
Proof.
  unfold keeps_registry. intros (U1 & P1 & A1 & C1 & N1) (U2 & P2 & A2 & C2 & N2).
  repeat split; try congruence. lia.
Qed.

Lemma insert_one_keeps_registry {A} (c : Handle A) (d : A) :
  (forall l s, keeps_registry s (set_docs c l s)) ->
  frames keeps_registry (insert_one c d).
Proof.
  intros Hc s. unfold insert_one. cbn [snd].
  specialize (Hc (docs c s ++ [(next_oid s, d)]) s).
  unfold keeps_registry, bump_oid in *.
  cbn [db_user db_progress db_attempt db_certificate next_oid].
  intuition lia.
Qed.

Lemma content_cols_keep_registry :
  (forall l s, keeps_registry s (set_docs module_col l s))
  /\ (forall l s, keeps_registry s (set_docs day_col l s))
  /\ (forall l s, keeps_registry s (set_docs question_col l s)).
Proof.
  repeat split; cbn; lia.
Qed.

Lemma seed_data_keeps_registry (now : datetime) :
  frames keeps_registry (seed_data now).
Proof.
  destruct content_cols_keep_registry as (Hm & Hd & Hq).
  pose proof keeps_registry_refl as Hr. pose proof keeps_registry_trans as Ht.
  unfold seed_data, count_documents.
  apply (frames_bind _ Ht).
  - apply (frames_gets _ Hr).
  - intros n. destruct (0 <? n)%nat; [apply (frames_ret _ Hr) |].
    apply (frames_bind _ Ht).
    + apply (frames_insert_many _ Hr Ht). intros d.
      now apply insert_one_keeps_registry.
    + intros _. apply (frames_for_each _ Hr Ht). intros d.
      apply (frames_bind _ Ht).
      * now apply insert_one_keeps_registry.
      * intros _. apply (frames_insert_many _ Hr Ht). intros q.
        now apply insert_one_keeps_registry.
Qed.

(** [seed_data] behind its guard. *)
Lemma seed_data_guard (now : datetime) (s : Store) :
  db_module s <> [] -> seed_data now s = (Return tt, s).
Proof.
  intros H. unfold seed_data, bind, count_documents, gets. cbn [docs module_col].
  destruct (db_module s); [congruence | reflexivity].
Qed.

(** [create_or_get_user], unfolded. *)
Lemma create_or_get_user_eq (now : datetime) (user : UserIn.t) (s : Store) :
  create_or_get_user now user s
  = match List.find (email_is (UserIn.email user)) (db_user s) with
    | Some (oid, u) =>
        (Return (UserOut.mk (str_oid oid) (User.name u) (User.email u)), s)
    | None =>
        let uid := next_oid s in
        (Return (UserOut.mk (str_oid uid) (Some (UserIn.name user))
                            (Some (UserIn.email user))),
         mk_store (db_module s) (db_day s) (db_question s)
           (db_user s ++ [(uid, User.mk (Some (UserIn.name user))
                                        (Some (UserIn.email user)) now now)])
           (db_progress s ++ [(N.succ uid,
                               Progress.mk (str_oid uid) (Some []) now now)])
           (db_attempt s) (db_certificate s) (N.succ (N.succ uid)))
    end.
Proof.
  unfold create_or_get_user, bind, find_one, gets. cbn [docs user_col].
  destruct (List.find _ (db_user s)) as [[oid u] |]; reflexivity.
Qed.

Lemma get_quiz_store (d : Z) (s : Store) : snd (get_quiz d s) = s.
Proof.
  unfold get_quiz, bind, find, gets. cbn.
  destruct (is_empty _); reflexivity.
Qed.

Lemma get_progress_store (uid : string) (s : Store) :
  snd (get_progress uid s) = s.
Proof.
  unfold get_progress, bind, find_one, gets. cbn.
  destruct (List.find _ _) as [[? ?] |]; reflexivity.
Qed.

Lemma get_certificate_store (uid : string) (s : Store) :
  snd (get_certificate uid s) = s.
Proof.
  unfold get_certificate, bind, find_one, gets. cbn.
  destruct (List.find _ _) as [[? ?] |]; reflexivity.
Qed.

(** ** Scoring and recording of an attempt *)

Lemma is_empty_false {A} (l : list A) : l <> [] -> is_empty l = false.
Proof. destruct l; [congruence | reflexivity]. Qed.

Lemma is_empty_true {A} (l : list A) : is_empty l = true <-> l = [].
Proof. destruct l; simpl; split; congruence. Qed.

Lemma total_of_pos (payload : AttemptIn.t) (s : Store) :
  qdocs_of payload s <> [] -> 0 < total_of payload s.
Proof.
  unfold total_of. destruct (qdocs_of payload s); [congruence | simpl; lia].
Qed.

Lemma passed_of_iff (payload : AttemptIn.t) (s : Store) :
  qdocs_of payload s <> [] ->
  passed_of payload s = true
  <-> 3 * total_of payload s <= 5 * score_of payload s
      /\ AttemptIn.violations payload <= 0.
Proof.
  intros H. unfold passed_of, flagged_of.
  rewrite (pass_mark _ _ (total_of_pos _ _ H)).
  rewrite andb_true_iff, negb_true_iff, Z.leb_le, Z.gtb_ltb, Z.ltb_ge.
  reflexivity.
Qed.

(** C1: when at least one question exists for the submitted day,
    [submit_attempt] returns an object whose [total] is the number of
    questions of that day, whose [score] is the number of positions at which
    both an answer and a question exist and agree (positions beyond either
    list are ignored), whose [flagged] is [violations > 0] and whose [passed]
    is [score / total >= 0.6 and not flagged]; in particular a submission
    with [violations = 1] does not pass, whatever its answers. *)
Theorem C1_submit_attempt_scoring
        (now : datetime) (payload : AttemptIn.t) (s : Store) :
  let qdocs :=
    filter (question_of_day (AttemptIn.day_number payload)) (db_question s) in
  qdocs <> [] ->
  exists out,
    fst (submit_attempt now payload s) = Return out
    /\ AttemptOut.total out = Z.of_nat (List.length qdocs)
    /\ AttemptOut.score out
       = Z.of_nat (List.length
                     (matching_positions qdocs (AttemptIn.answers payload)))
    /\ AttemptOut.flagged out = (AttemptIn.violations payload >? 0)
    /\ AttemptOut.violations out = AttemptIn.violations payload
    /\ AttemptOut.passed out
       = (Qle_bool (6 # 10)
                   (truediv (AttemptOut.score out) (AttemptOut.total out))
          && negb (AttemptOut.flagged out))
    /\ (AttemptOut.passed out = true
        <-> 3 * AttemptOut.total out <= 5 * AttemptOut.score out
            /\ AttemptIn.violations payload <= 0)
    /\ (AttemptIn.violations payload = 1 -> AttemptOut.passed out = false).
Proof.
  intros qdocs Hq. change qdocs with (qdocs_of payload s) in *.
  rewrite submit_attempt_phases, (is_empty_false _ Hq).
  exists (response_of payload s). cbn [fst response_of AttemptOut.total
    AttemptOut.score AttemptOut.flagged AttemptOut.passed AttemptOut.violations].
  split; [reflexivity |]. split; [reflexivity |].
  split; [apply score_loop_matching |].
  split; [reflexivity |]. split; [reflexivity |]. split; [reflexivity |].
  split; [now apply passed_of_iff |].
  intros Hv. unfold passed_of, flagged_of. rewrite Hv.
  apply andb_false_r.
Qed.

(** A perfect answer set for day 1 with one violation: scored 5 out of 5,
    flagged, not passed. *)
Lemma C1_submit_attempt_scoring_witness :
  let payload := AttemptIn.mk ann_id 1 perfect 1 in
  filter (question_of_day 1) (db_question registered) <> []
  /\ fst (submit_attempt t0 payload registered)
     = Return (AttemptOut.mk 5 5 false true 1).
Proof.
  intros payload. split; [vm_compute; discriminate |].
  destruct (C1_submit_attempt_scoring t0 payload registered)
    as (out & Hout & _); [vm_compute; discriminate |].
  rewrite Hout. vm_compute in Hout. now inversion Hout.
Defined.

Lemma record_attempt_attempts (now : datetime) (payload : AttemptIn.t)
      (s : Store) :
  db_attempt (record_attempt now payload s)
  = db_attempt s ++ [(next_oid s, attempt_doc now payload s)].
Proof. reflexivity. Qed.

Lemma update_progress_frame (now : datetime) (payload : AttemptIn.t)
      (passed : bool) (s : Store) :
  let s' := update_progress now payload passed s in
  db_attempt s' = db_attempt s /\ db_certificate s' = db_certificate s
  /\ db_user s' = db_user s /\ db_question s' = db_question s
  /\ next_oid s' = next_oid s.
Proof.
  unfold update_progress. destruct passed; [| now auto].
  destruct (List.find _ _) as [[pid p] |]; [| now auto].
  destruct (negb _); now auto.
Qed.

Lemma issue_certificate_frame (now : datetime) (payload : AttemptIn.t)
      (s : Store) :
  let s' := issue_certificate now payload s in
  db_attempt s' = db_attempt s /\ db_progress s' = db_progress s
  /\ db_user s' = db_user s /\ db_question s' = db_question s
  /\ (next_oid s <= next_oid s')%N.
Proof.
  unfold issue_certificate.
  destruct (List.find _ _) as [[pid p] |]; [| repeat split; lia].
  destruct (15 <=? _)%nat; [| repeat split; lia].
  destruct (List.find _ _); cbn; repeat split; lia.
Qed.

(** The attempts after a served submission: one more record, at the end. *)
Lemma submit_attempt_attempts (now : datetime) (payload : AttemptIn.t)
      (s : Store) :
  qdocs_of payload s <> [] ->
  db_attempt (snd (submit_attempt now payload s))
  = db_attempt s ++ [(next_oid s, attempt_doc now payload s)].
Proof.
  intros Hq. rewrite submit_attempt_phases, (is_empty_false _ Hq). cbn [snd].
  destruct (issue_certificate_frame now payload
              (update_progress now payload (passed_of payload s)
                               (record_attempt now payload s))) as (-> & _).
  destruct (update_progress_frame now payload (passed_of payload s)
              (record_attempt now payload s)) as (-> & _).
  apply record_attempt_attempts.
Qed.

(** ** Submissions behind the driver's encoder *)

Lemma post_attempt_eq (now : datetime) (payload : AttemptIn.t) (s : Store) :
  post_attempt now payload s
  = if int64 (AttemptIn.day_number payload) then
      if is_empty (qdocs_of payload s) then
        (Raise (HTTPError 400 "No questions for this day"), s)
      else if forallb int64 (AttemptIn.answers payload)
              && int64 (AttemptIn.violations payload)
           then submit_attempt now payload s
           else (Raise OverflowError, s)
    else (Raise OverflowError, s).
Proof.
  unfold post_attempt, qdocs_of.
  destruct (int64 (AttemptIn.day_number payload)); [| reflexivity].
  unfold bind at 1. cbn [encode ret].
  unfold bind at 1, find, gets. cbn [docs question_col].
  destruct (is_empty _); [reflexivity |].
  destruct (forallb _ _ && _); reflexivity.
Qed.

Lemma existsb_filter {A} (f : A -> bool) (l : list A) :
  existsb f l = negb (is_empty (filter f l)).
Proof.
  induction l as [| a l IH]; [reflexivity |]. cbn [existsb filter].
  destruct (f a); [reflexivity | exact IH].
Qed.

(** The store holds a question of the day exactly when the query of line
    219 finds one. *)
Lemma py_in_question_days (payload : AttemptIn.t) (s : Store) :
  py_in (AttemptIn.day_number payload) (question_days s)
  = negb (is_empty (qdocs_of payload s)).
Proof.
  unfold py_in, question_days, qdocs_of. rewrite <- existsb_filter.
  induction (db_question s) as [| q l IH]; [reflexivity |].
  cbn [map existsb]. rewrite IH. unfold question_of_day at 2.
  now rewrite Z.eqb_sym.
Qed.

Lemma in_question_days (payload : AttemptIn.t) (s : Store) :
  In (AttemptIn.day_number payload) (question_days s)
  <-> qdocs_of payload s <> [].
Proof.
  pose proof (py_in_question_days payload s) as E. unfold py_in in E.
  split.
  - intros Hin Hnil. rewrite Hnil in E. cbn in E.
    assert (Hex : existsb (Z.eqb (AttemptIn.day_number payload))
                          (question_days s) = true).
    { apply existsb_exists. eexists. split; [exact Hin | apply Z.eqb_refl]. }
    congruence.
  - intros Hne. destruct (qdocs_of payload s); [contradiction |].
    cbn in E. apply existsb_exists in E. destruct E as (d & Hin & Hd).
    apply Z.eqb_eq in Hd. now subst.
Qed.

(** What the driver cannot encode is not stored. *)
Lemma post_attempt_rejects (now : datetime) (payload : AttemptIn.t)
      (s : Store) :
  encodable payload = false -> snd (post_attempt now payload s) = s.
Proof.
  unfold encodable. rewrite post_attempt_eq. intros H.
  destruct (int64 (AttemptIn.day_number payload)); [| reflexivity].
  destruct (is_empty _); [reflexivity |].
  cbn [andb] in H. rewrite H. reflexivity.
Qed.

Lemma post_attempt_encodable (now : datetime) (payload : AttemptIn.t)
      (s : Store) :
  encodable payload = true ->
  post_attempt now payload s = submit_attempt now payload s.
Proof.
  unfold encodable. rewrite post_attempt_eq. intros H.
  apply andb_prop in H. destruct H as [H Hv].
  apply andb_prop in H. destruct H as [Hd Ha]. rewrite Hd, Ha, Hv.
  cbn [andb]. rewrite submit_attempt_phases.
  destruct (is_empty _); reflexivity.
Qed.

(** C4 (amended): for a submission whose integers BSON can hold (each of
    [day_number], [answers] and [violations] fits in 8 bytes),
    [POST /attempt] raises exactly when the store holds no question of the
    submitted day; the exception is then HTTP 400 (never 404) and the store
    is left as it was; otherwise it returns and exactly one attempt record,
    holding the submission and its score, is appended, whether the attempt
    passes, fails or is flagged. *)
Theorem C4_submit_attempt_bad_request
        (now : datetime) (payload : AttemptIn.t) (s : Store) :
  let day := AttemptIn.day_number payload in
  let res := post_attempt now payload s in
  int64 day = true ->
  forallb int64 (AttemptIn.answers payload) = true ->
  int64 (AttemptIn.violations payload) = true ->
  ((exists e, fst res = Raise e) <-> ~ In day (question_days s))
  /\ (forall e, fst res = Raise e ->
        e = HTTPError 400 "No questions for this day" /\ snd res = s)
  /\ (In day (question_days s) ->
      exists out,
        fst res = Return out
        /\ db_attempt (snd res)
           = db_attempt s
             ++ [(next_oid s,
                  Attempt.mk (AttemptIn.user_id payload) day
                             (AttemptIn.answers payload)
                             (AttemptOut.score out) (AttemptOut.total out)
                             (AttemptIn.violations payload)
                             (AttemptOut.flagged out) now now)]).
Proof.
  intros day res Hd Ha Hv. subst day.
  rewrite (in_question_days payload s).
  assert (Hres : res = post_attempt now payload s) by reflexivity.
  rewrite post_attempt_eq, Hd, Ha, Hv, submit_attempt_phases in Hres.
  cbn [andb] in Hres.
  destruct (qdocs_of payload s) as [| q rest] eqn:Eq.
  - cbn [is_empty] in Hres. rewrite Hres. cbn [fst snd].
    split; [split; [intros _ H; now apply H | intros _; eexists; reflexivity] |].
    split; [| intros H; now contradiction H].
    intros e He. inversion He. auto.
  - cbn [is_empty] in Hres. split; [| split].
    + rewrite Hres. cbn [fst]. split; [intros [e He]; discriminate |].
      intros H. contradiction H. discriminate.
    + rewrite Hres. cbn [fst]. discriminate.
    + intros _. exists (response_of payload s). split.
      * rewrite Hres. reflexivity.
      * unfold res. rewrite post_attempt_encodable.
        -- apply submit_attempt_attempts. rewrite Eq. discriminate.
        -- unfold encodable. now rewrite Hd, Ha, Hv.
Qed.

(** Ann's answers for day 16, which has no question: HTTP 400, nothing
    written.  Her answers for day 1: one attempt record, with her score. *)
Lemma C4_submit_attempt_bad_request_witness :
  post_attempt t0 (ann_attempt 16) registered
  = (Raise (HTTPError 400 "No questions for this day"), registered)
  /\ exists out,
       fst (post_attempt t0 (ann_attempt 1) registered) = Return out
       /\ map snd (db_attempt (snd (post_attempt t0 (ann_attempt 1) registered)))
          = [Attempt.mk ann_id 1 perfect 5 5 0 false t0 t0].
Proof.
  split.
  - destruct (C4_submit_attempt_bad_request t0 (ann_attempt 16) registered)
      as (Hiff & Herr & _); [reflexivity | reflexivity | reflexivity |].
    destruct (proj2 Hiff) as [e He].
    { rewrite (in_question_days (ann_attempt 16) registered).
      intros H. apply H. vm_compute. reflexivity. }
    destruct (Herr e He) as [-> Hs].
    destruct (post_attempt t0 (ann_attempt 16) registered) as [o s'].
    cbn [fst snd] in *. now subst.
  - destruct (C4_submit_attempt_bad_request t0 (ann_attempt 1) registered)
      as (_ & _ & Hret); [reflexivity | reflexivity | reflexivity |].
    destruct Hret as (out & Hout & Hatt).
    { apply (in_question_days (ann_attempt 1) registered).
      vm_compute. discriminate. }
    exists out. split; [exact Hout |].
    assert (Hs : match fst (post_attempt t0 (ann_attempt 1) registered) with
                 | Return o =>
                     (AttemptOut.score o, AttemptOut.total o, AttemptOut.flagged o)
                 | Raise _ => (0, 0, true)
                 end = (5, 5, false)) by (vm_compute; reflexivity).
    rewrite Hout in Hs. injection Hs as H1 H2 H3.
    rewrite Hatt, H1, H2, H3.
    replace (db_attempt registered) with (@nil (ObjectId * Attempt.t))
      by (vm_compute; reflexivity).
    reflexivity.
Defined.

(** C4 as stated fails: the store holds the questions of day 1, the
    violation count 2^63 does not fit in 8 bytes, the driver raises
    [OverflowError] on the attempt document and no attempt is recorded. *)
Lemma C4_persists_unless_no_questions_counterexample :
  ~ persists_unless_no_questions t0 oversized registered.
Proof.
  unfold persists_unless_no_questions. cbv zeta. intros (_ & _ & H).
  destruct H as [doc Hdoc].
  - apply (in_question_days oversized registered). vm_compute. discriminate.
  - assert (E : db_attempt (snd (post_attempt t0 oversized registered)) = [])
      by (vm_compute; reflexivity).
    rewrite E in Hdoc. destruct (db_attempt registered); discriminate Hdoc.
Qed.

(** C10: a passing submission for a user without progress record is
    recorded and reported as passed, and leaves the progress and the
    certificate collections as they were. *)
Theorem C10_unregistered_pass_not_tracked
        (now : datetime) (payload : AttemptIn.t) (s : Store) :
  let qdocs :=
    filter (question_of_day (AttemptIn.day_number payload)) (db_question s) in
  let score := score_loop 0 qdocs (AttemptIn.answers payload) 0 in
  qdocs <> [] ->
  3 * Z.of_nat (List.length qdocs) <= 5 * score ->
  AttemptIn.violations payload <= 0 ->
  List.find (progress_of (AttemptIn.user_id payload)) (db_progress s) = None ->
  exists out s' doc,
    submit_attempt now payload s = (Return out, s')
    /\ AttemptOut.passed out = true
    /\ db_attempt s' = db_attempt s ++ [(next_oid s, doc)]
    /\ Attempt.user_id doc = AttemptIn.user_id payload
    /\ Attempt.day_number doc = AttemptIn.day_number payload
    /\ db_progress s' = db_progress s
    /\ db_certificate s' = db_certificate s.
Proof.
  intros qdocs score Hq Hmark Hv Hnone.
  change qdocs with (qdocs_of payload s) in *.
  rewrite submit_attempt_phases, (is_empty_false _ Hq).
  assert (Hp : passed_of payload s = true)
    by (apply passed_of_iff; auto).
  rewrite Hp.
  assert (E1 : update_progress now payload true (record_attempt now payload s)
               = record_attempt now payload s).
  { unfold update_progress.
    change (db_progress (record_attempt now payload s)) with (db_progress s).
    now rewrite Hnone. }
  assert (E2 : issue_certificate now payload (record_attempt now payload s)
               = record_attempt now payload s).
  { unfold issue_certificate.
    change (db_progress (record_attempt now payload s)) with (db_progress s).
    now rewrite Hnone. }
  rewrite E1, E2.
  exists (response_of payload s), (record_attempt now payload s),
         (attempt_doc now payload s).
  cbn [response_of AttemptOut.passed]. repeat split. exact Hp.
Qed.

(** An unknown user answers day 1 perfectly. *)
Lemma C10_unregistered_pass_not_tracked_witness :
  let payload := AttemptIn.mk "nobody" 1 perfect 0 in
  exists out s',
    submit_attempt t0 payload seeded = (Return out, s')
    /\ AttemptOut.passed out = true
    /\ List.length (db_attempt s') = 1%nat
    /\ db_progress s' = [] /\ db_certificate s' = [].
Proof.
  intros payload.
  destruct (C10_unregistered_pass_not_tracked t0 payload seeded)
    as (out & s' & doc & Hrun & Hp & Ha & _ & _ & Hprog & Hcert);
    [vm_compute; discriminate | vm_compute; discriminate
     | vm_compute; discriminate | vm_compute; reflexivity |].
  exists out, s'. rewrite Ha, Hprog, Hcert. repeat split; auto.
Defined.

(** ** Certificates *)

Lemma find_none_filter {A} (f : A -> bool) (l : list A) :
  List.find f l = None <-> filter f l = [].
Proof.
  induction l as [| a l IH]; simpl; [tauto |].
  destruct (f a); [split; discriminate | exact IH].
Qed.

Lemma issue_certificate_cases (now : datetime) (payload : AttemptIn.t)
      (s : Store) :
  let uid := AttemptIn.user_id payload in
  let s' := issue_certificate now payload s in
  ((15 <= completed_count s uid)%nat
   /\ List.find (certificate_of uid) (db_certificate s) = None
   /\ db_certificate s'
      = db_certificate s ++ [(next_oid s, certificate_doc now payload s)])
  \/ (((completed_count s uid < 15)%nat
       \/ List.find (certificate_of uid) (db_certificate s) <> None)
      /\ s' = s).
Proof.
  cbv zeta. unfold issue_certificate, completed_count, user_days.
  destruct (List.find (progress_of _) _) as [[pid p] |];
    [| right; split; [left; lia | reflexivity]].
  destruct (Nat.leb_spec 15 (List.length (get_default (Progress.completed_days p) [])));
    [| right; split; [left; lia | reflexivity]].
  destruct (List.find (certificate_of _) _) eqn:Ec.
  - right. split; [right; discriminate | reflexivity].
  - left. repeat split; auto.
Qed.

(** The certificate collection after a submission, from the store before. *)
Lemma submit_attempt_certificates (now : datetime) (payload : AttemptIn.t)
      (s : Store) :
  let uid := AttemptIn.user_id payload in
  let s' := snd (submit_attempt now payload s) in
  (qualifies now payload s
   /\ List.find (certificate_of uid) (db_certificate s) = None
   /\ exists oid c,
       db_certificate s' = db_certificate s ++ [(oid, c)]
       /\ Certificate.user_id c = uid)
  \/ ((~ qualifies now payload s
       \/ List.find (certificate_of uid) (db_certificate s) <> None)
      /\ db_certificate s' = db_certificate s).
Proof.
  cbv zeta. unfold qualifies.
  rewrite submit_attempt_phases.
  destruct (qdocs_of payload s) as [| q rest] eqn:Eq; cbn [is_empty snd].
  { right. split; [left; intros [H _]; congruence | reflexivity]. }
  set (s2 := update_progress now payload (passed_of payload s)
                             (record_attempt now payload s)).
  assert (Hc2 : db_certificate s2 = db_certificate s).
  { unfold s2.
    destruct (update_progress_frame now payload (passed_of payload s)
                (record_attempt now payload s)) as (_ & -> & _).
    reflexivity. }
  pose proof (issue_certificate_frame now payload s2) as (_ & Hp3 & _).
  assert (Hcount : completed_count (issue_certificate now payload s2)
                                   (AttemptIn.user_id payload)
                   = completed_count s2 (AttemptIn.user_id payload)).
  { unfold completed_count, user_days. now rewrite Hp3. }
  rewrite Hcount.
  destruct (issue_certificate_cases now payload s2)
    as [(H15 & Hnone & Hadd) | (Hno & Hsame)].
  - left. rewrite Hc2 in *. repeat split; auto; try discriminate.
    eexists _, _. split; [exact Hadd | reflexivity].
  - right. rewrite Hsame, Hc2 in *. split; [| reflexivity].
    destruct Hno as [Hlt | Hex]; [left; intros [_ H]; lia | now right].
Qed.

Lemma certificates_of_app (s : Store) (uid : string)
      (l : Collection Certificate.t) (x : ObjectId * Certificate.t) :
  filter (certificate_of uid) (l ++ [x])
  = filter (certificate_of uid) l
    ++ (if String.eqb (Certificate.user_id (snd x)) uid then [x] else []).
Proof.
  rewrite filter_app. simpl. unfold certificate_of.
  destruct (String.eqb _ _); reflexivity.
Qed.

Lemma submit_attempt_at_most_one (now : datetime) (payload : AttemptIn.t)
      (s : Store) :
  at_most_one_certificate s ->
  at_most_one_certificate (snd (submit_attempt now payload s)).
Proof.
  intros Hinv uid. unfold certificates_of.
  destruct (submit_attempt_certificates now payload s)
    as [(_ & Hnone & oid & c & Hadd & Hc) | (_ & Hsame)].
  - rewrite Hadd, (certificates_of_app s). cbn [snd]. rewrite Hc.
    destruct (String.eqb_spec (AttemptIn.user_id payload) uid) as [E | Hne].
    + rewrite E in Hnone.
      apply find_none_filter in Hnone. rewrite Hnone. simpl. lia.
    + rewrite app_nil_r. apply Hinv.
  - rewrite Hsame. apply Hinv.
Qed.

(** Only [submit_attempt] writes to the certificate collection. *)
Lemma step_certificates (s : Store) (r : datetime * request) :
  (forall payload, snd r <> PostAttempt payload) ->
  db_certificate (step s r) = db_certificate s.
Proof.
  destruct r as [now [| user | d | payload | uid | uid]]; intros H;
    unfold step; cbn [fst snd].
  - apply (seed_data_keeps_registry now s).
  - rewrite create_or_get_user_eq.
    destruct (List.find _ _) as [[oid u] |]; reflexivity.
  - now rewrite get_quiz_store.
  - now elim (H payload).
  - now rewrite get_progress_store.
  - now rewrite get_certificate_store.
Qed.

Lemma step_at_most_one (s : Store) (r : datetime * request) :
  at_most_one_certificate s -> at_most_one_certificate (step s r).
Proof.
  intros Hinv.
  destruct (snd r) as [| user | d | payload | uid | uid] eqn:Er.
  4: { unfold step. rewrite Er. now apply submit_attempt_at_most_one. }
  all: intros uid'; unfold certificates_of;
    rewrite step_certificates by (rewrite Er; discriminate); apply Hinv.
Qed.

Lemma run_at_most_one (rs : list (datetime * request)) (s : Store) :
  at_most_one_certificate s -> at_most_one_certificate (run s rs).
Proof.
  revert s. induction rs as [| r rs IH]; intros s Hinv; simpl; [exact Hinv |].
  apply IH. now apply step_at_most_one.
Qed.

(** C2: from a store holding at most one certificate per user, every store
    reached by serving requests holds at most one certificate per user; a
    request other than a submission leaves the certificates alone; and a
    submission adds a certificate, exactly one and for its own user, if it
    finds at least 15 completed days and no certificate for that user, and
    otherwise leaves the certificates as they were. *)
Theorem C2_certificate_issued_once
        (s0 : Store) (rs : list (datetime * request)) :
  at_most_one_certificate s0 ->
  let s := run s0 rs in
  at_most_one_certificate s
  /\ (forall r, (forall payload, snd r <> PostAttempt payload) ->
                db_certificate (step s r) = db_certificate s)
  /\ forall now payload,
      let uid := AttemptIn.user_id payload in
      let s' := snd (submit_attempt now payload s) in
      (* the first qualifying call creates exactly one certificate *)
      (qualifies now payload s ->
       List.find (certificate_of uid) (db_certificate s) = None ->
       exists oid c,
         db_certificate s' = db_certificate s ++ [(oid, c)]
         /\ Certificate.user_id c = uid
         /\ List.length (certificates_of s' uid) = 1%nat)
      (* every later qualifying call is a no-op on the certificates *)
      /\ (List.find (certificate_of uid) (db_certificate s) <> None ->
          db_certificate s' = db_certificate s)
      (* no certificate below 15 completed days *)
      /\ (db_certificate s' <> db_certificate s ->
          (15 <= completed_count s' uid)%nat).
Proof.
  intros Hinv s. split; [now apply run_at_most_one |].
  split; [intros r Hr; now apply step_certificates |].
  intros now payload. cbv zeta.
  destruct (submit_attempt_certificates now payload s)
    as [(Hq & Hnone & oid & c & Hadd & Hc) | (Hno & Hsame)].
  - split; [| split].
    + intros _ _. exists oid, c. split; [exact Hadd |]. split; [exact Hc |].
      unfold certificates_of. rewrite Hadd, (certificates_of_app s).
      cbn [snd]. rewrite Hc, String.eqb_refl.
      apply find_none_filter in Hnone. now rewrite Hnone.
    + intros H. congruence.
    + intros _. apply Hq.
  - split; [| split].
    + intros Hq Hnone. destruct Hno; contradiction.
    + intros _. exact Hsame.
    + intros H. contradiction.
Qed.

(** Ann completes the course and submits day 1 once more: one certificate,
    and the later submission leaves it alone. *)
Lemma C2_certificate_issued_once_witness :
  at_most_one_certificate empty_store
  /\ List.length (certificates_of (run empty_store ann_course) ann_id) = 1%nat
  /\ db_certificate
       (snd (submit_attempt t0 (ann_attempt 1) (run empty_store ann_course)))
     = db_certificate (run empty_store ann_course).
Proof.
  assert (H0 : at_most_one_certificate empty_store)
    by (intros uid; simpl; lia).
  destruct (C2_certificate_issued_once empty_store ann_course H0)
    as (_ & _ & Hsub).
  split; [exact H0 |]. split; [vm_compute; reflexivity |].
  apply (Hsub t0 (ann_attempt 1)). vm_compute. discriminate.
Defined.

(** ** Completed days *)

Lemma update_first_ids {A} (q : ObjectId * A -> bool) (g : A -> A)
      (l : Collection A) :
  map fst (update_first q g l) = map fst l.
Proof.
  induction l as [| d l IH]; simpl; [reflexivity |].
  destruct (q d); simpl; [reflexivity | now rewrite IH].
Qed.

Lemma nodup_ids_inj {A} (l : Collection A) (a b : ObjectId * A) :
  NoDup (map fst l) -> In a l -> In b l -> fst a = fst b -> a = b.
Proof.
  induction l as [| d l IH]; simpl; [tauto |].
  intros Hnd Ha Hb E. inversion Hnd as [| x xs Hnotin Hnd']; subst.
  destruct Ha as [-> | Ha], Hb as [-> | Hb]; auto.
  - exfalso. apply Hnotin. rewrite E. now apply in_map.
  - exfalso. apply Hnotin. rewrite <- E. now apply in_map.
Qed.

(** Looking up after an update by [_id]: the same record is found, updated
    if it is the one the update addressed. *)
Lemma find_update_first {A} (f : ObjectId * A -> bool) (pid : ObjectId)
      (g : A -> A) (l : Collection A) :
  NoDup (map fst l) ->
  (forall i x, f (i, g x) = f (i, x)) ->
  List.find f (update_first (id_is pid) g l)
  = option_map (fun d => if id_is pid d then (fst d, g (snd d)) else d)
               (List.find f l).
Proof.
  intros Hnd Hf. induction l as [| d l IH]; simpl; [reflexivity |].
  inversion Hnd as [| x xs Hnotin Hnd']; subst.
  destruct (id_is pid d) eqn:Eid; simpl.
  - rewrite Hf. rewrite <- surjective_pairing.
    destruct (f d) eqn:Efd; simpl; [now rewrite Eid |].
    destruct (List.find f l) as [e |] eqn:Efind; simpl; [| reflexivity].
    apply find_some in Efind. destruct Efind as [Hin _].
    assert (Hne : id_is pid e = false).
    { unfold id_is in *. apply N.eqb_eq in Eid. apply N.eqb_neq.
      intros E. apply Hnotin. rewrite Eid, <- E. now apply in_map. }
    now rewrite Hne.
  - destruct (f d) eqn:Efd; simpl; [now rewrite Eid |].
    now apply IH.
Qed.

Lemma py_in_false (x : Z) (l : list Z) : py_in x l = false <-> ~ In x l.
Proof.
  unfold py_in. split.
  - intros H Hin. assert (E : existsb (Z.eqb x) l = true).
    { apply existsb_exists. exists x. split; [exact Hin | apply Z.eqb_refl]. }
    congruence.
  - intros H. destruct (existsb (Z.eqb x) l) eqn:E; [| reflexivity].
    apply existsb_exists in E. destruct E as (y & Hin & Hy).
    apply Z.eqb_eq in Hy. subst. contradiction.
Qed.

(** The completed days of any user across the progress update. *)
Lemma update_progress_days (now : datetime) (payload : AttemptIn.t)
      (passed : bool) (s : Store) (u : string) :
  NoDup (map fst (db_progress s)) ->
  let s' := update_progress now payload passed s in
  user_days s' u = user_days s u
  \/ (u = AttemptIn.user_id payload /\ passed = true
      /\ exists days,
          user_days s u = Some days
          /\ ~ In (AttemptIn.day_number payload) days
          /\ user_days s' u = Some (days ++ [AttemptIn.day_number payload])).
Proof.
  intros Hnd. cbv zeta. unfold update_progress.
  destruct passed; [| now left].
  destruct (List.find (progress_of (AttemptIn.user_id payload)) (db_progress s))
    as [[pid p] |] eqn:Efind; [| now left].
  destruct (py_in _ _) eqn:Ein; cbn [negb]; [now left |].
  unfold user_days. cbn [set_docs progress_col db_progress].
  rewrite find_update_first; [| exact Hnd | reflexivity].
  destruct (List.find (progress_of u) (db_progress s)) as [[i x] |] eqn:Eu;
    cbn [option_map]; [| now left].
  destruct (id_is pid (i, x)) eqn:Eid; [| now left].
  right. apply find_some in Efind, Eu.
  destruct Efind as [Hin1 Hp1], Eu as [Hin2 Hp2].
  assert (E : (i, x) = (pid, p)).
  { apply (nodup_ids_inj (db_progress s)); auto.
    unfold id_is in Eid. now apply N.eqb_eq in Eid. }
  inversion E; subst i x.
  unfold progress_of in *. apply String.eqb_eq in Hp1, Hp2.
  cbn [snd] in *. split; [congruence |]. split; [reflexivity |].
  exists (get_default (Progress.completed_days p) []).
  split; [reflexivity |]. split; [now apply py_in_false | reflexivity].
Qed.

(** The completed days of any user across a whole submission. *)
Lemma submit_attempt_days (now : datetime) (payload : AttemptIn.t)
      (s : Store) (u : string) :
  NoDup (map fst (db_progress s)) ->
  let s' := snd (submit_attempt now payload s) in
  user_days s' u = user_days s u
  \/ (u = AttemptIn.user_id payload
      /\ (exists out, fst (submit_attempt now payload s) = Return out
                      /\ AttemptOut.passed out = true)
      /\ exists days,
          user_days s u = Some days
          /\ ~ In (AttemptIn.day_number payload) days
          /\ user_days s' u = Some (days ++ [AttemptIn.day_number payload])).
Proof.
  intros Hnd. cbv zeta. rewrite submit_attempt_phases.
  destruct (is_empty (qdocs_of payload s)); cbn [fst snd]; [now left |].
  set (s1 := record_attempt now payload s).
  set (s2 := update_progress now payload (passed_of payload s) s1).
  assert (E3 : forall v, user_days (issue_certificate now payload s2) v
                         = user_days s2 v).
  { intros v. unfold user_days.
    destruct (issue_certificate_frame now payload s2) as (_ & -> & _).
    reflexivity. }
  rewrite E3.
  destruct (update_progress_days now payload (passed_of payload s) s1 u Hnd)
    as [Hsame | (Hu & Hp & days & Hd & Hnotin & Hd')].
  - left. exact Hsame.
  - right. split; [exact Hu |]. split.
    + exists (response_of payload s). split; [reflexivity | exact Hp].
    + exists days. auto.
Qed.

(** The completed days of the submitting user across a passing update. *)
Lemma update_progress_own_days (now : datetime) (payload : AttemptIn.t)
      (s : Store) (days : list Z) :
  NoDup (map fst (db_progress s)) ->
  user_days s (AttemptIn.user_id payload) = Some days ->
  user_days (update_progress now payload true s) (AttemptIn.user_id payload)
  = Some (if py_in (AttemptIn.day_number payload) days then days
          else days ++ [AttemptIn.day_number payload]).
Proof.
  intros Hnd Hdays. unfold update_progress. unfold user_days in Hdays.
  destruct (List.find (progress_of (AttemptIn.user_id payload)) (db_progress s))
    as [[pid p] |] eqn:Efind; [| discriminate].
  inversion Hdays as [Hd]. rewrite Hd.
  destruct (py_in _ days) eqn:Ein; cbn [negb].
  - unfold user_days. now rewrite Efind, Hd.
  - unfold user_days. cbn [set_docs progress_col db_progress].
    rewrite find_update_first; [| exact Hnd | reflexivity].
    rewrite Efind. cbn [option_map]. unfold id_is at 1. cbn [fst snd].
    now rewrite N.eqb_refl.
Qed.

Lemma submit_attempt_own_days (now : datetime) (payload : AttemptIn.t)
      (s : Store) (days : list Z) (out : AttemptOut.t) :
  NoDup (map fst (db_progress s)) ->
  user_days s (AttemptIn.user_id payload) = Some days ->
  fst (submit_attempt now payload s) = Return out ->
  AttemptOut.passed out = true ->
  user_days (snd (submit_attempt now payload s)) (AttemptIn.user_id payload)
  = Some (if py_in (AttemptIn.day_number payload) days then days
          else days ++ [AttemptIn.day_number payload]).
Proof.
  intros Hnd Hdays. rewrite submit_attempt_phases.
  destruct (is_empty (qdocs_of payload s)); cbn [fst snd]; [discriminate |].
  intros Hout Hp. inversion Hout; subst out.
  cbn [response_of AttemptOut.passed] in Hp. rewrite Hp.
  set (s1 := record_attempt now payload s).
  transitivity (user_days (update_progress now payload true s1)
                          (AttemptIn.user_id payload)).
  - unfold user_days.
    destruct (issue_certificate_frame now payload
                (update_progress now payload true s1)) as (_ & -> & _).
    reflexivity.
  - now apply update_progress_own_days.
Qed.

Lemma progress_ids_ok_mono (s s' : Store) :
  map fst (db_progress s') = map fst (db_progress s) ->
  (next_oid s <= next_oid s')%N ->
  progress_ids_ok s -> progress_ids_ok s'.
Proof.
  intros Eids Hle [Hnd Hlt]. unfold progress_ids_ok. rewrite Eids.
  split; [exact Hnd |].
  eapply Forall_impl; [| exact Hlt]. intros i Hi. cbn beta in *. lia.
Qed.

Lemma nodup_snoc {A} (l : list A) (x : A) :
  NoDup l -> ~ In x l -> NoDup (l ++ [x]).
Proof.
  intros Hnd Hx. apply NoDup_app; auto.
  - constructor; [simpl; tauto | constructor].
  - intros a Ha [<- | []]. contradiction.
Qed.

Lemma submit_attempt_progress_ids (now : datetime) (payload : AttemptIn.t)
      (s : Store) :
  let s' := snd (submit_attempt now payload s) in
  map fst (db_progress s') = map fst (db_progress s)
  /\ (next_oid s <= next_oid s')%N.
Proof.
  cbv zeta. rewrite submit_attempt_phases.
  destruct (is_empty _); cbn [snd]; [split; [reflexivity | lia] |].
  set (s1 := record_attempt now payload s).
  set (s2 := update_progress now payload (passed_of payload s) s1).
  destruct (issue_certificate_frame now payload s2) as (_ & -> & _ & _ & Hle).
  destruct (update_progress_frame now payload (passed_of payload s) s1)
    as (_ & _ & _ & _ & Hn2). fold s2 in Hn2.
  split.
  - unfold s2, update_progress.
    destruct (passed_of payload s); [| reflexivity].
    destruct (List.find _ _) as [[pid p] |]; [| reflexivity].
    destruct (negb _); [| reflexivity].
    cbn [set_docs progress_col db_progress]. apply update_first_ids.
  - rewrite Hn2 in Hle. unfold s1, record_attempt, bump_oid in Hle.
    cbn [next_oid set_docs attempt_col] in Hle. lia.
Qed.

Lemma step_progress_ids_ok (s : Store) (r : datetime * request) :
  progress_ids_ok s -> progress_ids_ok (step s r).
Proof.
  intros Hok.
  destruct r as [now [| user | d | payload | uid | uid]];
    unfold step; cbn [fst snd].
  - destruct (seed_data_keeps_registry now s) as (_ & Hp & _ & _ & Hle).
    apply (progress_ids_ok_mono s); auto. now rewrite Hp.
  - rewrite create_or_get_user_eq.
    destruct (List.find _ _) as [[oid u] |]; cbn [snd]; [exact Hok |].
    destruct Hok as [Hnd Hlt]. unfold progress_ids_ok.
    cbn [db_progress next_oid]. rewrite map_app. cbn [map fst]. split.
    + apply nodup_snoc; [exact Hnd |]. intros Hin.
      rewrite Forall_forall in Hlt. specialize (Hlt _ Hin). lia.
    + apply Forall_app. split.
      * eapply Forall_impl; [| exact Hlt]. intros i Hi. cbn beta in *. lia.
      * constructor; [lia | constructor].
  - now rewrite get_quiz_store.
  - destruct (submit_attempt_progress_ids now payload s) as [Eids Hle].
    now apply (progress_ids_ok_mono s).
  - now rewrite get_progress_store.
  - now rewrite get_certificate_store.
Qed.

Lemma find_snoc {A} (f : A -> bool) (l : list A) (x : A) :
  List.find f (l ++ [x])
  = match List.find f l with
    | Some a => Some a
    | None => if f x then Some x else None
    end.
Proof.
  induction l as [| a l IH]; simpl; [reflexivity |].
  destruct (f a); [reflexivity | exact IH].
Qed.

(** How one request may change the completed days of a user. *)
Lemma step_user_days (s : Store) (r : datetime * request) (u : string) :
  progress_ids_ok s ->
  user_days (step s r) u = user_days s u
  \/ (user_days s u = None /\ user_days (step s r) u = Some [])
  \/ (exists days d,
        user_days s u = Some days /\ ~ In d days
        /\ user_days (step s r) u = Some (days ++ [d])).
Proof.
  intros [Hnd _].
  destruct r as [now [| user | d | payload | uid | uid]];
    unfold step; cbn [fst snd].
  - left. unfold user_days.
    destruct (seed_data_keeps_registry now s) as (_ & -> & _). reflexivity.
  - rewrite create_or_get_user_eq.
    destruct (List.find _ (db_user s)) as [[oid x] |]; cbn [snd]; [now left |].
    unfold user_days. cbn [db_progress]. rewrite find_snoc.
    destruct (List.find (progress_of u) (db_progress s)) as [[i p] |];
      [now left |].
    destruct (progress_of u _); [right; left; split; reflexivity | now left].
  - left. now rewrite get_quiz_store.
  - destruct (submit_attempt_days now payload s u Hnd)
      as [Hsame | (_ & _ & days & Hd & Hnotin & Hd')]; [now left |].
    right. right. exists days, (AttemptIn.day_number payload). auto.
  - left. now rewrite get_progress_store.
  - left. now rewrite get_certificate_store.
Qed.

Lemma step_days_nodup (s : Store) (r : datetime * request) (u : string) :
  progress_ids_ok s -> days_nodup s u -> days_nodup (step s r) u.
Proof.
  intros Hok Hnd. unfold days_nodup in *.
  destruct (step_user_days s r u Hok)
    as [-> | [(_ & ->) | (days & d & Hd & Hnotin & ->)]].
  - exact Hnd.
  - constructor.
  - rewrite Hd in Hnd. now apply nodup_snoc.
Qed.

Lemma run_days_nodup (rs : list (datetime * request)) (s : Store) (u : string) :
  progress_ids_ok s -> days_nodup s u ->
  progress_ids_ok (run s rs) /\ days_nodup (run s rs) u.
Proof.
  revert s. induction rs as [| r rs IH]; intros s Hok Hnd; simpl; [auto |].
  apply IH; [now apply step_progress_ids_ok | now apply step_days_nodup].
Qed.

(** C3: with unique progress [_id]s, a user whose completed days start
    without duplicate (or who has no progress record yet) has no duplicate
    after any sequence of requests; a submission changes a user's completed
    days only by appending its day, for its own user, when it passes and the
    day is not there yet; and after two passing submissions of one user for
    one day, that day occurs exactly once. *)
Theorem C3_completed_days_no_duplicates
        (s0 : Store) (rs : list (datetime * request)) (uid : string) :
  progress_ids_ok s0 ->
  days_nodup s0 uid ->
  let s := run s0 rs in
  days_nodup s uid
  /\ (forall now payload,
        let res := submit_attempt now payload s in
        user_days (snd res) uid = user_days s uid
        \/ (uid = AttemptIn.user_id payload
            /\ (exists out, fst res = Return out
                            /\ AttemptOut.passed out = true)
            /\ exists days,
                user_days s uid = Some days
                /\ ~ In (AttemptIn.day_number payload) days
                /\ user_days (snd res) uid
                   = Some (days ++ [AttemptIn.day_number payload])))
  /\ (forall now1 now2 p1 p2 out1 out2,
        AttemptIn.user_id p1 = uid -> AttemptIn.user_id p2 = uid ->
        AttemptIn.day_number p2 = AttemptIn.day_number p1 ->
        user_days s uid <> None ->
        let res1 := submit_attempt now1 p1 s in
        let res2 := submit_attempt now2 p2 (snd res1) in
        fst res1 = Return out1 -> AttemptOut.passed out1 = true ->
        fst res2 = Return out2 -> AttemptOut.passed out2 = true ->
        exists days,
          user_days (snd res2) uid = Some days
          /\ count_occ Z.eq_dec days (AttemptIn.day_number p1) = 1%nat).
Proof.
  intros Hok0 Hnd0 s.
  destruct (run_days_nodup rs s0 uid Hok0 Hnd0) as [Hok Hnd]. fold s in Hok, Hnd.
  split; [exact Hnd |]. split.
  - intros now payload. cbv zeta.
    apply submit_attempt_days. apply Hok.
  - intros now1 now2 p1 p2 out1 out2 Hu1 Hu2 Hday Hsome res1 res2
           Hr1 Hp1 Hr2 Hp2.
    destruct (user_days s uid) as [days |] eqn:Hdays; [| congruence].
    set (d := AttemptIn.day_number p1) in *.
    set (days1 := if py_in d days then days else days ++ [d]).
    assert (H1 : user_days (snd res1) uid = Some days1).
    { rewrite <- Hu1 in *.
      exact (submit_attempt_own_days now1 p1 s days out1 (proj1 Hok) Hdays
                                     Hr1 Hp1). }
    assert (Hok1 : progress_ids_ok (snd res1))
      by (apply (step_progress_ids_ok s (now1, PostAttempt p1)); exact Hok).
    assert (Hin1 : In d days1).
    { unfold days1. destruct (py_in d days) eqn:Ein.
      - destruct (in_dec Z.eq_dec d days) as [Hin | Hnotin]; [exact Hin |].
        apply py_in_false in Hnotin. congruence.
      - apply in_or_app. right. now left. }
    assert (Hnd1 : NoDup days1).
    { unfold days1. destruct (py_in d days) eqn:Ein.
      - unfold days_nodup in Hnd. now rewrite Hdays in Hnd.
      - apply nodup_snoc; [| now apply py_in_false].
        unfold days_nodup in Hnd. now rewrite Hdays in Hnd. }
    assert (H2 : user_days (snd res2) uid
                 = Some (if py_in (AttemptIn.day_number p2) days1 then days1
                         else days1 ++ [AttemptIn.day_number p2])).
    { rewrite <- Hu2 in *.
      exact (submit_attempt_own_days now2 p2 (snd res1) days1 out2
                                     (proj1 Hok1) H1 Hr2 Hp2). }
    rewrite Hday in H2. fold d in H2.
    assert (Ein1 : py_in d days1 = true).
    { destruct (py_in d days1) eqn:E; [reflexivity |].
      apply py_in_false in E. contradiction. }
    rewrite Ein1 in H2. exists days1. split; [exact H2 |].
    now apply NoDup_count_occ'.
Qed.

(** Ann, registered with no completed day, passes day 1 twice. *)
Lemma C3_completed_days_no_duplicates_witness :
  progress_ids_ok registered
  /\ days_nodup registered ann_id
  /\ exists days,
      user_days
        (run registered [(t0, PostAttempt (ann_attempt 1));
                         (t0, PostAttempt (ann_attempt 1))]) ann_id
      = Some days
      /\ count_occ Z.eq_dec days 1 = 1%nat.
Proof.
  assert (Hok : progress_ids_ok registered).
  { split; vm_compute;
      [apply NoDup_cons; [tauto | apply NoDup_nil] | repeat constructor]. }
  assert (Hnd : days_nodup registered ann_id) by (vm_compute; constructor).
  split; [exact Hok |]. split; [exact Hnd |].
  destruct (C3_completed_days_no_duplicates registered [] ann_id Hok Hnd)
    as (_ & _ & Htwice).
  set (out := AttemptOut.mk 5 5 true false 0).
  apply (Htwice t0 t0 (ann_attempt 1) (ann_attempt 1) out out
                eq_refl eq_refl eq_refl).
  - vm_compute. discriminate.
  - vm_compute. reflexivity.
  - reflexivity.
  - vm_compute. reflexivity.
  - reflexivity.
Defined.

(** ** Quiz retrieval *)

Lemma same_but_answer_pop (a b : ObjectId * Question.t) :
  same_but_answer a b ->
  Question.pop_answer_index (snd a) = Question.pop_answer_index (snd b).
Proof.
  intros (_ & Hd & Hp & Ho & Hc & Hu). unfold Question.pop_answer_index.
  now rewrite Hd, Hp, Ho, Hc, Hu.
Qed.

Lemma quiz_questions_same (d : Z) (l1 l2 : Collection Question.t) :
  Forall2 same_but_answer l1 l2 ->
  map Question.pop_answer_index (without_id (filter (question_of_day d) l1))
  = map Question.pop_answer_index (without_id (filter (question_of_day d) l2)).
Proof.
  unfold without_id. induction 1 as [| a b l1 l2 Hab _ IH]; simpl;
    [reflexivity |].
  pose proof (same_but_answer_pop a b Hab) as Hpop.
  destruct Hab as (Hi & Hd & Hrest).
  assert (Eq : question_of_day d b = question_of_day d a)
    by (unfold question_of_day; now rewrite Hd).
  rewrite Eq. destruct (question_of_day d a); simpl; [| exact IH].
  now rewrite IH, Hpop.
Qed.

Lemma get_quiz_eq (d : Z) (s : Store) :
  get_quiz d s
  = let qs := without_id (filter (question_of_day d) (db_question s)) in
    if is_empty qs
    then (Raise (HTTPError 404 "Quiz not found for this day"), s)
    else (Return (QuizOut.mk d (map Question.pop_answer_index qs)), s).
Proof.
  unfold get_quiz, bind, find, gets. cbn [docs question_col].
  destruct (is_empty _); reflexivity.
Qed.

(** C5: [get_quiz] raises exactly when the day has no question, and then
    with HTTP 404; otherwise it returns every question of the day, in store
    order, none of them with an [answer_index] field; it writes nothing; and
    its outcome is the same on two stores that differ only in the
    [answer_index] of their questions. *)
Theorem C5_get_quiz_hides_answers (d : Z) (s : Store) :
  let qs := filter (question_of_day d) (db_question s) in
  ((exists e, fst (get_quiz d s) = Raise e) <-> qs = [])
  /\ (forall e, fst (get_quiz d s) = Raise e ->
                e = HTTPError 404 "Quiz not found for this day")
  /\ (qs <> [] ->
      exists out,
        fst (get_quiz d s) = Return out
        /\ QuizOut.day_number out = d
        /\ QuizOut.questions out
           = map (fun q => Question.pop_answer_index (snd q)) qs
        /\ Forall (fun q => Question.answer_index q = None)
                  (QuizOut.questions out))
  /\ snd (get_quiz d s) = s
  /\ (forall s2, differ_only_in_answers s s2 ->
                 fst (get_quiz d s) = fst (get_quiz d s2)).
Proof.
  intros qs. split; [| split; [| split; [| split]]].
  - rewrite get_quiz_eq. cbv zeta. unfold without_id. fold qs.
    destruct qs as [| q rest]; simpl.
    + split; [reflexivity | intros _; eexists; reflexivity].
    + split; [intros [e He] |]; discriminate.
  - intros e. rewrite get_quiz_eq. cbv zeta.
    destruct (is_empty _); cbn [fst]; intros He; inversion He; reflexivity.
  - intros Hqs. rewrite get_quiz_eq. cbv zeta. unfold without_id. fold qs.
    destruct qs as [| q rest] eqn:Eqs; [congruence |].
    cbn [map is_empty fst]. eexists. split; [reflexivity |].
    cbn [QuizOut.day_number QuizOut.questions].
    split; [reflexivity |]. split.
    + cbn [map]. f_equal. now rewrite map_map.
    + constructor; [reflexivity |].
      apply Forall_forall. intros x Hx. apply in_map_iff in Hx.
      destruct Hx as (y & <- & _). reflexivity.
  - apply get_quiz_store.
  - intros s2 (_ & _ & Hq & _). rewrite !get_quiz_eq. cbv zeta.
    pose proof (quiz_questions_same d _ _ Hq) as Hsame.
    assert (Hempty : is_empty (without_id (filter (question_of_day d) (db_question s)))
                     = is_empty (without_id (filter (question_of_day d) (db_question s2)))).
    { destruct (without_id (filter _ (db_question s)));
        destruct (without_id (filter _ (db_question s2)));
        simpl in *; congruence. }
    rewrite <- Hempty.
    destruct (is_empty _); cbn [fst]; [reflexivity | now rewrite Hsame].
Qed.

Lemma move_answers_differs (s : Store) :
  differ_only_in_answers s (move_answers s).
Proof.
  unfold differ_only_in_answers, move_answers.
  cbn [db_module db_day db_question db_user db_progress db_attempt
       db_certificate next_oid].
  split; [reflexivity |]. split; [reflexivity |].
  split; [| repeat split; reflexivity].
  induction (db_question s) as [| q l IH]; cbn [map]; constructor;
    [| exact IH].
  unfold same_but_answer. cbn [fst snd Question.day_number Question.prompt
    Question.options Question.created_at Question.updated_at].
  repeat split; reflexivity.
Qed.

(** The quiz of day 3 is the same whether the answers are the seeded ones
    or all moved to option 3. *)
Lemma C5_get_quiz_hides_answers_witness :
  differ_only_in_answers seeded (move_answers seeded)
  /\ answers_of_day seeded 3 <> answers_of_day (move_answers seeded) 3
  /\ fst (get_quiz 3 seeded) = fst (get_quiz 3 (move_answers seeded)).
Proof.
  split; [exact (move_answers_differs seeded) |].
  split; [vm_compute; discriminate |].
  apply (C5_get_quiz_hides_answers 3 seeded).
  exact (move_answers_differs seeded).
Defined.

(** ** Progress retrieval *)

Lemma find_progress_none (uid : string) (l : Collection Progress.t) :
  Forall (fun d => Progress.user_id (snd d) <> uid) l ->
  List.find (progress_of uid) l = None.
Proof.
  induction 1 as [| d l Hd _ IH]; [reflexivity |]. cbn [List.find].
  unfold progress_of at 1. destruct (String.eqb_spec (Progress.user_id (snd d)) uid);
    [contradiction | exact IH].
Qed.

Lemma find_progress_first (uid : string) (before after : Collection Progress.t)
      (d : ObjectId * Progress.t) :
  Progress.user_id (snd d) = uid ->
  Forall (fun d => Progress.user_id (snd d) <> uid) before ->
  List.find (progress_of uid) (before ++ d :: after) = Some d.
Proof.
  intros Hd Hb. induction Hb as [| b before Hne _ IH]; cbn [app List.find].
  - unfold progress_of. rewrite Hd, String.eqb_refl. reflexivity.
  - unfold progress_of at 1.
    destruct (String.eqb_spec (Progress.user_id (snd b)) uid);
      [contradiction | exact IH].
Qed.

Lemma find_progress_some (uid : string) (l : Collection Progress.t) :
  (exists d, In d l /\ Progress.user_id (snd d) = uid) ->
  exists d, List.find (progress_of uid) l = Some d
            /\ In d l /\ Progress.user_id (snd d) = uid.
Proof.
  intros (d & Hin & Hd).
  destruct (List.find (progress_of uid) l) as [d' |] eqn:E.
  - exists d'. split; [reflexivity |]. apply find_some in E.
    destruct E as [Hin' E]. split; [exact Hin' |].
    now apply String.eqb_eq in E.
  - apply (find_none _ _ E) in Hin. unfold progress_of in Hin.
    rewrite Hd, String.eqb_refl in Hin. discriminate.
Qed.

(** C9: [get_progress] always returns, and writes nothing.  When the store
    holds a progress record with the requested [user_id], the response is
    the first such record in store order (without its [_id]): it bears the
    requested [user_id] and the days, dates and times of that record.  When
    the store holds none, the response is the default record with the
    requested [user_id] and an empty [completed_days]. *)
Theorem C9_get_progress_never_fails (user_id : string) (s : Store) :
  exists out,
    get_progress user_id s = (Return out, s)
    /\ ProgressOut.user_id out = user_id
    /\ (forall before oid p after,
          db_progress s = before ++ (oid, p) :: after ->
          Progress.user_id p = user_id ->
          Forall (fun d => Progress.user_id (snd d) <> user_id) before ->
          out = ProgressOut.of_doc p)
    /\ ((exists d, In d (db_progress s) /\ Progress.user_id (snd d) = user_id) ->
        exists d, In d (db_progress s)
                  /\ Progress.user_id (snd d) = user_id
                  /\ out = ProgressOut.of_doc (snd d))
    /\ (Forall (fun d => Progress.user_id (snd d) <> user_id) (db_progress s) ->
        out = ProgressOut.mk user_id (Some []) None None).
Proof.
  unfold get_progress, bind, find_one, gets. cbn [docs progress_col].
  destruct (List.find (progress_of user_id) (db_progress s))
    as [[oid p] |] eqn:E.
  - exists (ProgressOut.of_doc p). split; [reflexivity |].
    split; [| split; [| split]].
    + apply find_some in E. destruct E as [_ E]. unfold progress_of in E.
      now apply String.eqb_eq in E.
    + intros before oid' p' after Hl Hp Hb. rewrite Hl in E.
      rewrite (find_progress_first user_id before after (oid', p') Hp Hb) in E.
      now inversion E.
    + intros Hex. destruct (find_progress_some user_id _ Hex)
        as (d & Hd & Hin & Hu).
      exists d. rewrite E in Hd. inversion Hd. subst d. now repeat split.
    + intros Hnone. rewrite (find_progress_none user_id _ Hnone) in E.
      discriminate.
  - exists (ProgressOut.mk user_id (Some []) None None).
    split; [reflexivity |]. split; [reflexivity |].
    split; [| split].
    + intros before oid' p' after Hl Hp Hb. rewrite Hl in E.
      rewrite (find_progress_first user_id before after (oid', p') Hp Hb) in E.
      discriminate.
    + intros Hex. destruct (find_progress_some user_id _ Hex) as (d & Hd & _).
      rewrite E in Hd. discriminate.
    + reflexivity.
Qed.

(** Once Ann has passed day 3, her progress is her stored record, with day
    3 in it; for a user without record it is the default one. *)
Lemma C9_get_progress_never_fails_witness :
  get_progress ann_id ann_day3
  = (Return (ProgressOut.mk ann_id (Some [3]) (Some t0) (Some t0)), ann_day3)
  /\ get_progress "nobody" ann_day3
     = (Return (ProgressOut.mk "nobody" (Some []) None None), ann_day3).
Proof.
  split.
  - destruct (C9_get_progress_never_fails ann_id ann_day3)
      as (out & Hrun & _ & Hfirst & _).
    rewrite Hrun. f_equal. f_equal.
    apply (Hfirst [] 94%N (Progress.mk ann_id (Some [3]) t0 t0) []).
    + vm_compute. reflexivity.
    + reflexivity.
    + constructor.
  - destruct (C9_get_progress_never_fails "nobody" ann_day3)
      as (out & Hrun & _ & _ & _ & Hnone).
    rewrite Hrun. f_equal. f_equal. apply Hnone.
    replace (db_progress ann_day3)
      with [(94%N, Progress.mk ann_id (Some [3]) t0 t0)]
      by (vm_compute; reflexivity).
    constructor; [| constructor]. cbn [snd Progress.user_id].
    vm_compute. discriminate.
Defined.

(** ** Seeding *)

Lemma seed_times_guard (nows : list datetime) (s : Store) :
  db_module s <> [] -> seed_times nows s = s.
Proof.
  intros H. induction nows as [| now nows IH]; simpl; [reflexivity |].
  rewrite (seed_data_guard now s H). exact IH.
Qed.

Lemma seed_times_cons (now : datetime) (nows : list datetime) (s : Store) :
  seed_times (now :: nows) s = seed_times nows (snd (seed_data now s)).
Proof. reflexivity. Qed.

(** The store that the first start-up leaves. *)
Lemma first_seed (now : datetime) :
  let s := snd (seed_data now empty_store) in
  db_module s <> []
  /\ List.length (db_module s) = 3%nat
  /\ List.length (db_day s) = 15%nat
  /\ List.length (db_question s) = 75%nat
  /\ map (fun d => Day.day_number (snd d)) (db_day s) = range 1 16
  /\ (forall d, 1 <= d <= 15 ->
        answers_of_day s d = [Some 0; Some 1; Some 2; Some 3; Some 0])
  /\ forallb (fun q => (1 <=? Question.day_number (snd q))
                       && (Question.day_number (snd q) <=? 15))
             (db_question s) = true.
Proof.
  intros s.
  split; [vm_compute; discriminate |].
  split; [vm_compute; reflexivity |].
  split; [vm_compute; reflexivity |].
  split; [vm_compute; reflexivity |].
  split; [vm_compute; reflexivity |].
  split; [| vm_compute; reflexivity].
  intros d Hd.
  assert (Hcases : d = 1 \/ d = 2 \/ d = 3 \/ d = 4 \/ d = 5 \/ d = 6
                   \/ d = 7 \/ d = 8 \/ d = 9 \/ d = 10 \/ d = 11
                   \/ d = 12 \/ d = 13 \/ d = 14 \/ d = 15) by lia.
  repeat (destruct Hcases as [Hc | Hcases];
          [rewrite Hc; vm_compute; reflexivity |]).
  rewrite Hcases. vm_compute. reflexivity.
Qed.

(** C6: [seed_data] does nothing when the module collection is not empty;
    hence, run any number of times (at least once) on the empty store, it
    leaves exactly 3 modules, the 15 days numbered 1 to 15 and 75 questions,
    and the answers of each day are 0, 1, 2, 3, 0 in order. *)
Theorem C6_seed_idempotent (nows : list datetime) :
  nows <> [] ->
  let s := seed_times nows empty_store in
  (forall now s', db_module s' <> [] -> seed_data now s' = (Return tt, s'))
  /\ (forall now, snd (seed_data now s) = s)
  /\ List.length (db_module s) = 3%nat
  /\ List.length (db_day s) = 15%nat
  /\ List.length (db_question s) = 75%nat
  /\ map (fun d => Day.day_number (snd d)) (db_day s) = range 1 16
  /\ (forall d, 1 <= d <= 15 ->
        answers_of_day s d = [Some 0; Some 1; Some 2; Some 3; Some 0])
  /\ (forall d, ~ 1 <= d <= 15 -> answers_of_day s d = []).
Proof.
  intros Hne. destruct nows as [| now0 rest]; [congruence |].
  intros s. subst s. rewrite seed_times_cons.
  destruct (first_seed now0) as (Hmod & Hlm & Hld & Hlq & Hdays & Hans & Hqdays).
  revert Hmod Hlm Hld Hlq Hdays Hans Hqdays.
  generalize (snd (seed_data now0 empty_store)).
  intros s Hmod Hlm Hld Hlq Hdays Hans Hqdays.
  rewrite (seed_times_guard rest s Hmod).
  split; [intros now s' H; apply seed_data_guard; exact H |].
  split; [intros now; rewrite (seed_data_guard now s Hmod); reflexivity |].
  split; [exact Hlm |]. split; [exact Hld |]. split; [exact Hlq |].
  split; [exact Hdays |]. split; [exact Hans |].
  intros d Hd. unfold answers_of_day.
  replace (filter (question_of_day d) (db_question s)) with
    (@nil (ObjectId * Question.t)); [reflexivity |].
  symmetry. apply find_none_filter.
  destruct (List.find (question_of_day d) (db_question s)) as [q |] eqn:E;
    [| reflexivity].
  apply find_some in E. destruct E as [Hin Hq]. exfalso. apply Hd.
  unfold question_of_day in Hq. apply Z.eqb_eq in Hq. rewrite <- Hq.
  rewrite forallb_forall in Hqdays. specialize (Hqdays q Hin). lia.
Qed.

(** Start-up run three times in a row. *)
Lemma C6_seed_idempotent_witness :
  let s := seed_times [t0; t0; t0] empty_store in
  [t0; t0; t0] <> []
  /\ List.length (db_module s) = 3%nat
  /\ List.length (db_day s) = 15%nat
  /\ List.length (db_question s) = 75%nat
  /\ answers_of_day s 7 = [Some 0; Some 1; Some 2; Some 3; Some 0].
Proof.
  assert (Hne : [t0; t0; t0] <> []) by discriminate.
  destruct (C6_seed_idempotent [t0; t0; t0] Hne)
    as (_ & _ & Hm & Hd & Hq & _ & Ha & _).
  cbv zeta. split; [exact Hne |]. split; [exact Hm |]. split; [exact Hd |].
  split; [exact Hq |]. apply Ha. lia.
Defined.

(** ** Registration *)

(** C7: a first [create_or_get_user] with an email no user has adds one
    user record and one progress record with no completed day, and returns
    the new id with the given name and email; a second call with the same
    email, whatever its name, returns the same id with the stored name and
    leaves the store as it is. *)
Theorem C7_create_or_get_user_idempotent
        (now1 now2 : datetime) (name1 name2 email : string) (s : Store) :
  List.find (email_is email) (db_user s) = None ->
  let res1 := create_or_get_user now1 (UserIn.mk name1 email) s in
  let res2 := create_or_get_user now2 (UserIn.mk name2 email) (snd res1) in
  let id := str_oid (next_oid s) in
  fst res1 = Return (UserOut.mk id (Some name1) (Some email))
  /\ db_user (snd res1)
     = db_user s ++ [(next_oid s, User.mk (Some name1) (Some email) now1 now1)]
  /\ db_progress (snd res1)
     = db_progress s
       ++ [(N.succ (next_oid s), Progress.mk id (Some []) now1 now1)]
  /\ fst res2 = Return (UserOut.mk id (Some name1) (Some email))
  /\ snd res2 = snd res1.
Proof.
  intros Hnew. cbv zeta.
  set (u := User.mk (Some name1) (Some email) now1 now1).
  set (p := Progress.mk (str_oid (next_oid s)) (Some []) now1 now1).
  set (s1 := mk_store (db_module s) (db_day s) (db_question s)
                      (db_user s ++ [(next_oid s, u)])
                      (db_progress s ++ [(N.succ (next_oid s), p)])
                      (db_attempt s) (db_certificate s)
                      (N.succ (N.succ (next_oid s)))).
  set (out := UserOut.mk (str_oid (next_oid s)) (Some name1) (Some email)).
  assert (E1 : create_or_get_user now1 (UserIn.mk name1 email) s
               = (Return out, s1)).
  { rewrite create_or_get_user_eq. cbn [UserIn.email UserIn.name].
    now rewrite Hnew. }
  assert (E2 : create_or_get_user now2 (UserIn.mk name2 email) s1
               = (Return out, s1)).
  { rewrite create_or_get_user_eq. cbn [UserIn.email UserIn.name].
    unfold s1 at 1. cbn [db_user]. rewrite find_snoc, Hnew.
    unfold email_is, u. cbn [snd User.email]. now rewrite String.eqb_refl. }
  rewrite E1. cbn [fst snd]. rewrite E2. cbn [fst snd].
  repeat split.
Qed.

(** Ann registers twice, the second time as "Anna". *)
Lemma C7_create_or_get_user_idempotent_witness :
  List.find (email_is "ann@example.org") (db_user seeded) = None
  /\ let res1 :=
       create_or_get_user t0 (UserIn.mk "Ann" "ann@example.org") seeded in
     let res2 :=
       create_or_get_user t0 (UserIn.mk "Anna" "ann@example.org") (snd res1) in
     fst res1 = Return (UserOut.mk (str_oid (next_oid seeded)) (Some "Ann")
                                   (Some "ann@example.org"))
     /\ fst res2 = fst res1
     /\ snd res2 = snd res1.
Proof.
  assert (Hnew : List.find (email_is "ann@example.org") (db_user seeded) = None)
    by (vm_compute; reflexivity).
  split; [exact Hnew |].
  destruct (C7_create_or_get_user_idempotent
              t0 t0 "Ann" "Anna" "ann@example.org" seeded Hnew)
    as (H1 & _ & _ & H2 & H3).
  cbv zeta. split; [exact H1 |]. split; [| exact H3].
  rewrite H2. symmetry. exact H1.
Defined.

(** ** The name on a certificate *)

Lemma resolve_name_eq (user_id : string) (s : Store) :
  resolve_name user_id s
  = (Return (name_or (looked_up s user_id) "Participant"), s).
Proof.
  unfold resolve_name, looked_up, bind, find_one, gets. cbn [docs user_col].
  destruct (ObjectId_of_str user_id); reflexivity.
Qed.

(** The certificate a submission adds is made from the users of the store
    it was submitted to. *)
Lemma submit_attempt_issued (now : datetime) (payload : AttemptIn.t)
      (s : Store) (oid : ObjectId) (c : Certificate.t) :
  db_certificate (snd (submit_attempt now payload s))
  = db_certificate s ++ [(oid, c)] ->
  c = Certificate.mk
        (AttemptIn.user_id payload)
        (name_or (looked_up s (AttemptIn.user_id payload)) "Participant")
        (strftime now)
        (generate_certificate_svg
           (name_or (looked_up s (AttemptIn.user_id payload)) "Participant")
           (strftime now))
        now.
Proof.
  rewrite submit_attempt_phases.
  destruct (is_empty (qdocs_of payload s)); cbn [snd].
  { intros H. apply (f_equal (@List.length _)) in H.
    rewrite length_app in H. simpl in H. lia. }
  set (s2 := update_progress now payload (passed_of payload s)
                             (record_attempt now payload s)).
  assert (Hc2 : db_certificate s2 = db_certificate s).
  { unfold s2.
    destruct (update_progress_frame now payload (passed_of payload s)
                (record_attempt now payload s)) as (_ & -> & _).
    reflexivity. }
  assert (Hu2 : db_user s2 = db_user s).
  { unfold s2.
    destruct (update_progress_frame now payload (passed_of payload s)
                (record_attempt now payload s)) as (_ & _ & -> & _).
    reflexivity. }
  destruct (issue_certificate_cases now payload s2)
    as [(_ & _ & Hadd) | (_ & Hsame)].
  - rewrite Hadd, Hc2. intros H. apply app_inv_head in H.
    inversion H as [[Hoid Hc]]. unfold certificate_doc.
    rewrite resolve_name_eq. cbn [fst].
    unfold looked_up. now rewrite Hu2.
  - rewrite Hsame, Hc2. intros H. apply (f_equal (@List.length _)) in H.
    rewrite length_app in H. simpl in H. lia.
Qed.

Lemma be_bytes_length (k : nat) (n : N) (acc : list N) :
  List.length (be_bytes k n acc) = (k + List.length acc)%nat.
Proof.
  revert n acc. induction k as [| k IH]; intros n acc; [reflexivity |].
  cbn [be_bytes]. rewrite IH. cbn [List.length]. lia.
Qed.

Lemma bytes_eqb_eq (a b : list N) : bytes_eqb a b = true <-> a = b.
Proof.
  revert b. induction a as [| x a IH]; intros [| y b]; cbn [bytes_eqb];
    try (split; [discriminate | discriminate]); [tauto |].
  rewrite andb_true_iff, N.eqb_eq, IH.
  split; [intros [-> ->]; reflexivity | intros H; now inversion H].
Qed.

(** An id that has not twelve bytes is no document's [_id]. *)
Lemma find_binary_short {A} (b : list N) (l : Collection A) :
  List.length b <> 12%nat -> List.find (binary_is b) l = None.
Proof.
  intros Hb. induction l as [| d l IH]; [reflexivity |]. cbn [List.find].
  destruct (binary_is b d) eqn:E; [| exact IH].
  unfold binary_is in E. apply bytes_eqb_eq in E.
  apply (f_equal (@List.length _)) in E. unfold binary in E.
  rewrite be_bytes_length in E. cbn [List.length] in E. lia.
Qed.

(** C8 (amended): the name on an issued certificate comes from one lookup.
    When [ObjectId(user_id)] is accepted ([user_id] has 24 characters that
    [bytes.fromhex] accepts: pairs of hexadecimal digits, with white space
    allowed between the pairs), the lookup is by identity and there is no
    fallback: the name is the stored name of the user whose [_id] has the
    bytes of that id, if one is found and its name is not empty, and
    ["Participant"] otherwise; nobody is found, in particular, for an id
    that white space leaves with fewer than twelve bytes.  Only when
    [ObjectId(user_id)] raises is the first user record with an email field
    looked up instead: the name is its stored name, if there is such a
    record and its name is not empty, and ["Participant"] otherwise. *)
Theorem C8_certificate_name
        (now : datetime) (payload : AttemptIn.t) (s : Store)
        (oid : ObjectId) (c : Certificate.t) :
  db_certificate (snd (submit_attempt now payload s))
  = db_certificate s ++ [(oid, c)] ->
  let uid := AttemptIn.user_id payload in
  let name := Certificate.name c in
  Certificate.user_id c = uid
  /\ (forall b u n,
        ObjectId_of_str uid = Some b ->
        List.find (binary_is b) (db_user s) = Some u ->
        User.name (snd u) = Some n -> n <> "" -> name = n)
  /\ (forall b,
        ObjectId_of_str uid = Some b ->
        List.find (binary_is b) (db_user s) = None -> name = "Participant")
  /\ (forall b,
        ObjectId_of_str uid = Some b -> List.length b <> 12%nat ->
        name = "Participant")
  /\ (forall u n,
        ObjectId_of_str uid = None ->
        List.find email_exists (db_user s) = Some u ->
        User.name (snd u) = Some n -> n <> "" -> name = n)
  /\ (ObjectId_of_str uid = None ->
      List.find email_exists (db_user s) = None -> name = "Participant")
  /\ (forall u,
        looked_up s uid = Some u ->
        User.name (snd u) = None \/ User.name (snd u) = Some "" ->
        name = "Participant").
Proof.
  intros Hissued. cbv zeta.
  rewrite (submit_attempt_issued now payload s oid c Hissued).
  cbn [Certificate.user_id Certificate.name]. unfold looked_up.
  split; [reflexivity |].
  split; [| split; [| split; [| split; [| split]]]].
  - intros b [j u] n -> -> Hn Hne. cbn [snd] in Hn. unfold name_or, truthy.
    rewrite Hn. cbn [get_default].
    destruct (String.eqb_spec n ""); [contradiction | reflexivity].
  - intros b -> ->. reflexivity.
  - intros b -> Hb. now rewrite (find_binary_short b (db_user s) Hb).
  - intros [j u] n -> -> Hn Hne. cbn [snd] in Hn. unfold name_or, truthy.
    rewrite Hn. cbn [get_default].
    destruct (String.eqb_spec n ""); [contradiction | reflexivity].
  - intros -> ->. reflexivity.
  - intros [j u] -> [Hn | Hn]; cbn [snd] in Hn; unfold name_or, truthy;
      rewrite Hn; reflexivity.
Qed.

(** Ann's submission for day 15 issues her certificate, in her name.  Under
    [spaced_id], which [ObjectId] accepts and which is nobody's id, the
    certificate is made out to ["Participant"], Bob's record and its email
    field notwithstanding. *)
Lemma C8_certificate_name_witness :
  (exists oid c,
     db_certificate (snd (submit_attempt t0 (ann_attempt 15) ann_before_last))
     = db_certificate ann_before_last ++ [(oid, c)]
     /\ Certificate.user_id c = ann_id
     /\ Certificate.name c = "Ann")
  /\ (exists oid c,
        db_certificate
          (snd (submit_attempt t0 (AttemptIn.mk spaced_id 1 perfect 0)
                               (finished_store spaced_id)))
        = db_certificate (finished_store spaced_id) ++ [(oid, c)]
        /\ Certificate.user_id c = spaced_id
        /\ Certificate.name c = "Participant").
Proof.
  split.
  - assert (E : exists oid c,
               db_certificate
                 (snd (submit_attempt t0 (ann_attempt 15) ann_before_last))
               = db_certificate ann_before_last ++ [(oid, c)]).
    { vm_compute. eexists _, _. reflexivity. }
    destruct E as (oid & c & E). exists oid, c. split; [exact E |].
    destruct (C8_certificate_name t0 (ann_attempt 15) ann_before_last oid c E)
      as (Hu & Hfound & _).
    split; [exact Hu |].
    apply (Hfound (binary 93%N)
                  (93%N, User.mk (Some "Ann") (Some "ann@example.org") t0 t0)
                  "Ann").
    + vm_compute. reflexivity.
    + vm_compute. reflexivity.
    + reflexivity.
    + discriminate.
  - assert (E : exists oid c,
               db_certificate
                 (snd (submit_attempt t0 (AttemptIn.mk spaced_id 1 perfect 0)
                                      (finished_store spaced_id)))
               = db_certificate (finished_store spaced_id) ++ [(oid, c)]).
    { vm_compute. eexists _, _. reflexivity. }
    destruct E as (oid & c & E). exists oid, c. split; [exact E |].
    destruct (C8_certificate_name t0 (AttemptIn.mk spaced_id 1 perfect 0)
                                  (finished_store spaced_id) oid c E)
      as (Hu & _ & _ & Hshort & _).
    split; [exact Hu |].
    apply (Hshort [0; 0; 0; 0; 0; 0; 0; 0]%N).
    + vm_compute. reflexivity.
    + cbn [List.length]. lia.
Defined.

(** C8 as stated fails: [ghost_id] is well formed and no user's id, so the
    lookup by identity finds nobody; Bob's record has an email field, yet
    the certificate is made out to ["Participant"], not to ["Bob"]. *)
Lemma C8_resolves_as_specified_counterexample :
  ~ resolves_as_specified t0 (AttemptIn.mk ghost_id 1 perfect 0) ghost_store.
Proof.
  unfold resolves_as_specified. intros H.
  assert (E : exists oid c,
             db_certificate
               (snd (submit_attempt t0 (AttemptIn.mk ghost_id 1 perfect 0)
                                    ghost_store))
             = db_certificate ghost_store ++ [(oid, c)]
             /\ Certificate.name c = "Participant").
  { vm_compute. eexists _, _. split; reflexivity. }
  destruct E as (oid & c & E & Hname).
  specialize (H oid c E). rewrite Hname in H.
  vm_compute in H. discriminate H.
Qed.

(** * Further properties *)

(** ** Seeding, from any store *)

Lemma insert_many_eq {A} (c : Handle A) (ds : list A) (s : Store) :
  insert_many c ds s = (Return tt, fold_left (inserted c) ds s).
Proof.
  unfold insert_many. revert s. induction ds as [| d ds IH]; intros s;
    [reflexivity |].
  cbn [for_each fold_left]. unfold bind at 1. unfold bind at 1.
  unfold insert_one at 1. unfold ret at 1. apply IH.
Qed.

Lemma for_each_eq {A} (xs : list A) (body : A -> M unit)
      (f : Store -> A -> Store) (s : Store) :
  (forall x s, body x s = (Return tt, f s x)) ->
  for_each xs body s = (Return tt, fold_left f xs s).
Proof.
  intros Hbody. revert s. induction xs as [| x xs IH]; intros s;
    [reflexivity |].
  cbn [for_each fold_left]. unfold bind. rewrite Hbody. apply IH.
Qed.

(** [seed_data] past its guard is the sequence of its writes. *)
Lemma seed_data_fresh (now : datetime) (s : Store) :
  db_module s = [] -> seed_data now s = (Return tt, seed_writes now s).
Proof.
  intros Hm. unfold seed_data, count_documents, gets.
  unfold bind at 1. cbn [docs module_col]. rewrite Hm. cbn [List.length Nat.ltb Nat.leb].
  unfold bind at 1. rewrite insert_many_eq.
  unfold seed_writes. apply for_each_eq. intros d s1.
  unfold bind. unfold insert_one at 1. fold (inserted day_col s1 (seed_day now d)).
  now rewrite insert_many_eq.
Qed.

Lemma content_grows_refl (s : Store) : content_grows s s [] [] [].
Proof.
  unfold content_grows. rewrite !app_nil_r. repeat split. simpl. lia.
Qed.

Lemma content_grows_trans (s1 s2 s3 : Store) ms ds qs ms' ds' qs' :
  content_grows s1 s2 ms ds qs -> content_grows s2 s3 ms' ds' qs' ->
  content_grows s1 s3 (ms ++ ms') (ds ++ ds') (qs ++ qs').
Proof.
  unfold content_grows.
  intros (M1 & D1 & Q1 & U1 & P1 & A1 & C1 & N1)
         (M2 & D2 & Q2 & U2 & P2 & A2 & C2 & N2).
  rewrite M2, M1, D2, D1, Q2, Q1, U2, U1, P2, P1, A2, A1, C2, C1, N2, N1.
  rewrite !app_assoc, !length_app. repeat split. lia.
Qed.

Lemma inserted_module (s : Store) (m : ModuleDoc.t) :
  content_grows s (inserted module_col s m) [m] [] [].
Proof.
  unfold content_grows, inserted, bump_oid.
  cbn [docs set_docs module_col db_module db_day db_question db_user
       db_progress db_attempt db_certificate next_oid].
  rewrite map_app, !app_nil_r. repeat split. simpl. lia.
Qed.

Lemma inserted_day (s : Store) (d : Day.t) :
  content_grows s (inserted day_col s d) [] [d] [].
Proof.
  unfold content_grows, inserted, bump_oid.
  cbn [docs set_docs day_col db_module db_day db_question db_user
       db_progress db_attempt db_certificate next_oid].
  rewrite map_app, !app_nil_r. repeat split. simpl. lia.
Qed.

Lemma inserted_question (s : Store) (q : Question.t) :
  content_grows s (inserted question_col s q) [] [] [q].
Proof.
  unfold content_grows, inserted, bump_oid.
  cbn [docs set_docs question_col db_module db_day db_question db_user
       db_progress db_attempt db_certificate next_oid].
  rewrite map_app, !app_nil_r. repeat split. simpl. lia.
Qed.

Lemma inserted_modules (ms : list ModuleDoc.t) (s : Store) :
  content_grows s (fold_left (inserted module_col) ms s) ms [] [].
Proof.
  revert s. induction ms as [| m ms IH]; intros s; cbn [fold_left].
  - apply content_grows_refl.
  - apply (content_grows_trans s (inserted module_col s m) _
                               [m] [] [] ms [] []);
      [apply inserted_module | apply IH].
Qed.

Lemma inserted_questions (qs : list Question.t) (s : Store) :
  content_grows s (fold_left (inserted question_col) qs s) [] [] qs.
Proof.
  revert s. induction qs as [| q qs IH]; intros s; cbn [fold_left].
  - apply content_grows_refl.
  - apply (content_grows_trans s (inserted question_col s q) _
                               [] [] [q] [] [] qs);
      [apply inserted_question | apply IH].
Qed.

Lemma seeded_days_grow (now : datetime) (ds : list Z) (s : Store) :
  content_grows s (fold_left (seeded_day now) ds s)
                [] (map (seed_day now) ds) (flat_map (seed_questions now) ds).
Proof.
  revert s. induction ds as [| d ds IH]; intros s; cbn [fold_left map flat_map].
  - apply content_grows_refl.
  - apply (content_grows_trans s (seeded_day now s d) _
             [] [seed_day now d] (seed_questions now d)
             [] (map (seed_day now) ds) (flat_map (seed_questions now) ds));
      [| apply IH].
    unfold seeded_day.
    apply (content_grows_trans s (inserted day_col s (seed_day now d)) _
                               [] [seed_day now d] []
                               [] [] (seed_questions now d));
      [apply inserted_day | apply inserted_questions].
Qed.

Lemma seed_writes_grow (now : datetime) (s : Store) :
  content_grows s (seed_writes now s) seed_modules
                (map (seed_day now) (range 1 16))
                (flat_map (seed_questions now) (range 1 16)).
Proof.
  unfold seed_writes.
  apply (content_grows_trans s (fold_left (inserted module_col) seed_modules s)
           _ seed_modules [] []
           [] (map (seed_day now) (range 1 16))
           (flat_map (seed_questions now) (range 1 16)));
    [apply inserted_modules | apply seeded_days_grow].
Qed.

Lemma seed_counts (now : datetime) :
  List.length (map (seed_day now) (range 1 16)) = 15%nat
  /\ List.length (flat_map (seed_questions now) (range 1 16)) = 75%nat.
Proof. split; vm_compute; reflexivity. Qed.

(** X2: when the module collection is empty, [seed_data] writes whatever the
    day and question collections already hold: the three modules become the
    module collection, the 15 days and the 75 questions are appended after
    the days and questions already stored, 93 identifiers are consumed, and
    users, progress, attempts and certificates are left alone. *)
Theorem X2_seed_data_appends (now : datetime) (s : Store) :
  db_module s = [] ->
  let s' := snd (seed_data now s) in
  fst (seed_data now s) = Return tt
  /\ map snd (db_module s') = seed_modules
  /\ map snd (db_day s') = map snd (db_day s) ++ map (seed_day now) (range 1 16)
  /\ map snd (db_question s')
     = map snd (db_question s) ++ flat_map (seed_questions now) (range 1 16)
  /\ List.length (db_day s') = (List.length (db_day s) + 15)%nat
  /\ List.length (db_question s') = (List.length (db_question s) + 75)%nat
  /\ db_user s' = db_user s /\ db_progress s' = db_progress s
  /\ db_attempt s' = db_attempt s /\ db_certificate s' = db_certificate s
  /\ next_oid s' = (next_oid s + 93)%N.
Proof.
  intros Hm. cbv zeta. rewrite (seed_data_fresh now s Hm). cbn [fst snd].
  destruct (seed_writes_grow now s) as (M & D & Q & U & P & A & C & N).
  destruct (seed_counts now) as [Ld Lq].
  rewrite Hm in M. split; [reflexivity |]. split; [exact M |].
  split; [exact D |]. split; [exact Q |].
  split. { rewrite <- (length_map snd), D, length_app, Ld, length_map. reflexivity. }
  split. { rewrite <- (length_map snd), Q, length_app, Lq, length_map. reflexivity. }
  repeat (split; [assumption |]).
  rewrite N, Ld, Lq. reflexivity.
Qed.

(** A store holding day 1 but no module is seeded all the same: day 1 is
    then stored twice. *)
Lemma X2_seed_data_appends_witness :
  db_module stale_store = []
  /\ day_numbers (snd (seed_data t0 stale_store)) = 1 :: range 1 16.
Proof.
  split; [reflexivity |].
  destruct (X2_seed_data_appends t0 stale_store eq_refl)
    as (_ & _ & D & _).
  unfold day_numbers.
  rewrite <- (map_map snd Day.day_number), D. vm_compute. reflexivity.
Defined.

Lemma seed_data_modules_nonempty (now : datetime) (s : Store) :
  db_module (snd (seed_data now s)) <> [].
Proof.
  destruct (db_module s) as [| m ms] eqn:Hm.
  - rewrite (seed_data_fresh now s Hm). cbn [snd].
    destruct (seed_writes_grow now s) as (M & _). rewrite Hm in M.
    intros E. rewrite E in M. discriminate M.
  - rewrite seed_data_guard by (rewrite Hm; discriminate).
    cbn [snd]. rewrite Hm. discriminate.
Qed.

(** X1: start-up is idempotent on every database, configured or not and
    whatever it holds: a second [on_startup] changes nothing. *)
Theorem X1_on_startup_idempotent (now1 now2 : datetime) (db : option Store) :
  on_startup now2 (on_startup now1 db) = on_startup now1 db.
Proof.
  destruct db as [s |]; [| reflexivity].
  cbn [on_startup].
  now rewrite (seed_data_guard now2 _ (seed_data_modules_nonempty now1 s)).
Qed.

(** ** Sorting *)

Lemma insert_by_perm {A} (key : A -> Z) (x : A) (l : list A) :
  Permutation (insert_by key x l) (x :: l).
Proof.
  induction l as [| y ys IH]; simpl; [apply Permutation_refl |].
  destruct (key x <=? key y); [apply Permutation_refl |].
  eapply perm_trans; [apply perm_skip, IH | apply perm_swap].
Qed.

Lemma sorted_by_perm {A} (key : A -> Z) (l : list A) :
  Permutation (sorted_by key l) l.
Proof.
  induction l as [| x l IH]; simpl; [apply perm_nil |].
  eapply perm_trans; [apply insert_by_perm | now apply perm_skip].
Qed.

Lemma insert_by_sorted {A} (key : A -> Z) (x : A) (l : list A) :
  sorted_on key l -> sorted_on key (insert_by key x l).
Proof.
  unfold sorted_on. induction 1 as [| y ys Hs IH Hy]; simpl.
  - constructor; constructor.
  - destruct (Z.leb_spec (key x) (key y)) as [Hle | Hgt].
    + constructor; [constructor; assumption |].
      constructor; [exact Hle |].
      eapply Forall_impl; [| exact Hy]. intros z Hz. cbn beta in *. lia.
    + constructor; [exact IH |].
      apply (Permutation_Forall (Permutation_sym (insert_by_perm key x ys))).
      constructor; [lia | exact Hy].
Qed.

Lemma sorted_by_sorted {A} (key : A -> Z) (l : list A) :
  sorted_on key (sorted_by key l).
Proof.
  induction l as [| x l IH]; simpl; [constructor |].
  now apply insert_by_sorted.
Qed.

Lemma insert_by_stable {A} (key : A -> Z) (k : Z) (x : A) (l : list A) :
  with_key key k (insert_by key x l) = with_key key k (x :: l).
Proof.
  unfold with_key. induction l as [| y ys IH]; [reflexivity |].
  cbn [insert_by]. destruct (Z.leb_spec (key x) (key y)) as [Hle | Hgt];
    [reflexivity |].
  cbn [filter] in *. rewrite IH.
  destruct (Z.eqb_spec (key x) k), (Z.eqb_spec (key y) k);
    try reflexivity. lia.
Qed.

Lemma sorted_by_stable {A} (key : A -> Z) (k : Z) (l : list A) :
  with_key key k (sorted_by key l) = with_key key k l.
Proof.
  induction l as [| x l IH]; [reflexivity |].
  cbn [sorted_by fold_right]. rewrite insert_by_stable.
  unfold with_key in *. cbn [filter]. fold (sorted_by key l). now rewrite IH.
Qed.

(** ** Content retrieval *)

Lemma filter_true {A} (l : list A) : filter (fun _ => true) l = l.
Proof. induction l as [| a l IH]; simpl; [reflexivity | now rewrite IH]. Qed.

Lemma filter_map_snd {A} (p : A -> bool) (l : Collection A) :
  map snd (filter (fun d => p (snd d)) l) = filter p (map snd l).
Proof.
  induction l as [| a l IH]; simpl; [reflexivity |].
  destruct (p (snd a)); simpl; now rewrite IH.
Qed.

Lemma find_map_snd {A} (p : A -> bool) (l : Collection A) :
  option_map snd (List.find (fun d => p (snd d)) l) = List.find p (map snd l).
Proof.
  induction l as [| a l IH]; simpl; [reflexivity |].
  destruct (p (snd a)); [reflexivity | exact IH].
Qed.

(** X3: [get_modules] always returns, writes nothing, and returns the stored
    modules (without [_id]) rearranged by ascending [order]; modules of equal
    [order] keep their store order. *)
Theorem X3_get_modules_sorted (s : Store) :
  exists mods,
    get_modules s = (Return mods, s)
    /\ Permutation mods (map snd (db_module s))
    /\ sorted_on ModuleDoc.order mods
    /\ forall k, with_key ModuleDoc.order k mods
                 = with_key ModuleDoc.order k (map snd (db_module s)).
Proof.
  unfold get_modules, bind, find, gets, ret, without_id.
  cbn [docs module_col]. rewrite filter_true.
  eexists. split; [reflexivity |].
  split; [apply sorted_by_perm |]. split; [apply sorted_by_sorted |].
  intros k. apply sorted_by_stable.
Qed.

Lemma day_filter_wanted (module_key : option string) (l : Collection Day.t) :
  map snd (filter (day_filter (if truthy module_key then module_key else None))
                  l)
  = filter (wanted_day module_key) (map snd l).
Proof.
  rewrite <- filter_map_snd. f_equal. apply filter_ext. intros d.
  destruct module_key as [k |]; [| reflexivity].
  unfold truthy, wanted_day. destruct (String.eqb k ""); reflexivity.
Qed.

(** X4: [get_days] always returns and writes nothing.  Without a module
    key, or with the empty string as key, it returns all the stored days;
    with another key, exactly the days of that module (with multiplicity).
    The result is sorted by ascending [day_number], days of equal number
    keeping their store order. *)
Theorem X4_get_days_filtered_sorted (module_key : option string) (s : Store) :
  let wanted := filter (wanted_day module_key) (map snd (db_day s)) in
  exists days,
    get_days module_key s = (Return days, s)
    /\ Permutation days wanted
    /\ sorted_on Day.day_number days
    /\ (forall n, with_key Day.day_number n days
                  = with_key Day.day_number n wanted)
    /\ (module_key = None \/ module_key = Some "" ->
        Permutation days (map snd (db_day s)))
    /\ (forall k, module_key = Some k -> k <> "" ->
                  forall d, In d days
                            <-> In d (map snd (db_day s))
                                /\ Day.module_key d = k).
Proof.
  cbv zeta. unfold get_days, bind, find, gets, ret, without_id.
  cbn [docs day_col]. rewrite day_filter_wanted.
  set (wanted := filter (wanted_day module_key) (map snd (db_day s))).
  exists (sorted_by Day.day_number wanted).
  split; [reflexivity |].
  split; [apply sorted_by_perm |]. split; [apply sorted_by_sorted |].
  split; [intros n; apply sorted_by_stable |]. split.
  - intros Hkey. eapply perm_trans; [apply sorted_by_perm |].
    unfold wanted.
    replace (filter (wanted_day module_key) (map snd (db_day s)))
      with (filter (fun _ : Day.t => true) (map snd (db_day s)));
      [rewrite filter_true; apply Permutation_refl |].
    apply filter_ext. intros d. destruct Hkey as [-> | ->]; reflexivity.
  - intros k -> Hk d. split.
    + intros Hin.
      apply (Permutation_in _ (sorted_by_perm Day.day_number wanted)) in Hin.
      unfold wanted in Hin. apply filter_In in Hin. destruct Hin as [Hin Hw].
      split; [exact Hin |]. unfold wanted_day in Hw.
      destruct (String.eqb_spec k ""); [contradiction |].
      now apply String.eqb_eq in Hw.
    + intros [Hin Hmk].
      apply (Permutation_in _ (Permutation_sym
                                 (sorted_by_perm Day.day_number wanted))).
      unfold wanted. apply filter_In. split; [exact Hin |].
      unfold wanted_day. destruct (String.eqb_spec k ""); [contradiction |].
      now apply String.eqb_eq.
Qed.

Lemma get_day_eq (d : Z) (s : Store) :
  get_day d s
  = match List.find (fun x => Day.day_number x =? d) (map snd (db_day s)) with
    | Some day => (Return day, s)
    | None => (Raise (HTTPError 404 "Day not found"), s)
    end.
Proof.
  unfold get_day, bind, find_one, gets. cbn [docs day_col].
  rewrite <- (find_map_snd (fun x => Day.day_number x =? d)).
  change (fun d0 : ObjectId * Day.t => Day.day_number (snd d0) =? d)
    with (day_is d).
  destruct (List.find (day_is d) (db_day s)) as [[oid day] |]; reflexivity.
Qed.

Lemma find_none_not_in {A} (key : A -> Z) (k : Z) (l : list A) :
  List.find (fun x => key x =? k) l = None <-> ~ In k (map key l).
Proof.
  induction l as [| a l IH]; simpl; [tauto |].
  destruct (Z.eqb_spec (key a) k).
  - split; [discriminate | intros H; exfalso; apply H; now left].
  - rewrite IH. tauto.
Qed.

(** X5: [get_day] raises exactly when no stored day has the requested
    number, and then with HTTP 404; otherwise it returns a stored day of that
    number (the first in store order, without its [_id]); it writes
    nothing. *)
Theorem X5_get_day_not_found (d : Z) (s : Store) :
  ((exists e, fst (get_day d s) = Raise e) <-> ~ In d (day_numbers s))
  /\ (forall e, fst (get_day d s) = Raise e ->
                e = HTTPError 404 "Day not found")
  /\ (forall day, fst (get_day d s) = Return day ->
                  Day.day_number day = d /\ In day (map snd (db_day s))
                  /\ List.find (fun x => Day.day_number x =? d)
                               (map snd (db_day s)) = Some day)
  /\ snd (get_day d s) = s.
Proof.
  rewrite get_day_eq. unfold day_numbers.
  rewrite <- (map_map snd Day.day_number).
  rewrite <- (find_none_not_in Day.day_number d).
  destruct (List.find _ (map snd (db_day s))) as [day |] eqn:E; cbn [fst snd].
  - split; [split; [intros [e He] |]; discriminate |].
    split; [discriminate |]. split; [| reflexivity].
    intros day' H. inversion H; subst day'.
    apply find_some in E. destruct E as [Hin Hd].
    apply Z.eqb_eq in Hd. auto.
  - split; [split; [reflexivity | intros _; eexists; reflexivity] |].
    split; [intros e H; now inversion H |].
    split; [discriminate | reflexivity].
Qed.

(** ** The seeded curriculum *)

Lemma seed_day_number (now : datetime) (d : Z) :
  Day.day_number (seed_day now d) = d.
Proof.
  unfold seed_day. destruct (d <=? 5); [reflexivity |].
  destruct (d <=? 10); reflexivity.
Qed.

Lemma seed_day_module (now : datetime) (d : Z) :
  Day.module_key (seed_day now d)
  = if d <=? 5 then "aptitude" else if d <=? 10 then "technical" else "hr".
Proof.
  unfold seed_day. destruct (d <=? 5); [reflexivity |].
  destruct (d <=? 10); reflexivity.
Qed.

Lemma in_range (lo hi d : Z) : In d (range lo hi) <-> lo <= d < hi.
Proof.
  unfold range. rewrite in_map_iff. split.
  - intros (k & <- & Hk). apply in_seq in Hk. lia.
  - intros H. exists (Z.to_nat (d - lo)). split; [lia |].
    apply in_seq. lia.
Qed.

Lemma find_seed_day (now : datetime) (d : Z) (ds : list Z) :
  In d ds ->
  List.find (fun x => Day.day_number x =? d) (map (seed_day now) ds)
  = Some (seed_day now d).
Proof.
  induction ds as [| a ds IH]; simpl; [tauto |].
  rewrite seed_day_number. destruct (Z.eqb_spec a d) as [-> | Hne];
    [reflexivity |].
  intros [E | Hin]; [congruence | now apply IH].
Qed.

(** The module keys and day numbers after the writes of [seed_data] on a
    store without module and day. *)
Lemma seed_writes_keys (now : datetime) (s : Store) :
  db_module s = [] -> db_day s = [] ->
  module_keys (seed_writes now s) = ["aptitude"; "technical"; "hr"]
  /\ day_numbers (seed_writes now s) = range 1 16.
Proof.
  intros Hm Hd. destruct (seed_writes_grow now s) as (M & D & _).
  rewrite Hm in M. rewrite Hd in D. cbn [map app] in M, D. split.
  - unfold module_keys. rewrite <- (map_map snd ModuleDoc.key), M.
    reflexivity.
  - unfold day_numbers. rewrite <- (map_map snd Day.day_number), D.
    rewrite map_map. rewrite <- (map_id (range 1 16)) at 2.
    apply map_ext. intros d. apply seed_day_number.
Qed.

(** X6: after [seed_data] on a store without module and without day,
    [get_day d] returns, for every [d] from 1 to 15, the seeded day [d],
    which belongs to module aptitude for days 1 to 5, technical for days 6
    to 10 and hr for days 11 to 15, each a stored module key; for any other
    [d] it raises HTTP 404. *)
Theorem X6_seeded_days_by_module (now : datetime) (s : Store) :
  db_module s = [] -> db_day s = [] ->
  let s' := snd (seed_data now s) in
  module_keys s' = ["aptitude"; "technical"; "hr"]
  /\ day_numbers s' = range 1 16
  /\ forall d,
      (1 <= d <= 15 ->
       fst (get_day d s') = Return (seed_day now d)
       /\ Day.day_number (seed_day now d) = d
       /\ Day.module_key (seed_day now d)
          = (if d <=? 5 then "aptitude"
             else if d <=? 10 then "technical" else "hr")
       /\ In (Day.module_key (seed_day now d)) (module_keys s'))
      /\ (~ 1 <= d <= 15 ->
          fst (get_day d s') = Raise (HTTPError 404 "Day not found")).
Proof.
  intros Hm Hd. cbv zeta. rewrite (seed_data_fresh now s Hm). cbn [snd].
  destruct (seed_writes_grow now s) as (M & D & _).
  rewrite Hm in M. rewrite Hd in D. cbn [map app] in M, D.
  destruct (seed_writes_keys now s Hm Hd) as [Hkeys Hnums].
  split; [exact Hkeys |]. split; [exact Hnums |].
  intros d. rewrite get_day_eq, D. split.
  - intros Hr. rewrite find_seed_day by (apply in_range; lia). cbn [fst].
    split; [reflexivity |]. split; [apply seed_day_number |].
    split; [apply seed_day_module |].
    rewrite Hkeys, seed_day_module.
    destruct (d <=? 5); [simpl; tauto |].
    destruct (d <=? 10); simpl; tauto.
  - intros Hr.
    assert (E : List.find (fun x => Day.day_number x =? d)
                          (map (seed_day now) (range 1 16)) = None).
    { apply find_none_not_in. rewrite map_map.
      intros Hin. apply in_map_iff in Hin. destruct Hin as (k & Hk & Hin).
      rewrite seed_day_number in Hk. subst k. apply in_range in Hin. lia. }
    now rewrite E.
Qed.

(** Day 7 of a freshly seeded database is a technical day. *)
Lemma X6_seeded_days_by_module_witness :
  db_module empty_store = [] /\ db_day empty_store = []
  /\ fst (get_day 7 seeded) = Return (seed_day t0 7)
  /\ Day.module_key (seed_day t0 7) = "technical"
  /\ Day.title (seed_day t0 7) = "Technical Day 2".
Proof.
  split; [reflexivity |]. split; [reflexivity |].
  destruct (X6_seeded_days_by_module t0 empty_store eq_refl eq_refl)
    as (_ & _ & H).
  destruct (H 7) as [H7 _]. destruct H7 as (Hget & _ & Hmod & _); [lia |].
  split; [exact Hget |]. split; [exact Hmod |]. vm_compute. reflexivity.
Defined.

Lemma seed_question_ok (now : datetime) (d i : Z) :
  question_ok (seed_question now d i).
Proof.
  unfold question_ok, seed_question. cbn [Question.answer_index Question.options].
  exists ((i - 1) mod 4). split; [reflexivity |].
  cbn [List.length]. pose proof (Z.mod_pos_bound (i - 1) 4). lia.
Qed.

Lemma seed_question_day (now : datetime) (d i : Z) :
  Question.day_number (seed_question now d i) = d.
Proof. reflexivity. Qed.

Lemma filter_seed_questions (now : datetime) (d : Z) (ds : list Z) :
  NoDup ds -> In d ds ->
  filter (fun q => Question.day_number q =? d)
         (flat_map (seed_questions now) ds)
  = seed_questions now d.
Proof.
  assert (Hall : forall a, filter (fun q => Question.day_number q =? d)
                                  (seed_questions now a)
                           = if a =? d then seed_questions now a else []).
  { intros a. unfold seed_questions.
    induction (range 1 6) as [| i l IH]; cbn [map filter];
      [now destruct (a =? d) |].
    rewrite seed_question_day, IH. now destruct (a =? d). }
  induction ds as [| a ds IH]; intros Hnd Hin; [contradiction |].
  cbn [flat_map]. rewrite filter_app, Hall.
  inversion Hnd as [| x xs Hnotin Hnd']; subst.
  destruct (Z.eqb_spec a d) as [-> | Hne].
  - replace (filter _ (flat_map (seed_questions now) ds)) with (@nil Question.t);
      [apply app_nil_r |].
    symmetry. clear IH Hin Hnd. induction ds as [| b ds IHds]; [reflexivity |].
    cbn [flat_map]. rewrite filter_app, Hall.
    destruct (Z.eqb_spec b d) as [-> | Hb];
      [exfalso; apply Hnotin; now left |].
    cbn [app]. apply IHds.
    + intros H. apply Hnotin. now right.
    + now inversion Hnd'.
  - destruct Hin as [E | Hin]; [congruence |]. now apply IH.
Qed.

Lemma range_nodup (lo hi : Z) : NoDup (range lo hi).
Proof.
  unfold range. generalize (seq_NoDup (Z.to_nat (hi - lo)) 0).
  generalize (seq 0 (Z.to_nat (hi - lo))). intros l.
  induction 1 as [| a l Hnotin Hnd IH]; cbn [map]; constructor; [| exact IH].
  intros Hin. apply in_map_iff in Hin. destruct Hin as (b & Hb & Hin).
  assert (b = a) by lia. subst b. contradiction.
Qed.

(** X7: after [seed_data] on a store without module, day or question, the
    content is consistent: module keys are distinct, day numbers are
    distinct and between 1 and 15, every day belongs to a stored module,
    every question belongs to a stored day and has an [answer_index] that
    is an index into its options, and every day has exactly its 5 generated
    questions, in order. *)
Theorem X7_seeded_content_consistent (now : datetime) (s : Store) :
  db_module s = [] -> db_day s = [] -> db_question s = [] ->
  let s' := snd (seed_data now s) in
  NoDup (module_keys s')
  /\ NoDup (day_numbers s')
  /\ Forall (fun d => 1 <= Day.day_number d <= 15
                      /\ In (Day.module_key d) (module_keys s'))
            (map snd (db_day s'))
  /\ Forall (fun q => question_ok q
                      /\ In (Question.day_number q) (day_numbers s'))
            (map snd (db_question s'))
  /\ forall d, In d (day_numbers s') ->
               map snd (filter (question_of_day d) (db_question s'))
               = seed_questions now d.
Proof.
  intros Hm Hd Hq. cbv zeta. rewrite (seed_data_fresh now s Hm). cbn [snd].
  destruct (seed_writes_grow now s) as (M & D & Q & _).
  rewrite Hm in M. rewrite Hd in D. rewrite Hq in Q. cbn [map app] in M, D, Q.
  destruct (seed_writes_keys now s Hm Hd) as [Hkeys Hnums].
  rewrite Hkeys, Hnums, D, Q.
  split.
  { repeat constructor; simpl; intuition discriminate. }
  split; [apply range_nodup |]. split; [| split].
  - apply Forall_forall. intros day Hin. apply in_map_iff in Hin.
    destruct Hin as (d & <- & Hin). apply in_range in Hin.
    rewrite seed_day_number, seed_day_module. split; [lia |].
    destruct (d <=? 5); [simpl; tauto |].
    destruct (d <=? 10); simpl; tauto.
  - apply Forall_forall. intros q Hin. apply in_flat_map in Hin.
    destruct Hin as (d & Hd' & Hin). unfold seed_questions in Hin.
    apply in_map_iff in Hin. destruct Hin as (i & <- & _).
    split; [apply seed_question_ok | exact Hd'].
  - intros d Hin.
    change (question_of_day d)
      with (fun q : ObjectId * Question.t =>
              (fun x => Question.day_number x =? d) (snd q)).
    rewrite filter_map_snd, Q.
    apply filter_seed_questions; [apply range_nodup | exact Hin].
Qed.

(** The empty database after start-up. *)
Lemma X7_seeded_content_consistent_witness :
  db_module empty_store = [] /\ db_day empty_store = []
  /\ db_question empty_store = []
  /\ Forall (fun q => question_ok q /\ In (Question.day_number q) (range 1 16))
            (map snd (db_question seeded)).
Proof.
  split; [reflexivity |]. split; [reflexivity |]. split; [reflexivity |].
  destruct (X7_seeded_content_consistent t0 empty_store eq_refl eq_refl eq_refl)
    as (_ & _ & _ & Hq & _).
  destruct (seed_writes_keys t0 empty_store eq_refl eq_refl) as [_ Hn].
  unfold seeded. rewrite (seed_data_fresh t0 empty_store eq_refl) in *.
  cbn [snd] in *. rewrite <- Hn. exact Hq.
Defined.

(** ** Histories: what is stored stays stored *)

Lemma find_app {A} (f : A -> bool) (l l' : list A) :
  List.find f (l ++ l')
  = match List.find f l with
    | Some a => Some a
    | None => List.find f l'
    end.
Proof.
  induction l as [| a l IH]; simpl; [reflexivity |].
  destruct (f a); [reflexivity | exact IH].
Qed.

(** A submission leaves the curriculum and the users alone. *)
Lemma submit_attempt_content (now : datetime) (payload : AttemptIn.t)
      (s : Store) :
  let s' := snd (submit_attempt now payload s) in
  db_module s' = db_module s /\ db_day s' = db_day s
  /\ db_question s' = db_question s /\ db_user s' = db_user s.
Proof.
  cbv zeta. rewrite submit_attempt_phases.
  destruct (is_empty _); cbn [snd]; [repeat split |].
  unfold issue_certificate, update_progress.
  repeat match goal with
         | |- context [if ?b then _ else _] => destruct b
         | |- context [match ?x with Some _ => _ | None => _ end] =>
             destruct x as [[? ?] |]
         end; repeat split.
Qed.

Lemma step_content (s : Store) (r : datetime * request) :
  db_module s <> [] ->
  db_module (step s r) = db_module s /\ db_question (step s r) = db_question s.
Proof.
  intros Hm. destruct r as [now [| user | d | payload | uid | uid]];
    unfold step; cbn [fst snd].
  - rewrite (seed_data_guard now s Hm). split; reflexivity.
  - rewrite create_or_get_user_eq.
    destruct (List.find _ _) as [[oid u] |]; split; reflexivity.
  - rewrite get_quiz_store. split; reflexivity.
  - destruct (submit_attempt_content now payload s) as (M & _ & Q & _).
    split; assumption.
  - rewrite get_progress_store. split; reflexivity.
  - rewrite get_certificate_store. split; reflexivity.
Qed.

(** The attempts after one request. *)
Lemma step_attempts (s : Store) (r : datetime * request) :
  exists extra,
    db_attempt (step s r) = db_attempt s ++ extra
    /\ map (fun a => as_submitted (snd a)) extra = submission_of s r
    /\ Forall attempt_ok (map snd extra).
Proof.
  destruct r as [now [| user | d | payload | uid | uid]];
    unfold step, submission_of; cbn [fst snd].
  - exists []. rewrite app_nil_r. split; [| split; [reflexivity | constructor]].
    apply (seed_data_keeps_registry now s).
  - exists []. rewrite app_nil_r. split; [| split; [reflexivity | constructor]].
    rewrite create_or_get_user_eq.
    destruct (List.find _ _) as [[oid u] |]; reflexivity.
  - exists []. rewrite app_nil_r, get_quiz_store.
    split; [| split; [| constructor]]; reflexivity.
  - destruct (qdocs_of payload s) as [| q rest] eqn:Eq.
    + exists []. rewrite app_nil_r, submit_attempt_phases, Eq.
      cbn [is_empty snd]. split; [| split; [| constructor]]; reflexivity.
    + exists [(next_oid s, attempt_doc now payload s)].
      assert (Hne : qdocs_of payload s <> []) by (rewrite Eq; discriminate).
      split; [now apply submit_attempt_attempts |].
      cbn [is_empty map snd]. split.
      * unfold as_submitted, attempt_doc. cbn. now destruct payload.
      * constructor; [| constructor]. unfold attempt_ok, attempt_doc.
        cbn [Attempt.total Attempt.score Attempt.flagged Attempt.violations].
        pose proof (total_of_pos payload s Hne).
        pose proof (score_loop_bounds (qdocs_of payload s)
                                      (AttemptIn.answers payload)).
        unfold score_of, total_of, flagged_of in *. repeat split; lia.
  - exists []. rewrite app_nil_r, get_progress_store.
    split; [| split; [| constructor]]; reflexivity.
  - exists []. rewrite app_nil_r, get_certificate_store.
    split; [| split; [| constructor]]; reflexivity.
Qed.

Lemma submission_of_questions (s s' : Store) (r : datetime * request) :
  db_question s' = db_question s -> submission_of s' r = submission_of s r.
Proof.
  intros E. unfold submission_of, qdocs_of. now rewrite E.
Qed.

Lemma run_attempts (rs : list (datetime * request)) (s : Store) :
  db_module s <> [] ->
  exists extra,
    db_attempt (run s rs) = db_attempt s ++ extra
    /\ map (fun a => as_submitted (snd a)) extra = flat_map (submission_of s) rs
    /\ Forall attempt_ok (map snd extra).
Proof.
  revert s. induction rs as [| r rs IH]; intros s Hm; cbn [run fold_left].
  - exists []. rewrite app_nil_r. repeat split. constructor.
  - destruct (step_content s r Hm) as [Em Eq].
    destruct (step_attempts s r) as (e1 & A1 & S1 & O1).
    destruct (IH (step s r)) as (e2 & A2 & S2 & O2); [now rewrite Em |].
    exists (e1 ++ e2). unfold run in A2. rewrite A2, A1, app_assoc.
    split; [reflexivity |]. split.
    + rewrite map_app, S1, S2. cbn [flat_map]. f_equal.
      apply flat_map_ext. intros r'. now apply submission_of_questions.
    + rewrite map_app. apply Forall_app. split; assumption.
Qed.

Lemma serve_eq (s : Store) (r : datetime * request) :
  serve s r = if encodes r then step s r else s.
Proof.
  unfold serve, encodes, step. destruct (snd r); try reflexivity.
  destruct (encodable payload) eqn:E.
  - now rewrite post_attempt_encodable.
  - now apply post_attempt_rejects.
Qed.

(** The requests that the driver cannot encode leave no trace. *)
Lemma serve_all_run (rs : list (datetime * request)) (s : Store) :
  serve_all s rs = run s (filter encodes rs).
Proof.
  revert s. induction rs as [| r rs IH]; intros s; [reflexivity |].
  cbn [serve_all fold_left filter]. rewrite serve_eq.
  destruct (encodes r); [cbn [run fold_left] |]; apply IH.
Qed.

Lemma recorded_eq (s : Store) (r : datetime * request) :
  recorded s r = if encodes r then submission_of s r else [].
Proof.
  unfold recorded, encodes, submission_of. destruct (snd r); try reflexivity.
  destruct (encodable payload); [| reflexivity]. cbn [andb].
  rewrite py_in_question_days. now destruct (is_empty _).
Qed.

(** X9: on a seeded database (the module collection is not empty), serving
    any sequence of requests only appends to the attempt collection: the
    attempts already stored stay as they are, and one record is appended for
    each submission whose integers fit in 8 bytes and for whose day the
    store holds a question, in the order of the requests, holding the
    submitted user, day, answers and violations.  Nothing is merged, dropped
    or recorded for any other request. *)
Theorem X9_attempt_history_append_only
        (s : Store) (rs : list (datetime * request)) :
  db_module s <> [] ->
  exists extra,
    db_attempt (serve_all s rs) = db_attempt s ++ extra
    /\ map (fun a => as_submitted (snd a)) extra = flat_map (recorded s) rs.
Proof.
  intros Hm. rewrite serve_all_run.
  destruct (run_attempts (filter encodes rs) s Hm) as (extra & A & S & _).
  exists extra. split; [exact A |]. rewrite S.
  clear. induction rs as [| r rs IH]; [reflexivity |].
  cbn [flat_map filter]. rewrite recorded_eq.
  destruct (encodes r); [cbn [flat_map] |]; now rewrite IH.
Qed.

(** Ann's four submissions: the one with a violation count of 2^63 and the
    one for day 16 are not recorded. *)
Lemma X9_attempt_history_append_only_witness :
  db_module registered <> []
  /\ map (fun a => Attempt.day_number (snd a))
         (db_attempt (serve_all registered ann_start_late)) = [1; 2].
Proof.
  assert (Hm : db_module registered <> []) by (vm_compute; discriminate).
  split; [exact Hm |].
  destruct (X9_attempt_history_append_only registered ann_start_late Hm)
    as (extra & A & S).
  rewrite A. replace (db_attempt registered) with (@nil (ObjectId * Attempt.t))
    by (vm_compute; reflexivity).
  cbn [app].
  change (map (fun a => Attempt.day_number (snd a)) extra)
    with (map (fun a => AttemptIn.day_number (as_submitted (snd a))) extra).
  rewrite <- (map_map (fun a => as_submitted (snd a)) AttemptIn.day_number), S.
  vm_compute. reflexivity.
Defined.



Lemma step_attempts_ok (s : Store) (r : datetime * request) :
  Forall attempt_ok (map snd (db_attempt s)) ->
  Forall attempt_ok (map snd (db_attempt (step s r))).
Proof.
  intros H. destruct (step_attempts s r) as (extra & A & _ & O).
  rewrite A, map_app. apply Forall_app. split; assumption.
Qed.

(** X10: every attempt record that a request writes has a total of at least
    1, a score between 0 and the total, and is flagged exactly when it
    reports a violation; so if the stored attempts are so, they all are
    after any sequence of requests. *)
Theorem X10_attempts_well_formed
        (s : Store) (rs : list (datetime * request)) :
  Forall attempt_ok (map snd (db_attempt s)) ->
  Forall attempt_ok (map snd (db_attempt (run s rs))).
Proof.
  revert s. induction rs as [| r rs IH]; intros s H; cbn [run fold_left];
    [exact H |].
  apply IH. now apply step_attempts_ok.
Qed.

(** The fifteen attempts of Ann's course. *)
Lemma X10_attempts_well_formed_witness :
  Forall attempt_ok (map snd (db_attempt empty_store))
  /\ List.length (db_attempt (run empty_store ann_course)) = 15%nat
  /\ Forall attempt_ok (map snd (db_attempt (run empty_store ann_course))).
Proof.
  assert (H0 : Forall attempt_ok (map snd (db_attempt empty_store)))
    by constructor.
  split; [exact H0 |]. split; [vm_compute; reflexivity |].
  exact (X10_attempts_well_formed empty_store ann_course H0).
Defined.

Lemma step_certificates_grow (s : Store) (r : datetime * request) :
  exists extra, db_certificate (step s r) = db_certificate s ++ extra.
Proof.
  destruct (snd r) as [| user | d | payload | uid | uid] eqn:Er.
  4: { unfold step. rewrite Er.
       destruct (submit_attempt_certificates (fst r) payload s)
         as [(_ & _ & oid & c & Hadd & _) | (_ & Hsame)].
       - exists [(oid, c)]. exact Hadd.
       - exists []. now rewrite app_nil_r. }
  all: exists []; rewrite app_nil_r; apply step_certificates; rewrite Er;
    discriminate.
Qed.

Lemma run_certificates_grow (rs : list (datetime * request)) (s : Store) :
  exists extra, db_certificate (run s rs) = db_certificate s ++ extra.
Proof.
  revert s. induction rs as [| r rs IH]; intros s; cbn [run fold_left].
  - exists []. now rewrite app_nil_r.
  - destruct (step_certificates_grow s r) as (e1 & E1).
    destruct (IH (step s r)) as (e2 & E2). unfold run in E2.
    exists (e1 ++ e2). now rewrite E2, E1, app_assoc.
Qed.

Lemma get_certificate_eq (uid : string) (s : Store) :
  get_certificate uid s
  = match List.find (certificate_of uid) (db_certificate s) with
    | Some (_, c) => (Return c, s)
    | None => (Raise (HTTPError 404 "Certificate not issued yet"), s)
    end.
Proof.
  unfold get_certificate, bind, find_one, gets. cbn [docs certificate_col].
  destruct (List.find _ _) as [[oid c] |]; reflexivity.
Qed.

(** X8: [get_certificate] raises exactly when no certificate is stored for
    the user, and then with HTTP 404; it writes nothing; and a certificate
    it returns is the user's and is returned unchanged after any sequence of
    requests: certificates are never replaced or removed. *)
Theorem X8_get_certificate_stable
        (s : Store) (rs : list (datetime * request)) (uid : string) :
  ((exists e, fst (get_certificate uid s) = Raise e)
   <-> certificates_of s uid = [])
  /\ (forall e, fst (get_certificate uid s) = Raise e ->
                e = HTTPError 404 "Certificate not issued yet")
  /\ (forall c, fst (get_certificate uid s) = Return c ->
                Certificate.user_id c = uid
                /\ fst (get_certificate uid (run s rs)) = Return c)
  /\ snd (get_certificate uid s) = s.
Proof.
  unfold certificates_of. rewrite !get_certificate_eq.
  destruct (run_certificates_grow rs s) as (extra & E). rewrite E, find_app.
  pose proof (find_none_filter (certificate_of uid) (db_certificate s)) as Hf.
  destruct (List.find (certificate_of uid) (db_certificate s))
    as [[oid c] |] eqn:F; cbn [fst snd].
  - split.
    { split; [intros [e He]; discriminate |].
      intros H. apply Hf in H. discriminate. }
    split; [discriminate |]. split; [| reflexivity].
    intros c' H. inversion H; subst c'. split; [| reflexivity].
    apply find_some in F. destruct F as [_ F]. unfold certificate_of in F.
    now apply String.eqb_eq in F.
  - split.
    { split; [intros _; now apply Hf | intros _; eexists; reflexivity]. }
    split; [intros e H; now inversion H |].
    split; [discriminate | reflexivity].
Qed.

(** ** Users *)

Lemma email_find_none (e : string) (l : Collection User.t) :
  List.find (email_is e) l = None
  <-> ~ In e (flat_map (fun u => match User.email (snd u) with
                                 | Some e' => [e']
                                 | None => []
                                 end) l).
Proof.
  induction l as [| u l IH]; simpl; [tauto |].
  unfold email_is at 1. destruct (User.email (snd u)) as [e' |]; simpl.
  - destruct (String.eqb_spec e' e) as [-> | Hne].
    + split; [discriminate | intros H; exfalso; apply H; now left].
    + rewrite IH. tauto.
  - exact IH.
Qed.

Lemma step_users (s : Store) (r : datetime * request) :
  NoDup (user_emails s) ->
  NoDup (user_emails (step s r))
  /\ exists extra, db_user (step s r) = db_user s ++ extra.
Proof.
  intros Hnd.
  assert (Hsame : db_user (step s r) = db_user s ->
                  NoDup (user_emails (step s r))
                  /\ exists extra, db_user (step s r) = db_user s ++ extra).
  { intros E. unfold user_emails. rewrite E. split; [exact Hnd |].
    exists []. now rewrite app_nil_r. }
  destruct r as [now [| user | d | payload | uid | uid]];
    unfold step in *; cbn [fst snd] in *.
  - apply Hsame. apply (seed_data_keeps_registry now s).
  - clear Hsame. rewrite create_or_get_user_eq.
    destruct (List.find _ (db_user s)) as [[oid u] |] eqn:F; cbn [snd].
    + split; [exact Hnd |]. exists []. now rewrite app_nil_r.
    + split; [| eexists; reflexivity].
      unfold user_emails. cbn [db_user]. rewrite flat_map_app.
      cbn [flat_map snd User.email app].
      apply nodup_snoc; [exact Hnd |]. now apply email_find_none.
  - apply Hsame. now rewrite get_quiz_store.
  - apply Hsame. apply (submit_attempt_content now payload s).
  - apply Hsame. now rewrite get_progress_store.
  - apply Hsame. now rewrite get_certificate_store.
Qed.

(** X11: no sequence of requests stores two users with one email, provided
    none are stored to begin with; and user records are only ever appended:
    those stored stay, unchanged and in place. *)
Theorem X11_emails_stay_unique
        (s : Store) (rs : list (datetime * request)) :
  NoDup (user_emails s) ->
  NoDup (user_emails (run s rs))
  /\ exists extra, db_user (run s rs) = db_user s ++ extra.
Proof.
  revert s. induction rs as [| r rs IH]; intros s Hnd; cbn [run fold_left].
  - split; [exact Hnd |]. exists []. now rewrite app_nil_r.
  - destruct (step_users s r Hnd) as (Hnd1 & e1 & E1).
    destruct (IH (step s r) Hnd1) as (Hnd2 & e2 & E2). unfold run in *.
    split; [exact Hnd2 |]. exists (e1 ++ e2). now rewrite E2, E1, app_assoc.
Qed.

(** Ann, Bob and Ann again: two users. *)
Lemma X11_emails_stay_unique_witness :
  NoDup (user_emails seeded)
  /\ NoDup (user_emails (run seeded registrations))
  /\ user_emails (run seeded registrations)
     = ["ann@example.org"; "bob@example.org"].
Proof.
  assert (H0 : NoDup (user_emails seeded)) by (vm_compute; constructor).
  split; [exact H0 |].
  split; [exact (proj1 (X11_emails_stay_unique seeded registrations H0)) |].
  vm_compute. reflexivity.
Defined.

(** ** Progress *)

Lemma run_progress_ids_ok (rs : list (datetime * request)) (s : Store) :
  progress_ids_ok s -> progress_ids_ok (run s rs).
Proof.
  revert s. induction rs as [| r rs IH]; intros s H; cbn [run fold_left];
    [exact H |].
  apply IH. now apply step_progress_ids_ok.
Qed.

(** X13: with unique progress [_id]s, the completed days of a user only
    grow: after any sequence of requests they are the days recorded before,
    in the same order, followed by the days completed since. *)
Theorem X13_completed_days_only_grow
        (s : Store) (rs : list (datetime * request)) (u : string)
        (days : list Z) :
  progress_ids_ok s ->
  user_days s u = Some days ->
  exists extra, user_days (run s rs) u = Some (days ++ extra).
Proof.
  revert s days. induction rs as [| r rs IH]; intros s days Hok Hd;
    cbn [run fold_left].
  - exists []. now rewrite app_nil_r.
  - pose proof (step_progress_ids_ok s r Hok) as Hok1.
    destruct (step_user_days s r u Hok)
      as [E | [(E & _) | (days' & d & E & _ & E')]].
    + rewrite <- E in Hd. exact (IH (step s r) days Hok1 Hd).
    + congruence.
    + assert (days' = days) by congruence. subst days'.
      destruct (IH (step s r) (days ++ [d]) Hok1 E') as (extra & Hx).
      exists ([d] ++ extra). now rewrite app_assoc.
Qed.

(** Ann, with 14 days done, completes the course. *)
Lemma X13_completed_days_only_grow_witness :
  progress_ids_ok ann_before_last
  /\ user_days ann_before_last ann_id = Some (range 1 15)
  /\ exists extra,
      user_days (run ann_before_last [(t0, PostAttempt (ann_attempt 15))])
                ann_id
      = Some (range 1 15 ++ extra).
Proof.
  assert (Hok : progress_ids_ok ann_before_last).
  { unfold ann_before_last. apply run_progress_ids_ok.
    split; vm_compute; constructor. }
  assert (Hd : user_days ann_before_last ann_id = Some (range 1 15))
    by (vm_compute; reflexivity).
  split; [exact Hok |]. split; [exact Hd |].
  exact (X13_completed_days_only_grow ann_before_last _ ann_id _ Hok Hd).
Defined.

(** ** The course as a whole *)

Lemma served_question (now : datetime) (payload : AttemptIn.t) (s : Store)
      (out : AttemptOut.t) :
  fst (submit_attempt now payload s) = Return out ->
  exists q, In q (db_question s)
            /\ Question.day_number (snd q) = AttemptIn.day_number payload.
Proof.
  rewrite submit_attempt_phases.
  destruct (qdocs_of payload s) as [| q rest] eqn:Eq; cbn [is_empty fst];
    [discriminate |].
  intros _. exists q.
  assert (Hin : In q (qdocs_of payload s)) by (rewrite Eq; now left).
  unfold qdocs_of in Hin. apply filter_In in Hin. destruct Hin as [Hin Hq].
  split; [exact Hin |]. unfold question_of_day in Hq. now apply Z.eqb_eq in Hq.
Qed.

(** How one request may change the completed days of a user, with the
    question that justifies a new day. *)
Lemma step_user_days_question (s : Store) (r : datetime * request)
      (u : string) :
  progress_ids_ok s ->
  user_days (step s r) u = user_days s u
  \/ (user_days s u = None /\ user_days (step s r) u = Some [])
  \/ (exists days d q,
        user_days s u = Some days /\ ~ In d days
        /\ user_days (step s r) u = Some (days ++ [d])
        /\ In q (db_question s) /\ Question.day_number (snd q) = d).
Proof.
  intros [Hnd _].
  destruct r as [now [| user | d | payload | uid | uid]];
    unfold step; cbn [fst snd].
  - left. unfold user_days.
    destruct (seed_data_keeps_registry now s) as (_ & -> & _). reflexivity.
  - rewrite create_or_get_user_eq.
    destruct (List.find _ (db_user s)) as [[oid x] |]; cbn [snd]; [now left |].
    unfold user_days. cbn [db_progress]. rewrite find_snoc.
    destruct (List.find (progress_of u) (db_progress s)) as [[i p] |];
      [now left |].
    destruct (progress_of u _); [right; left; split; reflexivity | now left].
  - left. now rewrite get_quiz_store.
  - destruct (submit_attempt_days now payload s u Hnd)
      as [Hsame | (_ & (out & Hout & _) & days & Hd & Hnotin & Hd')];
      [now left |].
    right. right.
    destruct (served_question now payload s out Hout) as (q & Hin & Hq).
    exists days, (AttemptIn.day_number payload), q. auto.
  - left. now rewrite get_progress_store.
  - left. now rewrite get_certificate_store.
Qed.

Lemma step_question_days (s : Store) (r : datetime * request) :
  Forall (fun q => 1 <= Question.day_number (snd q) <= 15) (db_question s) ->
  Forall (fun q => 1 <= Question.day_number (snd q) <= 15)
         (db_question (step s r)).
Proof.
  intros H. destruct r as [now [| user | d | payload | uid | uid]];
    unfold step; cbn [fst snd].
  - destruct (db_module s) as [| m ms] eqn:Hm.
    + rewrite (seed_data_fresh now s Hm). cbn [snd].
      destruct (seed_writes_grow now s) as (_ & _ & Q & _).
      apply (Forall_map snd (fun q => 1 <= Question.day_number q <= 15)).
      rewrite Q. apply Forall_app. split.
      * now apply (Forall_map snd (fun q => 1 <= Question.day_number q <= 15)).
      * apply Forall_forall. intros q Hin. apply in_flat_map in Hin.
        destruct Hin as (d & Hd & Hin). unfold seed_questions in Hin.
        apply in_map_iff in Hin. destruct Hin as (i & <- & _).
        rewrite seed_question_day. apply in_range in Hd. lia.
    + rewrite seed_data_guard by (rewrite Hm; discriminate). exact H.
  - rewrite create_or_get_user_eq.
    destruct (List.find _ _) as [[oid u] |]; exact H.
  - now rewrite get_quiz_store.
  - destruct (submit_attempt_content now payload s) as (_ & _ & -> & _).
    exact H.
  - now rewrite get_progress_store.
  - now rewrite get_certificate_store.
Qed.

Lemma step_count_mono (s : Store) (r : datetime * request) (u : string) :
  progress_ids_ok s ->
  (completed_count s u <= completed_count (step s r) u)%nat.
Proof.
  intros Hok. unfold completed_count.
  destruct (step_user_days s r u Hok)
    as [-> | [(-> & ->) | (days & d & -> & _ & ->)]];
    [lia | simpl; lia | rewrite length_app; lia].
Qed.

Lemma step_certified (s : Store) (r : datetime * request) :
  progress_ids_ok s ->
  (forall u, certificates_of s u <> [] -> (15 <= completed_count s u)%nat) ->
  forall u, certificates_of (step s r) u <> [] ->
            (15 <= completed_count (step s r) u)%nat.
Proof.
  intros Hok Hinv u Hc.
  destruct (certificates_of s u) as [| c0 cs] eqn:E.
  - (* a certificate for [u] is new: the request is a qualifying submission *)
    destruct (snd r) as [| user | d | payload | uid | uid] eqn:Er.
    4: { unfold step in *. rewrite Er in *.
         destruct (submit_attempt_certificates (fst r) payload s)
           as [((_ & H15) & _ & oid & c & Hadd & Hu) | (_ & Hsame)].
         - unfold certificates_of in Hc, E.
           rewrite Hadd, (certificates_of_app s), E in Hc. cbn [snd app] in Hc.
           rewrite Hu in Hc.
           destruct (String.eqb_spec (AttemptIn.user_id payload) u)
             as [<- | Hne]; [exact H15 | congruence].
         - unfold certificates_of in Hc, E. rewrite Hsame, E in Hc.
           congruence. }
    all: exfalso; apply Hc; unfold certificates_of in *;
      rewrite step_certificates by (rewrite Er; discriminate); exact E.
  - eapply Nat.le_trans; [| apply (step_count_mono s r u Hok)].
    apply Hinv. rewrite E. discriminate.
Qed.

Lemma step_course_invariant (s : Store) (r : datetime * request) :
  course_invariant s -> course_invariant (step s r).
Proof.
  intros (Hok & Hq & Hdays & Hcert).
  split; [now apply step_progress_ids_ok |].
  split; [now apply step_question_days |].
  split; [| now apply step_certified].
  intros u days1 Hd1.
  destruct (step_user_days_question s r u Hok)
    as [E | [(_ & E) | (days & d & q & E & Hnotin & E1 & Hin & Hqd)]].
  - rewrite E in Hd1. now apply (Hdays u).
  - rewrite E in Hd1. inversion Hd1. split; constructor.
  - rewrite E1 in Hd1. inversion Hd1; subst days1.
    destruct (Hdays u days E) as [Hnd Hr].
    split; [now apply nodup_snoc |].
    apply Forall_app. split; [exact Hr |].
    constructor; [| constructor].
    rewrite Forall_forall in Hq. specialize (Hq q Hin). now rewrite Hqd in Hq.
Qed.

Lemma run_course_invariant (rs : list (datetime * request)) (s : Store) :
  course_invariant s -> course_invariant (run s rs).
Proof.
  revert s. induction rs as [| r rs IH]; intros s H; cbn [run fold_left];
    [exact H |].
  apply IH. now apply step_course_invariant.
Qed.

Lemma empty_store_course_invariant : course_invariant empty_store.
Proof.
  split; [split; constructor |]. split; [constructor |].
  split; [intros u days H; discriminate H |].
  intros u H. now elim H.
Qed.

(** X14: the course invariant (unique progress [_id]s, questions only for
    days 1 to 15, completed days distinct and among 1 to 15, at least 15
    completed days behind every certificate) holds on the empty database and
    is kept by every request.  Hence, in every store reached from one that
    satisfies it, a user holding a certificate has completed exactly the
    days 1 to 15, each once. *)
Theorem X14_certificate_means_all_days
        (s0 : Store) (rs : list (datetime * request)) (u : string) :
  course_invariant s0 ->
  let s := run s0 rs in
  course_invariant s
  /\ (certificates_of s u <> [] ->
      exists days, user_days s u = Some days
                   /\ Permutation days (range 1 16)).
Proof.
  intros H0 s. pose proof (run_course_invariant rs s0 H0) as Hinv.
  fold s in Hinv. split; [exact Hinv |].
  destruct Hinv as (_ & _ & Hdays & Hcert). intros Hc.
  specialize (Hcert u Hc). unfold completed_count in Hcert.
  destruct (user_days s u) as [days |] eqn:E; [| simpl in Hcert; lia].
  exists days. split; [reflexivity |].
  destruct (Hdays u days E) as [Hnd Hr].
  apply NoDup_Permutation_bis; [exact Hnd | |].
  - replace (List.length (range 1 16)) with 15%nat by reflexivity. exact Hcert.
  - intros d Hd. rewrite Forall_forall in Hr. specialize (Hr d Hd).
    apply in_range. lia.
Qed.

(** Ann's certificate, at the end of her course. *)
Lemma X14_certificate_means_all_days_witness :
  course_invariant empty_store
  /\ certificates_of (run empty_store ann_course) ann_id <> []
  /\ exists days,
      user_days (run empty_store ann_course) ann_id = Some days
      /\ Permutation days (range 1 16).
Proof.
  split; [exact empty_store_course_invariant |].
  assert (Hc : certificates_of (run empty_store ann_course) ann_id <> [])
    by (vm_compute; discriminate).
  split; [exact Hc |].
  exact (proj2 (X14_certificate_means_all_days
                  empty_store ann_course ann_id
                  empty_store_course_invariant) Hc).
Defined.

(** ** Identifiers, and the name of a registered user *)

Lemma hex_value_digit (d : N) :
  (d < 16)%N -> hex_value (hex_digit d) = Some d.
Proof.
  intros H. destruct d as [| p]; [reflexivity |].
  do 4 (destruct p as [p | p |]; try reflexivity).
  all: exfalso; lia.
Qed.

Lemma hex_render_length (k : nat) (n : N) (acc : string) :
  String.length (hex_render k n acc) = (k + String.length acc)%nat.
Proof.
  revert n acc. induction k as [| k IH]; intros n acc; cbn [hex_render];
    [reflexivity |].
  rewrite IH. cbn [String.length]. lia.
Qed.

Lemma is_space_digit (d : N) :
  (d < 16)%N -> is_space (hex_digit d) = false.
Proof.
  intros H. destruct d as [| p]; [reflexivity |].
  do 4 (destruct p as [p | p |]; try reflexivity).
  all: exfalso; lia.
Qed.

(** Reading back what [hex_render] writes: two digits make a byte. *)
Lemma fromhex_render (k : nat) (n : N) (acc : string) (b : list N) :
  fromhex acc = Some b ->
  fromhex (hex_render (k + k) n acc) = Some (be_bytes k n b).
Proof.
  revert n acc b. induction k as [| k IH]; intros n acc b Hacc;
    [exact Hacc |].
  replace (S k + S k)%nat with (S (S (k + k))) by lia.
  cbn [hex_render be_bytes].
  rewrite (IH _ _ ((n mod 256)%N :: b)).
  - now rewrite N.Div0.div_div.
  - cbn [fromhex].
    rewrite is_space_digit by (apply N.mod_lt; lia).
    rewrite !hex_value_digit by (apply N.mod_lt; lia).
    rewrite Hacc. cbn [option_map]. do 2 f_equal.
    change 256%N with (16 * 16)%N. rewrite (N.Div0.mod_mul_r n 16 16). lia.
Qed.

(** An identifier is read back from its text. *)
Lemma ObjectId_of_str_oid (oid : ObjectId) :
  ObjectId_of_str (str_oid oid) = Some (binary oid).
Proof.
  unfold ObjectId_of_str, str_oid.
  rewrite hex_render_length. cbn [String.length Nat.add Nat.eqb].
  exact (fromhex_render 12 oid "" [] eq_refl).
Qed.

Lemma be_value_bytes (k : nat) (n : N) (acc : list N) (a : N) :
  fold_left (fun a x => (a * 256 + x)%N) (be_bytes k n acc) a
  = fold_left (fun a x => (a * 256 + x)%N) acc
              (a * 256 ^ N.of_nat k + n mod 256 ^ N.of_nat k)%N.
Proof.
  revert n acc a. induction k as [| k IH]; intros n acc a.
  - cbn [be_bytes]. change (256 ^ N.of_nat 0)%N with 1%N.
    rewrite N.mod_1_r. f_equal. lia.
  - cbn [be_bytes]. rewrite IH. cbn [fold_left].
    f_equal. rewrite Nat2N.inj_succ, N.pow_succ_r'.
    rewrite (N.Div0.mod_mul_r n 256 (256 ^ N.of_nat k)). lia.
Qed.

Lemma be_value_binary (oid : ObjectId) :
  (oid < 2 ^ 96)%N -> be_value (binary oid) = oid.
Proof.
  intros H. unfold be_value, binary. rewrite be_value_bytes. cbn [fold_left].
  change (256 ^ N.of_nat 12)%N with (2 ^ 96)%N.
  rewrite N.mod_small by exact H. lia.
Qed.

(** Within twelve bytes, distinct identifiers have distinct bytes. *)
Lemma binary_inj (a b : ObjectId) :
  (a < 2 ^ 96)%N -> (b < 2 ^ 96)%N -> binary a = binary b -> a = b.
Proof.
  intros Ha Hb E. rewrite <- (be_value_binary a Ha), <- (be_value_binary b Hb).
  now rewrite E.
Qed.

Lemma step_users_grow (s : Store) (r : datetime * request) :
  exists extra, db_user (step s r) = db_user s ++ extra.
Proof.
  destruct r as [now [| user | d | payload | uid | uid]];
    unfold step; cbn [fst snd].
  - exists []. rewrite app_nil_r. apply (seed_data_keeps_registry now s).
  - rewrite create_or_get_user_eq.
    destruct (List.find _ (db_user s)) as [[oid u] |]; cbn [snd].
    + exists []. now rewrite app_nil_r.
    + eexists. reflexivity.
  - exists []. now rewrite app_nil_r, get_quiz_store.
  - exists []. rewrite app_nil_r. apply (submit_attempt_content now payload s).
  - exists []. now rewrite app_nil_r, get_progress_store.
  - exists []. now rewrite app_nil_r, get_certificate_store.
Qed.

Lemma run_users_grow (rs : list (datetime * request)) (s : Store) :
  exists extra, db_user (run s rs) = db_user s ++ extra.
Proof.
  revert s. induction rs as [| r rs IH]; intros s; cbn [run fold_left].
  - exists []. now rewrite app_nil_r.
  - destruct (step_users_grow s r) as (e1 & E1).
    destruct (IH (step s r)) as (e2 & E2). unfold run in E2.
    exists (e1 ++ e2). now rewrite E2, E1, app_assoc.
Qed.

Lemma find_binary_fresh {A} (oid : ObjectId) (l : Collection A) :
  (oid < 2 ^ 96)%N ->
  Forall (fun i => (i < oid)%N) (map fst l) ->
  List.find (binary_is (binary oid)) l = None.
Proof.
  intros Hb. induction l as [| a l IH]; intros H; [reflexivity |].
  inversion H as [| x xs Hlt Hrest]; subst. cbn [List.find].
  destruct (binary_is (binary oid) a) eqn:E; [| now apply IH].
  unfold binary_is in E. apply bytes_eqb_eq, binary_inj in E; lia.
Qed.

(** X12: a user who registers with a new email and a name that is not empty
    gets, whenever a later submission under the returned id issues the
    certificate, a certificate in the registered name (["Participant"] for an
    empty name), whatever requests are served in between.  The database is
    assumed to hand out user [_id]s in increasing order, within 12 bytes. *)
Theorem X12_certificate_bears_registered_name
        (now now' : datetime) (user : UserIn.t) (s : Store)
        (rs : list (datetime * request)) (payload : AttemptIn.t)
        (id : string) (oid : ObjectId) (c : Certificate.t) :
  user_ids_ok s ->
  (next_oid s < 2 ^ 96)%N ->
  List.find (email_is (UserIn.email user)) (db_user s) = None ->
  let reg := create_or_get_user now user s in
  let s1 := run (snd reg) rs in
  fst reg = Return (UserOut.mk id (Some (UserIn.name user))
                               (Some (UserIn.email user))) ->
  AttemptIn.user_id payload = id ->
  db_certificate (snd (submit_attempt now' payload s1))
  = db_certificate s1 ++ [(oid, c)] ->
  Certificate.user_id c = id
  /\ Certificate.name c
     = (if String.eqb (UserIn.name user) "" then "Participant"
        else UserIn.name user).
Proof.
  intros Hids Hbound Hnew. cbv zeta.
  rewrite create_or_get_user_eq, Hnew. cbn [fst snd].
  intros Hreg Hid Hissued. inversion Hreg as [Hid']. clear Hreg.
  set (u := User.mk (Some (UserIn.name user)) (Some (UserIn.email user))
                    now now) in *.
  rewrite (submit_attempt_issued now' payload _ oid c Hissued).
  cbn [Certificate.user_id Certificate.name]. split; [congruence |].
  replace (AttemptIn.user_id payload) with (str_oid (next_oid s))
    by congruence.
  unfold looked_up.
  rewrite ObjectId_of_str_oid.
  match goal with
  | |- context [run ?st rs] => destruct (run_users_grow rs st) as (extra & E)
  end.
  rewrite E. cbn [db_user]. rewrite !find_app.
  rewrite (find_binary_fresh (next_oid s) (db_user s) Hbound Hids).
  cbn [List.find]. unfold binary_is at 1. cbn [fst].
  rewrite (proj2 (bytes_eqb_eq _ _) eq_refl).
  unfold name_or, truthy, u. cbn [User.name get_default].
  now destruct (String.eqb (UserIn.name user) "").
Qed.

(** Ann registers, passes 14 days, and gets her certificate with day 15. *)
Lemma X12_certificate_bears_registered_name_witness :
  let s1 := run (snd (create_or_get_user t0 ann seeded)) ann_first_14 in
  user_ids_ok seeded
  /\ (next_oid seeded < 2 ^ 96)%N
  /\ List.find (email_is (UserIn.email ann)) (db_user seeded) = None
  /\ exists oid c,
      db_certificate (snd (submit_attempt t0 (ann_attempt 15) s1))
      = db_certificate s1 ++ [(oid, c)]
      /\ Certificate.name c = "Ann".
Proof.
  intros s1.
  assert (Hids : user_ids_ok seeded) by (vm_compute; constructor).
  assert (Hb : (next_oid seeded < 2 ^ 96)%N) by (vm_compute; reflexivity).
  assert (Hnew : List.find (email_is (UserIn.email ann)) (db_user seeded) = None)
    by (vm_compute; reflexivity).
  split; [exact Hids |]. split; [exact Hb |]. split; [exact Hnew |].
  assert (E : exists oid c,
             db_certificate (snd (submit_attempt t0 (ann_attempt 15) s1))
             = db_certificate s1 ++ [(oid, c)]).
  { vm_compute. eexists _, _. reflexivity. }
  destruct E as (oid & c & E). exists oid, c. split; [exact E |].
  assert (Hreg : fst (create_or_get_user t0 ann seeded)
                 = Return (UserOut.mk ann_id (Some (UserIn.name ann))
                                      (Some (UserIn.email ann))))
    by (vm_compute; reflexivity).
  exact (proj2 (X12_certificate_bears_registered_name
                  t0 t0 ann seeded ann_first_14 (ann_attempt 15) ann_id oid c
                  Hids Hb Hnew Hreg eq_refl E)).
Defined.

(** ** More on scoring *)

Lemma score_loop_perfect (extra : list Z) :
  forall (qdocs : Collection Question.t) (pre correct : list Z) (acc : Z),
    stored_answers qdocs = map Some correct ->
    score_loop (List.length pre) qdocs (pre ++ correct ++ extra) acc
    = acc + Z.of_nat (List.length qdocs).
Proof.
  unfold stored_answers.
  induction qdocs as [| q rest IH]; intros pre correct acc Hc.
  - simpl. lia.
  - destruct correct as [| a cs]; [discriminate |].
    cbn [map] in Hc. inversion Hc as [[Ha Hrest]].
    cbn [score_loop]. rewrite Ha.
    assert (Hlt : (List.length pre <? List.length (pre ++ (a :: cs) ++ extra))%nat
                  = true).
    { apply Nat.ltb_lt. rewrite length_app. simpl. lia. }
    rewrite Hlt. cbn [app]. rewrite nth_middle. cbn [py_eq andb].
    rewrite Z.eqb_refl.
    replace (pre ++ a :: cs ++ extra) with ((pre ++ [a]) ++ cs ++ extra)
      by (now rewrite <- app_assoc).
    replace (S (List.length pre)) with (List.length (pre ++ [a]))
      by (rewrite length_app; simpl; lia).
    rewrite (IH (pre ++ [a]) cs (acc + 1) Hrest).
    cbn [List.length]. lia.
Qed.

(** X17: a served submission whose answers begin with the stored answers of
    the day's questions, in store order, scores the total; it passes exactly
    when it reports no violation. *)
Theorem X17_perfect_answers_score_total
        (now : datetime) (payload : AttemptIn.t) (s : Store)
        (correct extra : list Z) :
  let qdocs :=
    filter (question_of_day (AttemptIn.day_number payload)) (db_question s) in
  qdocs <> [] ->
  stored_answers qdocs = map Some correct ->
  AttemptIn.answers payload = correct ++ extra ->
  exists out,
    fst (submit_attempt now payload s) = Return out
    /\ AttemptOut.score out = AttemptOut.total out
    /\ AttemptOut.passed out = negb (AttemptIn.violations payload >? 0)
    /\ (AttemptIn.violations payload = 0 -> AttemptOut.passed out = true).
Proof.
  intros qdocs Hq Hc Ha. change qdocs with (qdocs_of payload s) in *.
  rewrite submit_attempt_phases, (is_empty_false _ Hq).
  exists (response_of payload s).
  cbn [fst response_of AttemptOut.score AttemptOut.total AttemptOut.passed].
  assert (Hs : score_of payload s = total_of payload s).
  { unfold score_of, total_of. rewrite Ha.
    exact (score_loop_perfect extra (qdocs_of payload s) [] correct 0 Hc). }
  assert (Hp : passed_of payload s = negb (AttemptIn.violations payload >? 0)).
  { unfold passed_of, flagged_of.
    rewrite (pass_mark _ _ (total_of_pos _ _ Hq)), Hs.
    pose proof (total_of_pos _ _ Hq).
    replace (3 * total_of payload s <=? 5 * total_of payload s) with true
      by (symmetry; apply Z.leb_le; lia).
    reflexivity. }
  split; [reflexivity |]. split; [exact Hs |]. split; [exact Hp |].
  intros Hv. rewrite Hp, Hv. reflexivity.
Qed.

(** Ann answers day 1 perfectly, with one answer too many. *)
Lemma X17_perfect_answers_score_total_witness :
  let payload := AttemptIn.mk ann_id 1 (perfect ++ [7]) 0 in
  filter (question_of_day 1) (db_question registered) <> []
  /\ stored_answers (filter (question_of_day 1) (db_question registered))
     = map Some perfect
  /\ fst (submit_attempt t0 payload registered)
     = Return (AttemptOut.mk 5 5 true false 0).
Proof.
  intros payload.
  assert (Hq : filter (question_of_day 1) (db_question registered) <> [])
    by (vm_compute; discriminate).
  assert (Hc : stored_answers (filter (question_of_day 1)
                                      (db_question registered))
               = map Some perfect) by (vm_compute; reflexivity).
  split; [exact Hq |]. split; [exact Hc |].
  destruct (X17_perfect_answers_score_total
              t0 payload registered perfect [7] Hq Hc eq_refl)
    as (out & Hout & _).
  rewrite Hout. vm_compute in Hout. now inversion Hout.
Defined.

Lemma score_loop_app (answers extra : list Z) :
  forall (qdocs : Collection Question.t) (i : nat) (acc : Z),
    (i + List.length qdocs <= List.length answers)%nat ->
    score_loop i qdocs (answers ++ extra) acc
    = score_loop i qdocs answers acc.
Proof.
  induction qdocs as [| q rest IH]; intros i acc Hlen; [reflexivity |].
  cbn [score_loop List.length] in *.
  rewrite IH by lia. f_equal.
  rewrite length_app, app_nth1 by lia.
  replace (i <? List.length answers + List.length extra)%nat with true
    by (symmetry; apply Nat.ltb_lt; lia).
  replace (i <? List.length answers)%nat with true
    by (symmetry; apply Nat.ltb_lt; lia).
  reflexivity.
Qed.

Lemma submit_attempt_surplus
      (now : datetime) (payload : AttemptIn.t) (extra : list Z) (s : Store) :
  (List.length (qdocs_of payload s)
   <= List.length (AttemptIn.answers payload))%nat ->
  fst (submit_attempt now (with_more_answers payload extra) s)
  = fst (submit_attempt now payload s).
Proof.
  intros Hlen. rewrite !submit_attempt_phases.
  change (qdocs_of (with_more_answers payload extra) s)
    with (qdocs_of payload s).
  destruct (is_empty (qdocs_of payload s)); [reflexivity |].
  cbn [fst]. f_equal.
  unfold response_of, passed_of, score_of, total_of, flagged_of.
  change (qdocs_of (with_more_answers payload extra) s)
    with (qdocs_of payload s).
  cbn [with_more_answers AttemptIn.answers AttemptIn.violations].
  now rewrite (score_loop_app (AttemptIn.answers payload) extra
                              (qdocs_of payload s) 0 0 Hlen).
Qed.

(** X18: answers beyond the number of the day's questions are ignored: when
    a submission has at least as many answers as the day has questions,
    appending further answers, each within 8 bytes, changes neither the
    outcome of [POST /attempt] nor the returned score, total, pass and
    flag. *)
Theorem X18_surplus_answers_ignored
        (now : datetime) (payload : AttemptIn.t) (extra : list Z) (s : Store) :
  (List.length (filter (question_of_day (AttemptIn.day_number payload))
                       (db_question s))
   <= List.length (AttemptIn.answers payload))%nat ->
  forallb int64 extra = true ->
  fst (post_attempt now (with_more_answers payload extra) s)
  = fst (post_attempt now payload s).
Proof.
  intros Hlen Hextra. rewrite !post_attempt_eq.
  change (qdocs_of (with_more_answers payload extra) s)
    with (qdocs_of payload s).
  cbn [with_more_answers AttemptIn.day_number AttemptIn.answers
       AttemptIn.violations].
  rewrite forallb_app, Hextra, andb_true_r.
  destruct (int64 (AttemptIn.day_number payload)); [| reflexivity].
  destruct (is_empty (qdocs_of payload s)); [reflexivity |].
  destruct (forallb int64 (AttemptIn.answers payload)
            && int64 (AttemptIn.violations payload)); [| reflexivity].
  exact (submit_attempt_surplus now payload extra s Hlen).
Qed.

(** Five right answers for day 1, followed by two more. *)
Lemma X18_surplus_answers_ignored_witness :
  (List.length (filter (question_of_day 1) (db_question registered))
   <= List.length perfect)%nat
  /\ fst (post_attempt t0 (AttemptIn.mk ann_id 1 (perfect ++ [9; 9]) 0)
                       registered)
     = Return (AttemptOut.mk 5 5 true false 0).
Proof.
  assert (H : (List.length (filter (question_of_day 1) (db_question registered))
               <= List.length perfect)%nat) by (vm_compute; lia).
  split; [exact H |].
  change (AttemptIn.mk ann_id 1 (perfect ++ [9; 9]) 0)
    with (with_more_answers (ann_attempt 1) [9; 9]).
  rewrite (X18_surplus_answers_ignored t0 (ann_attempt 1) [9; 9] registered H
                                       eq_refl).
  vm_compute. reflexivity.
Defined.

Lemma filter_length_lt {A} (f : A -> bool) (l : list A) (x : A) :
  In x l -> f x = false -> (List.length (filter f l) < List.length l)%nat.
Proof.
  induction l as [| a l IH]; intros Hin Hx; [contradiction |].
  cbn [filter]. pose proof (filter_length_le f l).
  destruct Hin as [-> | Hin].
  - rewrite Hx. simpl. lia.
  - specialize (IH Hin Hx). destruct (f a); simpl; lia.
Qed.

(** X19: a question stored without [answer_index] can never be answered
    right: when the submitted day has such a question, the score stays
    below the total whatever the answers. *)
Theorem X19_missing_answer_never_scored
        (now : datetime) (payload : AttemptIn.t) (s : Store)
        (q : ObjectId * Question.t) :
  In q (filter (question_of_day (AttemptIn.day_number payload))
               (db_question s)) ->
  Question.answer_index (snd q) = None ->
  exists out,
    fst (submit_attempt now payload s) = Return out
    /\ AttemptOut.score out < AttemptOut.total out.
Proof.
  intros Hin Hnone. change (filter _ (db_question s)) with (qdocs_of payload s) in Hin.
  assert (Hq : qdocs_of payload s <> []).
  { intros E. rewrite E in Hin. contradiction. }
  rewrite submit_attempt_phases, (is_empty_false _ Hq).
  exists (response_of payload s). split; [reflexivity |].
  cbn [response_of AttemptOut.score AttemptOut.total].
  unfold score_of, total_of. rewrite score_loop_count. cbn [Z.add].
  apply In_nth_error in Hin. destruct Hin as [j Hj].
  assert (Hjlt : (j < List.length (qdocs_of payload s))%nat).
  { apply nth_error_Some. rewrite Hj. discriminate. }
  pose proof (filter_length_lt
                (hit (qdocs_of payload s) (AttemptIn.answers payload) 0)
                (seq 0 (List.length (qdocs_of payload s))) j) as Hlt.
  rewrite length_seq in Hlt. apply inj_lt. apply Hlt.
  - apply in_seq. lia.
  - unfold hit. rewrite Nat.sub_0_r, Hj, Hnone.
    destruct (nth_error (AttemptIn.answers payload) j); reflexivity.
Qed.

(** The only question of [blank_store] has no answer: any answer is
    wrong. *)
Lemma X19_missing_answer_never_scored_witness :
  let q := (0%N, Question.mk 1 "Which one?" ["Option A"; "Option B"] None t0 t0) in
  In q (filter (question_of_day 1) (db_question blank_store))
  /\ Question.answer_index (snd q) = None
  /\ fst (submit_attempt t0 (AttemptIn.mk ann_id 1 [0] 0) blank_store)
     = Return (AttemptOut.mk 0 1 false false 0).
Proof.
  intros q.
  assert (Hin : In q (filter (question_of_day 1) (db_question blank_store)))
    by (vm_compute; now left).
  split; [exact Hin |]. split; [reflexivity |].
  destruct (X19_missing_answer_never_scored
              t0 (AttemptIn.mk ann_id 1 [0] 0) blank_store q Hin eq_refl)
    as (out & Hout & _).
  rewrite Hout. vm_compute in Hout. now inversion Hout.
Defined.

(** X20: the quiz and its scoring agree: [get_quiz] for a day and
    [submit_attempt] for that day raise together (404 and 400), and when they
    return, the [total] of the attempt is the number of questions of the
    quiz, and the score lies between 0 and that number. *)
Theorem X20_quiz_and_attempt_agree
        (now : datetime) (payload : AttemptIn.t) (s : Store) :
  let quiz := fst (get_quiz (AttemptIn.day_number payload) s) in
  let att := fst (submit_attempt now payload s) in
  ((exists e, quiz = Raise e) <-> (exists e, att = Raise e))
  /\ forall qz out,
      quiz = Return qz -> att = Return out ->
      AttemptOut.total out = Z.of_nat (List.length (QuizOut.questions qz))
      /\ 0 <= AttemptOut.score out <= AttemptOut.total out.
Proof.
  cbv zeta. rewrite get_quiz_eq, submit_attempt_phases. cbv zeta.
  unfold without_id. fold (qdocs_of payload s).
  destruct (qdocs_of payload s) as [| q rest] eqn:Eq; cbn [map is_empty fst].
  - split; [split; intros _; eexists; reflexivity |].
    intros qz out H. discriminate H.
  - split; [split; intros [e He]; discriminate |].
    intros qz out Hqz Hout. inversion Hqz; subst qz. inversion Hout; subst out.
    cbn [QuizOut.questions response_of AttemptOut.total AttemptOut.score].
    unfold total_of, score_of. rewrite Eq. cbn [List.length].
    rewrite !length_map. split; [reflexivity |].
    pose proof (score_loop_bounds (q :: rest) (AttemptIn.answers payload)) as B.
    cbn [List.length] in B. exact B.
Qed.

(** ** Progress after a submission *)

(** X15: a submission that does not pass leaves the progress collection as
    it was; in particular a submission that reports a violation never
    changes the progress, whatever its answers. *)
Theorem X15_failed_attempt_keeps_progress
        (now : datetime) (payload : AttemptIn.t) (s : Store) :
  (forall out, fst (submit_attempt now payload s) = Return out ->
               AttemptOut.passed out = false ->
               db_progress (snd (submit_attempt now payload s)) = db_progress s)
  /\ (0 < AttemptIn.violations payload ->
      db_progress (snd (submit_attempt now payload s)) = db_progress s).
Proof.
  assert (Hfail : passed_of payload s = false ->
                  db_progress (issue_certificate now payload
                                 (update_progress now payload (passed_of payload s)
                                    (record_attempt now payload s)))
                  = db_progress s).
  { intros Hp. rewrite Hp.
    destruct (issue_certificate_frame now payload
                (update_progress now payload false
                                 (record_attempt now payload s)))
      as (_ & -> & _).
    reflexivity. }
  rewrite submit_attempt_phases.
  destruct (is_empty (qdocs_of payload s)); cbn [fst snd].
  - split; [discriminate | reflexivity].
  - split.
    + intros out Hout Hp. inversion Hout; subst out.
      cbn [response_of AttemptOut.passed] in Hp. now apply Hfail.
    + intros Hv. apply Hfail. unfold passed_of, flagged_of.
      replace (AttemptIn.violations payload >? 0) with true
        by (symmetry; apply Z.gtb_lt; lia).
      apply andb_false_r.
Qed.

(** Ann answers day 1 perfectly, but with a violation. *)
Lemma X15_failed_attempt_keeps_progress_witness :
  let payload := AttemptIn.mk ann_id 1 perfect 2 in
  0 < AttemptIn.violations payload
  /\ user_days (snd (submit_attempt t0 payload registered)) ann_id = Some [].
Proof.
  intros payload. split; [reflexivity |].
  unfold user_days.
  rewrite (proj2 (X15_failed_attempt_keeps_progress t0 payload registered))
    by reflexivity.
  vm_compute. reflexivity.
Defined.

Lemma get_progress_eq (uid : string) (s : Store) :
  get_progress uid s
  = match List.find (progress_of uid) (db_progress s) with
    | Some (_, p) => (Return (ProgressOut.of_doc p), s)
    | None => (Return (ProgressOut.mk uid (Some []) None None), s)
    end.
Proof.
  unfold get_progress, bind, find_one, gets. cbn [docs progress_col].
  destruct (List.find _ _) as [[oid p] |]; reflexivity.
Qed.

(** X16: with unique progress [_id]s, after a passing submission by a user
    who has a progress record, [get_progress] for that user returns
    completed days that contain the submitted day: the days recorded before,
    followed by the submitted day unless it was among them. *)
Theorem X16_pass_shows_in_progress
        (now : datetime) (payload : AttemptIn.t) (s : Store)
        (out : AttemptOut.t) (days : list Z) :
  progress_ids_ok s ->
  user_days s (AttemptIn.user_id payload) = Some days ->
  fst (submit_attempt now payload s) = Return out ->
  AttemptOut.passed out = true ->
  let s' := snd (submit_attempt now payload s) in
  let d := AttemptIn.day_number payload in
  exists p,
    fst (get_progress (AttemptIn.user_id payload) s') = Return p
    /\ ProgressOut.user_id p = AttemptIn.user_id payload
    /\ ProgressOut.completed_days p
       = Some (if py_in d days then days else days ++ [d])
    /\ In d (if py_in d days then days else days ++ [d]).
Proof.
  intros Hok Hdays Hout Hp. cbv zeta.
  pose proof (submit_attempt_own_days now payload s days out
                                      (proj1 Hok) Hdays Hout Hp) as Hown.
  set (s' := snd (submit_attempt now payload s)) in *.
  set (d := AttemptIn.day_number payload) in *.
  set (l := if py_in d days then days else days ++ [d]) in *.
  assert (Hin : In d l).
  { unfold l. destruct (py_in d days) eqn:E.
    - destruct (in_dec Z.eq_dec d days) as [H | H]; [exact H |].
      apply py_in_false in H. congruence.
    - apply in_or_app. right. now left. }
  rewrite get_progress_eq. unfold user_days in Hown.
  destruct (List.find (progress_of (AttemptIn.user_id payload)) (db_progress s'))
    as [[oid p] |] eqn:F; [| discriminate].
  exists (ProgressOut.of_doc p). cbn [fst].
  split; [reflexivity |]. split.
  { apply find_some in F. destruct F as [_ F]. unfold progress_of in F.
    cbn [ProgressOut.of_doc ProgressOut.user_id]. now apply String.eqb_eq in F. }
  split; [| exact Hin].
  cbn [ProgressOut.of_doc ProgressOut.completed_days].
  inversion Hown as [Hl]. rewrite Hl.
  destruct (Progress.completed_days p) as [x |]; cbn [get_default] in *;
    [congruence |].
  rewrite <- Hl in Hin. contradiction.
Qed.

(** Ann passes day 3 right after registering. *)
Lemma X16_pass_shows_in_progress_witness :
  let payload := ann_attempt 3 in
  progress_ids_ok registered
  /\ user_days registered ann_id = Some []
  /\ exists p,
      fst (get_progress ann_id (snd (submit_attempt t0 payload registered)))
      = Return p
      /\ ProgressOut.completed_days p = Some [3].
Proof.
  intros payload.
  assert (Hok : progress_ids_ok registered).
  { split; vm_compute;
      [apply NoDup_cons; [tauto | apply NoDup_nil] | repeat constructor]. }
  assert (Hd : user_days registered ann_id = Some []) by (vm_compute; reflexivity).
  assert (Hout : fst (submit_attempt t0 payload registered)
                 = Return (AttemptOut.mk 5 5 true false 0))
    by (vm_compute; reflexivity).
  split; [exact Hok |]. split; [exact Hd |].
  destruct (X16_pass_shows_in_progress t0 payload registered _ [] Hok Hd Hout
                                       eq_refl)
    as (p & Hp & _ & Hc & _).
  exists p. split; [exact Hp | exact Hc].
Defined.

(** ** Identifiers of distinct users *)

Lemma step_next_oid (s : Store) (r : datetime * request) :
  (next_oid s <= next_oid (step s r))%N.
Proof.
  destruct r as [now [| user | d | payload | uid | uid]];
    unfold step; cbn [fst snd].
  - apply (seed_data_keeps_registry now s).
  - rewrite create_or_get_user_eq.
    destruct (List.find _ _) as [[oid u] |]; cbn [snd next_oid]; lia.
  - rewrite get_quiz_store. lia.
  - apply (submit_attempt_progress_ids now payload s).
  - rewrite get_progress_store. lia.
  - rewrite get_certificate_store. lia.
Qed.

Lemma run_next_oid (rs : list (datetime * request)) (s : Store) :
  (next_oid s <= next_oid (run s rs))%N.
Proof.
  revert s. induction rs as [| r rs IH]; intros s; cbn [run fold_left];
    [lia |].
  pose proof (step_next_oid s r). specialize (IH (step s r)).
  unfold run in IH. lia.
Qed.

Lemma str_oid_inj (a b : ObjectId) :
  (a < 2 ^ 96)%N -> (b < 2 ^ 96)%N -> str_oid a = str_oid b -> a = b.
Proof.
  intros Ha Hb E.
  pose proof (ObjectId_of_str_oid a) as Ra.
  pose proof (ObjectId_of_str_oid b) as Rb.
  rewrite E in Ra. apply binary_inj; congruence.
Qed.

(** X21: two registrations that both create a user return different ids,
    whatever requests are served in between, as long as the database's
    identifiers fit in 12 bytes. *)
Theorem X21_new_users_get_distinct_ids
        (now1 now2 : datetime) (user1 user2 : UserIn.t) (s : Store)
        (rs : list (datetime * request)) (out1 out2 : UserOut.t) :
  let reg1 := create_or_get_user now1 user1 s in
  let s1 := run (snd reg1) rs in
  let reg2 := create_or_get_user now2 user2 s1 in
  List.find (email_is (UserIn.email user1)) (db_user s) = None ->
  List.find (email_is (UserIn.email user2)) (db_user s1) = None ->
  (next_oid s1 < 2 ^ 96)%N ->
  fst reg1 = Return out1 -> fst reg2 = Return out2 ->
  UserOut.id out1 <> UserOut.id out2.
Proof.
  cbv zeta. intros Hnew1. rewrite (create_or_get_user_eq now1 user1 s), Hnew1.
  cbn [fst snd].
  match goal with
  | |- context [run ?st rs] => set (s0 := st)
  end.
  intros Hnew2. rewrite (create_or_get_user_eq now2 user2 (run s0 rs)), Hnew2.
  cbn [fst]. intros Hb H1 H2. inversion H1; subst out1. inversion H2; subst out2.
  cbn [UserOut.id]. intros E.
  pose proof (run_next_oid rs s0) as Hmono.
  assert (Hlt : (next_oid s < next_oid s0)%N) by (unfold s0; cbn [next_oid]; lia).
  apply str_oid_inj in E; lia.
Qed.

(** Ann, then Bob. *)
Lemma X21_new_users_get_distinct_ids_witness :
  let reg1 := create_or_get_user t0 ann seeded in
  let reg2 := create_or_get_user t0 bob (run (snd reg1) []) in
  List.find (email_is (UserIn.email ann)) (db_user seeded) = None
  /\ List.find (email_is (UserIn.email bob)) (db_user (run (snd reg1) [])) = None
  /\ forall out1 out2,
      fst reg1 = Return out1 -> fst reg2 = Return out2 ->
      UserOut.id out1 <> UserOut.id out2.
Proof.
  intros reg1 reg2.
  assert (H1 : List.find (email_is (UserIn.email ann)) (db_user seeded) = None)
    by (vm_compute; reflexivity).
  assert (H2 : List.find (email_is (UserIn.email bob))
                         (db_user (run (snd reg1) [])) = None)
    by (vm_compute; reflexivity).
  assert (Hb : (next_oid (run (snd reg1) []) < 2 ^ 96)%N)
    by (vm_compute; reflexivity).
  split; [exact H1 |]. split; [exact H2 |].
  intros out1 out2.
  exact (X21_new_users_get_distinct_ids t0 t0 ann bob seeded [] out1 out2
                                        H1 H2 Hb).
Defined.

(** ** No certificate is missed *)

Lemma certificates_grow_nonempty (s s' : Store) (u : string)
      (extra : Collection Certificate.t) :
  db_certificate s' = db_certificate s ++ extra ->
  certificates_of s u <> [] -> certificates_of s' u <> [].
Proof.
  unfold certificates_of. intros -> H. rewrite filter_app.
  destruct (filter (certificate_of u) (db_certificate s)); [congruence |].
  discriminate.
Qed.

Lemma step_none_uncertified (s : Store) (r : datetime * request) :
  progress_ids_ok s -> none_uncertified s -> none_uncertified (step s r).
Proof.
  intros Hok Hinv u H15.
  destruct (step_certificates_grow s r) as (extra & Hgrow).
  assert (Hkeep : completed_count s u = completed_count (step s r) u ->
                  certificates_of (step s r) u <> []).
  { intros E. apply (certificates_grow_nonempty s _ u extra Hgrow).
    apply Hinv. now rewrite E. }
  destruct r as [now [| user | d | payload | uid | uid]];
    unfold step in *; cbn [fst snd] in *.
  - apply Hkeep. unfold completed_count, user_days.
    destruct (seed_data_keeps_registry now s) as (_ & -> & _). reflexivity.
  - revert H15 Hkeep. rewrite create_or_get_user_eq.
    destruct (List.find _ (db_user s)) as [[oid x] |]; cbn [snd];
      [intros _ Hkeep; now apply Hkeep |].
    unfold completed_count, user_days. cbn [db_progress]. rewrite find_snoc.
    destruct (List.find (progress_of u) (db_progress s)) as [[i p] |];
      [intros _ Hkeep; now apply Hkeep |].
    destruct (progress_of u _); simpl; intros H; lia.
  - apply Hkeep. now rewrite get_quiz_store.
  - destruct (submit_attempt_days now payload s u (proj1 Hok))
      as [Hsame | (Hu & (out & Hout & _) & _)].
    + apply Hkeep. unfold completed_count. now rewrite Hsame.
    + subst u.
      destruct (submit_attempt_certificates now payload s)
        as [(_ & _ & oid & c & Hadd & Hc) | ([Hnq | Hex] & Hsame)].
      * unfold certificates_of. rewrite Hadd, (certificates_of_app s).
        cbn [snd]. rewrite Hc, String.eqb_refl.
        intros E. apply app_eq_nil in E. destruct E as [_ E]. discriminate E.
      * exfalso. apply Hnq. split; [| exact H15].
        destruct (served_question now payload s out Hout) as (q & Hin & Hq).
        intros E. unfold qdocs_of in E.
        assert (Hf : In q (filter (question_of_day (AttemptIn.day_number payload))
                                  (db_question s))).
        { apply filter_In. split; [exact Hin |].
          unfold question_of_day. now apply Z.eqb_eq. }
        rewrite E in Hf. contradiction.
      * unfold certificates_of. rewrite Hsame. intros E.
        apply find_none_filter in E. contradiction.
  - apply Hkeep. now rewrite get_progress_store.
  - apply Hkeep. now rewrite get_certificate_store.
Qed.

(** X22: with unique progress [_id]s, if every user with at least 15
    completed days holds a certificate, this is still so after any sequence
    of requests: the submission that brings a user to 15 completed days
    issues the certificate in the same request. *)
Theorem X22_no_certificate_missed
        (s0 : Store) (rs : list (datetime * request)) :
  progress_ids_ok s0 ->
  none_uncertified s0 ->
  none_uncertified (run s0 rs).
Proof.
  revert s0. induction rs as [| r rs IH]; intros s Hok Hinv;
    cbn [run fold_left]; [exact Hinv |].
  apply IH; [now apply step_progress_ids_ok | now apply step_none_uncertified].
Qed.

(** Ann has 15 completed days at the end of her course, and a
    certificate. *)
Lemma X22_no_certificate_missed_witness :
  progress_ids_ok empty_store
  /\ none_uncertified empty_store
  /\ completed_count (run empty_store ann_course) ann_id = 15%nat
  /\ certificates_of (run empty_store ann_course) ann_id <> [].
Proof.
  assert (Hok : progress_ids_ok empty_store) by (split; constructor).
  assert (H0 : none_uncertified empty_store).
  { intros u H. vm_compute in H. lia. }
  assert (Hc : completed_count (run empty_store ann_course) ann_id = 15%nat)
    by (vm_compute; reflexivity).
  split; [exact Hok |]. split; [exact H0 |]. split; [exact Hc |].
  apply (X22_no_certificate_missed empty_store ann_course Hok H0).
  rewrite Hc. lia.
Defined.

(** ** Sample runs of the retrieval handlers *)

(** The technical days of a freshly seeded database are days 6 to 10. *)
Lemma X4_get_days_filtered_sorted_witness :
  exists days,
    get_days (Some "technical") seeded = (Return days, seeded)
    /\ map Day.day_number days = [6; 7; 8; 9; 10].
Proof.
  destruct (X4_get_days_filtered_sorted (Some "technical") seeded)
    as (days & Hrun & _).
  exists days. split; [exact Hrun |].
  assert (H : match fst (get_days (Some "technical") seeded) with
              | Return l => map Day.day_number l
              | Raise _ => []
              end = [6; 7; 8; 9; 10]) by (vm_compute; reflexivity).
  rewrite Hrun in H. exact H.
Defined.

(** There is no day 16. *)
Lemma X5_get_day_not_found_witness :
  ~ In 16 (day_numbers seeded)
  /\ fst (get_day 16 seeded) = Raise (HTTPError 404 "Day not found").
Proof.
  assert (H : ~ In 16 (day_numbers seeded)).
  { vm_compute. intuition discriminate. }
  split; [exact H |].
  destruct (X5_get_day_not_found 16 seeded) as (Hiff & Herr & _).
  destruct (proj2 Hiff H) as [e He]. rewrite He.
  rewrite (Herr e He). reflexivity.
Defined.

(** Ann's certificate is still the same after she submits again. *)
Lemma X8_get_certificate_stable_witness :
  exists c,
    fst (get_certificate ann_id (run empty_store ann_course)) = Return c
    /\ Certificate.name c = "Ann"
    /\ fst (get_certificate ann_id
              (run (run empty_store ann_course)
                   [(t0, PostAttempt (ann_attempt 1))]))
       = Return c.
Proof.
  assert (H : match fst (get_certificate ann_id (run empty_store ann_course))
              with
              | Return c => Certificate.name c
              | Raise _ => ""
              end = "Ann") by (vm_compute; reflexivity).
  destruct (fst (get_certificate ann_id (run empty_store ann_course)))
    as [c | e] eqn:E; [| discriminate H].
  exists c. split; [reflexivity |]. split; [exact H |].
  destruct (X8_get_certificate_stable
              (run empty_store ann_course)
              [(t0, PostAttempt (ann_attempt 1))] ann_id)
    as (_ & _ & Hstable & _).
  exact (proj2 (Hstable c E)).
Defined.

(** The quiz of day 1 has five questions, and an attempt at it a total of
    five. *)
Lemma X20_quiz_and_attempt_agree_witness :
  exists qz out,
    fst (get_quiz 1 registered) = Return qz
    /\ fst (submit_attempt t0 (ann_attempt 1) registered) = Return out
    /\ List.length (QuizOut.questions qz) = 5%nat
    /\ AttemptOut.total out = 5.
Proof.
  assert (Hl : match fst (get_quiz 1 registered) with
               | Return qz => List.length (QuizOut.questions qz)
               | Raise _ => 0%nat
               end = 5%nat) by (vm_compute; reflexivity).
  assert (Ha : exists out,
             fst (submit_attempt t0 (ann_attempt 1) registered) = Return out)
    by (vm_compute; eexists; reflexivity).
  destruct Ha as [out Ea].
  destruct (fst (get_quiz 1 registered)) as [qz | e] eqn:Eq;
    [| discriminate Hl].
  exists qz, out. split; [reflexivity |]. split; [exact Ea |].
  destruct (X20_quiz_and_attempt_agree t0 (ann_attempt 1) registered)
    as [_ H].
  destruct (H qz out Eq Ea) as [Ht _].
  split; [exact Hl |]. rewrite Ht, Hl. reflexivity.
Defined.
